(** * n8n-chat-app: the response normalizer, the persistence fallback store,
      the chart adapter, the mixed-content renderer and the chat store

    A shallow embedding of the TypeScript sources

    - [lib/n8n-client.ts], the second file of [src/unnamed/part_005]
        (class [N8NClient]: [sendMessage], [sendMessageWithRetry],
        [deduplicateContent], [isMixedContent], [validateResponse]),
    - [lib/mockapi-client.ts]
        (classes [LocalStorageMockAPIClient] and [MockAPIClient]),
    - [components/chat/MixedContentRenderer.tsx], the second file of
      [src/components/chat/ChatInterface.tsx]
        ([transformChartData], [MixedContentRenderer]),
    - [context/ChatContext.tsx] ([sendMessage] of the [ChatProvider]),

    together with the properties the specification states about them.

    Conventions of the embedding.

    - A JavaScript string is a [string]: one [ascii] per code unit, so the
      strings covered are those whose code units are below 256.
    - A value decoded by [JSON.parse] is a [json]; a JavaScript number is an
      IEEE 754 binary64 [float]; the property order of an object is the order
      of its association list, which is the order [Object.keys] returns.
    - [undefined] is [None] of an [option]; a missing property reads as
      [None].
    - A [Date] is its [getTime()] value, an integer count of milliseconds.
    - Functions of the platform whose result the code only passes on
      ([JSON.parse], [String(number)], [localeCompare], ...) are the fields
      of the class [Platform]; every statement holds on every platform. *)

From Stdlib Require Import ZArith List String Ascii Bool Lia.
From Stdlib Require Import Floats.PrimFloat.
From stdpp Require Import base decidable option list gmap strings pretty sorting.

(** ** JavaScript strings *)

Module Js.

(** [WhiteSpace] and [LineTerminator] code units below 256, the characters
    [String.prototype.trim] strips: TAB, LF, VT, FF, CR, SP and NBSP. *)
Definition is_white_space (c : ascii) : bool :=
  match nat_of_ascii c with
  | 9 | 10 | 11 | 12 | 13 | 32 | 160 => true
  | _ => false
  end.

Fixpoint trimStart (s : string) : string :=
  match s with
  | EmptyString => EmptyString
  | String c r => if is_white_space c then trimStart r else s
  end.

Fixpoint trimEnd (s : string) : string :=
  match s with
  | EmptyString => EmptyString
  | String c r =>
      match trimEnd r with
      | EmptyString => if is_white_space c then EmptyString else String c EmptyString
      | r' => String c r'
      end
  end.

(** [s.trim()] *)
Definition trim (s : string) : string := trimEnd (trimStart s).

(** [s.split(sep)] for a one-character separator: never the empty list. *)
Fixpoint split (sep : ascii) (s : string) : list string :=
  match s with
  | EmptyString => [EmptyString]
  | String c r =>
      if Ascii.eqb c sep then EmptyString :: split sep r
      else match split sep r with
           | l :: ls => String c l :: ls
           | [] => [String c EmptyString]
           end
  end.

(** [ls.join(sep)] *)
Fixpoint join (sep : string) (ls : list string) : string :=
  match ls with
  | [] => EmptyString
  | [l] => l
  | l :: r => l +:+ sep +:+ join sep r
  end.

(** [s.startsWith(p)] *)
Fixpoint startsWith (s p : string) : bool :=
  match p, s with
  | EmptyString, _ => true
  | String a p', String b s' => Ascii.eqb a b && startsWith s' p'
  | String _ _, EmptyString => false
  end.

(** [s.includes(p)] *)
Fixpoint includes (s p : string) : bool :=
  startsWith s p ||
  match s with
  | EmptyString => false
  | String _ s' => includes s' p
  end.

Definition LF : ascii := ascii_of_nat 10.
Definition newline : string := String LF EmptyString.

(** [xs.sort(compareFn)].  ECMAScript asks for a stable sort and fixes the
    result whenever [compareFn] is a consistent comparator; the order it leaves
    open otherwise is taken here from the insertion sort: each element moves
    left past the elements that compare greater than it.  (The sorts of the
    engines in use agree with it on an array whose neighbours are all in
    order: they leave such an array as it is.) *)
Section Sort.
Context {A : Type} (compareFn : A -> A -> Z).

(** [sorted_rev] is the sorted part so far, last element first. *)
Fixpoint insert_back (x : A) (sorted_rev : list A) : list A :=
  match sorted_rev with
  | [] => [x]
  | y :: ys =>
      if (0 <? compareFn y x)%Z then y :: insert_back x ys
      else x :: sorted_rev
  end.

Definition sort (xs : list A) : list A :=
  rev (fold_left (fun sorted_rev x => insert_back x sorted_rev) xs []).

End Sort.

End Js.

(** ** Response normalizer: deduplication ([N8NClient.deduplicateContent]) *)

Module Dedup.

(** One turn of the [for (const line of lines)] loop: the state is the set
    [seenLines] and the array [deduplicatedLines]. *)
Definition step (st : gset string * list string) (line : string)
  : gset string * list string :=
  let '(seenLines, deduplicatedLines) := st in
  let trimmedLine := Js.trim line in
  if decide (trimmedLine = "") then (seenLines, deduplicatedLines ++ [line])
  else if decide (trimmedLine ∈ seenLines) then (seenLines, deduplicatedLines)
  else ({[trimmedLine]} ∪ seenLines, deduplicatedLines ++ [line]).

Definition deduplicateContent (content : string) : string :=
  let lines := Js.split Js.LF content in
  Js.join Js.newline (snd (fold_left step lines (∅, []))).

End Dedup.

(** *** What the loop computes, stated on positions

    [keep_first same prev ls] keeps a line of [ls] when it is blank or when no
    line before it (those of [prev], then the earlier lines of [ls]) is the
    [same] line; it never reorders. *)

Module DedupSpec.

Definition is_blank (l : string) : bool := bool_decide (Js.trim l = "").

Fixpoint keep_first (same : string -> string -> bool)
    (prev ls : list string) : list string :=
  match ls with
  | [] => []
  | l :: r =>
      if is_blank l || negb (existsb (same l) prev)
      then l :: keep_first same (prev ++ [l]) r
      else keep_first same (prev ++ [l]) r
  end.

(** The reading of the specification: lines are compared as they are. *)
Definition same_line (a b : string) : bool := String.eqb a b.

(** The reading the code supports: lines are compared after [trim]. *)
Definition same_trimmed (a b : string) : bool := String.eqb (Js.trim a) (Js.trim b).

Definition dedup_identical (content : string) : string :=
  Js.join Js.newline (keep_first same_line [] (Js.split Js.LF content)).

Definition dedup_trimmed (content : string) : string :=
  Js.join Js.newline (keep_first same_trimmed [] (Js.split Js.LF content)).

(** [seenLines] holds exactly the trimmed non-blank lines met so far. *)
Definition seen_of (seenLines : gset string) (prev : list string) : Prop :=
  forall t : string,
    t ∈ seenLines <-> t <> "" /\ exists p, p ∈ prev /\ Js.trim p = t.

End DedupSpec.

(** ** JSON values and the JavaScript operations the code applies to them *)

Module Json.

#[local] Set Warnings "-register-all".

Inductive json : Type :=
  | JNull
  | JBool (b : bool)
  | JNum (n : float)
  | JStr (s : string)
  | JArr (items : list json)
  | JObj (props : list (string * json)).

(** [ToBoolean]: [null], [false], [0], [-0], [NaN] and [""] are falsy. *)
Definition truthy (v : json) : bool :=
  match v with
  | JNull => false
  | JBool b => b
  | JNum n => negb (PrimFloat.is_zero n) && negb (PrimFloat.is_nan n)
  | JStr s => negb (String.eqb s "")
  | JArr _ | JObj _ => true
  end.

(** [ToBoolean] of a value that may be [undefined]. *)
Definition truthyU (v : option json) : bool :=
  match v with Some v => truthy v | None => false end.

(** [v !== undefined] *)
Definition defined (v : option json) : bool :=
  match v with Some _ => true | None => false end.

(** [a || b] *)
Definition or_else (a b : option json) : option json :=
  if truthyU a then a else b.

(** [a || b] where [b] is never [undefined] *)
Definition or_default (a : option json) (b : json) : json :=
  match a with
  | Some v => if truthy v then v else b
  | None => b
  end.

(** [typeof v === 'object']: also true of [null]. *)
Definition typeof_object (v : json) : bool :=
  match v with JNull | JArr _ | JObj _ => true | _ => false end.

(** [Array.isArray(v)] *)
Definition isArray (v : json) : bool :=
  match v with JArr _ => true | _ => false end.

(** Own property lookup in an object literal. *)
Fixpoint lookup (k : string) (props : list (string * json)) : option json :=
  match props with
  | [] => None
  | (k', v) :: rest => if String.eqb k k' then Some v else lookup k rest
  end.

(** [v.k] for a value that is neither [null] nor [undefined], and for a [k]
    that names no built-in property of arrays, strings, numbers or booleans
    (the code reads [type], [messageType], [content], [message], [response],
    [text], [output], [format], [metadata], [data], [options], [title],
    [datasets], [labels], [label], [x] and [y] this way): the property exists
    only on an object that owns it. *)
Definition get (v : json) (k : string) : option json :=
  match v with
  | JObj props => lookup k props
  | _ => None
  end.

(** [Object.keys(v)] of an object. *)
Definition keys (props : list (string * json)) : list string := map fst props.

(** [xs.includes(v)] for an array [xs] of string literals: strict equality. *)
Definition in_strings (xs : list string) (v : json) : bool :=
  match v with
  | JStr s => existsb (String.eqb s) xs
  | _ => false
  end.

(** [v === s] for a string literal [s] *)
Definition is_str (s : string) (v : json) : bool :=
  match v with JStr s' => String.eqb s' s | _ => false end.

(** What the embedding takes from the JavaScript engine as given. *)
Class Platform : Type := {
  (** [JSON.parse(s)]; [None] when it throws a [SyntaxError] *)
  JSON_parse : string -> option json;
  (** [String(n)] of a number *)
  Number_toString : float -> string;
  (** [String(v)] of an array or an object *)
  Object_toString : json -> string;
  (** [ToNumber(v)] of a string, an array or an object *)
  ToNumber : json -> float;
  (** [a.localeCompare(b)]: negative, zero or positive *)
  localeCompare : string -> string -> Z
}.

(** [String(v)] *)
Definition String_ `{Platform} (v : json) : string :=
  match v with
  | JNull => "null"
  | JBool true => "true"
  | JBool false => "false"
  | JNum n => Number_toString n
  | JStr s => s
  | JArr _ | JObj _ => Object_toString v
  end.

End Json.

Export Json.

(** ** The webhook client ([N8NClient]) *)

Module N8N.

(** The [type] of an [N8NError]. *)
Module Kind.
Inductive t : Set := network | timeout | server | validation.
#[global] Instance eq_dec : EqDecision t.
Proof. solve_decision. Defined.
End Kind.

(** What a [throw] carries: a plain [Error] (a [TypeError] of [fetch], a
    [DOMException] of an abort signal) with its [name] and [message], or an
    [N8NError], whose [name] is ["N8NError"]. *)
Inductive Exn : Type :=
  | Error (name message : string)
  | N8NError (message : string) (type : Kind.t) (details : Details)
with Details : Type :=
  | NoDetails
  | ServerDetails (status : Z) (statusText body : string)
  | Caught (error : Exn).

Definition name (e : Exn) : string :=
  match e with Error n _ => n | N8NError _ _ _ => "N8NError" end.

Definition message (e : Exn) : string :=
  match e with Error _ m => m | N8NError m _ _ => m end.

Inductive Outcome (A : Type) : Type :=
  | Returns (a : A)
  | Throws (e : Exn).
Arguments Returns {A} a.
Arguments Throws {A} e.

Record N8NRequest : Type := {
  username : string;
  request_message : string;
  sessionId : string;
  timestamp : Z;
  messageId : option string
}.

(** The [metadata] of a normalized response: the upstream [metadata], or one
    of the two records the client builds around [new Date()]. *)
Inductive Metadata : Type :=
  | Upstream (metadata : json)
  | Stamped (timestamp : Z)
  | StampedWebhook (timestamp : Z) (originalResponse : json).

(** [N8NResponse]. The interface declares [type] and [messageType] as unions
    of string literals; at run time they hold whatever the code puts there,
    hence [json]. *)
Record N8NResponse : Type := {
  type : json;
  messageType : json;
  content : json;
  metadata : Metadata
}.

Record N8NClientConfig : Type := {
  cfg_webhookUrl : string;
  cfg_streamingUrl : string;
  cfg_timeout : option Z;
  cfg_retryAttempts : option Z;
  cfg_retryDelay : option Z
}.

(** [Required<N8NClientConfig>], the [config] field of the client. *)
Record Config : Type := {
  webhookUrl : string;
  streamingUrl : string;
  timeout : Z;
  retryAttempts : Z;
  retryDelay : Z
}.

(** The constructor: defaults, then the properties of [config] over them. *)
Definition N8NClient (config : N8NClientConfig) : Config := {|
  webhookUrl := cfg_webhookUrl config;
  streamingUrl := cfg_streamingUrl config;
  timeout := default 120000%Z (cfg_timeout config);
  retryAttempts := default 3%Z (cfg_retryAttempts config);
  retryDelay := default 1000%Z (cfg_retryDelay config)
|}.

Section Normalizer.
Context `{Platform}.

(** [deduplicateContent] on any value: a non-string is returned unchanged. *)
Definition deduplicateContent (content : json) : json :=
  match content with
  | JStr s => JStr (Dedup.deduplicateContent s)
  | _ => content
  end.

(** The callback of [content.some] in [isMixedContent]. *)
Definition isMixedItem (item : json) : bool :=
  if negb (truthy item) || negb (typeof_object item) then false
  else
    let keys := match item with JObj props => Json.keys props | _ => [] end in
    let hasText := existsb (fun key => Js.startsWith key "text") keys in
    let hasChart := existsb (fun key => Js.startsWith key "chart") keys in
    hasText || hasChart.

Definition isMixedContent (content : json) : bool :=
  match content with
  | JArr items => existsb isMixedItem items
  | _ => false
  end.

Definition messageTypes : list string :=
  ["text"; "json"; "image"; "chart"; "error"; "mixed"].

Definition responseTypes : list string := ["interim"; "final"].

(** The special handling of an [output] field that holds a JSON string: the
    [content], [messageType] and [type] after it, given those before it. *)
Definition fromOutput (data content0 messageType0 type0 : json)
  : json * json * json :=
  match get data "output" with
  | Some (JStr output) =>
      if truthy (JStr output) then
        match JSON_parse output with
        | Some parsedOutput =>
            if truthy parsedOutput && typeof_object parsedOutput then
              (or_default (get parsedOutput "content") parsedOutput,
               or_default (get parsedOutput "messageType") messageType0,
               or_default (get parsedOutput "type") type0)
            else (content0, messageType0, type0)
        | None => (content0, messageType0, type0)
        end
      else (content0, messageType0, type0)
  | _ => (content0, messageType0, type0)
  end.

(** The part of [validateResponse] below its two early returns. *)
Definition normalize (now : Z) (data : json) : N8NResponse :=
  let content0 :=
    or_default
      (or_else (get data "content")
        (or_else (get data "message")
          (or_else (get data "response")
            (or_else (get data "text") (get data "output")))))
      data in
  let messageType0 :=
    or_default (or_else (get data "messageType") (get data "format")) (JStr "text") in
  let type0 := or_default (get data "type") (JStr "final") in
  let '(content1, messageType1, type1) :=
    fromOutput data content0 messageType0 type0 in
  let messageType2 :=
    if isMixedContent content1 then JStr "mixed"
    else if isArray content1 then JStr "json"
    else messageType1 in
  let messageType3 :=
    if negb (in_strings messageTypes messageType2) then JStr "text" else messageType2 in
  let type3 :=
    if negb (in_strings responseTypes type1) then JStr "final" else type1 in
  {| type := type3;
     messageType := messageType3;
     content := if is_str "text" messageType3 then deduplicateContent content1 else content1;
     metadata := match get data "metadata" with
                 | Some m => if truthy m then Upstream m else StampedWebhook now data
                 | None => StampedWebhook now data
                 end |}.

(** [validateResponse(data)], evaluated at time [now]. *)
Definition validateResponse (now : Z) (data : json) : N8NResponse :=
  if negb (truthy data) || negb (typeof_object data) then
    {| type := JStr "final";
       messageType := JStr "text";
       content := JStr (String_ data);
       metadata := Stamped now |}
  else
    match get data "type", get data "messageType", get data "content" with
    | Some type_, Some messageType_, Some content_ =>
        if truthy type_ && truthy messageType_ then
          {| type := type_;
             messageType := messageType_;
             content := if is_str "text" messageType_
                        then deduplicateContent content_ else content_;
             metadata := match get data "metadata" with
                         | Some m => if truthy m then Upstream m else Stamped now
                         | None => Stamped now
                         end |}
        else normalize now data
    | _, _, _ => normalize now data
    end.

End Normalizer.

(** *** [fetch], as far as [sendMessage] depends on it

    A request carries the options the code passes to [fetch]; [signal] is the
    delay of an [AbortSignal.timeout(ms)] when one is passed.  The network
    settles a request after [latency] milliseconds, with a response or with a
    rejection; a signal whose delay has run out by then rejects the request
    with a [TimeoutError] instead. *)

Record RequestInit : Type := {
  method : string;
  headers : list (string * string);
  body : N8NRequest;
  signal : option Z
}.

Inductive Settled : Type :=
  | Response (status : Z) (statusText : string) (text : string)
  | Rejected (error : Exn).

Record Network : Type := {
  latency : Z;
  settles : Settled
}.

Definition fetch (net : Network) (url : string) (init : RequestInit) : Settled :=
  match signal init with
  | Some ms =>
      if (ms <=? latency net)%Z
      then Rejected (Error "TimeoutError" "The operation timed out.")
      else settles net
  | None => settles net
  end.

(** [response.ok] *)
Definition ok (status : Z) : bool := (200 <=? status)%Z && (status <=? 299)%Z.

Section SendMessage.
Context `{Platform}.

(** The second argument of the [fetch] call in [sendMessage]. *)
Definition sendMessage_init (config : Config) (request : N8NRequest) : RequestInit := {|
  method := "POST";
  headers := [("Content-Type", "application/json"); ("Accept", "application/json")];
  body := request;
  signal := None
|}.

(** The [try] block of [sendMessage]. *)
Definition sendMessage_try (config : Config) (net : Network) (now : Z)
    (request : N8NRequest) : Outcome N8NResponse :=
  match fetch net (webhookUrl config) (sendMessage_init config request) with
  | Rejected error => Throws error
  | Response status statusText text =>
      if negb (ok status) then
        let errorText := text in
        Throws (N8NError ("HTTP " +:+ pretty status +:+ ": " +:+ statusText)
                         Kind.server
                         (ServerDetails status statusText errorText))
      else
        let responseText := text in
        let data := match JSON_parse responseText with
                    | Some data => data
                    | None => JStr responseText
                    end in
        Returns (validateResponse now data)
  end.

(** The [catch] block of [sendMessage]: what it throws for a caught [error]. *)
Definition sendMessage_catch (error : Exn) : Exn :=
  if String.eqb (name error) "TimeoutError" || String.eqb (name error) "AbortError"
  then N8NError "Request timeout" Kind.timeout NoDetails
  else if Js.includes (message error) "fetch" || Js.includes (message error) "network"
  then N8NError "Network error" Kind.network (Caught error)
  else error.

Definition sendMessage (config : Config) (net : Network) (now : Z)
    (request : N8NRequest) : Outcome N8NResponse :=
  match sendMessage_try config net now request with
  | Returns validatedResponse => Returns validatedResponse
  | Throws error => Throws (sendMessage_catch error)
  end.

End SendMessage.

(** *** [sendMessageWithRetry]

    [send attempt] is the outcome of the call [this.sendMessage(request)] made
    in the turn [attempt] of the loop.  The run is recorded as the list of
    calls made and of delays waited. *)

Inductive Event : Type :=
  | Call (attempt : Z)
  | Wait (ms : Z).

Section Retry.
Variable config : Config.
Variable send : Z -> Outcome N8NResponse.

(** The turns [attempt = 1; attempt <= retryAttempts; attempt++]. *)
Definition attempts : list Z :=
  map Z.of_nat (seq 1 (Z.to_nat (retryAttempts config))).

Fixpoint retry_loop (turns : list Z) : list Event * Outcome N8NResponse :=
  match turns with
  | [] => ([], Throws (N8NError "Max retry attempts reached" Kind.network NoDetails))
  | attempt :: rest =>
      match send attempt with
      | Returns response => ([Call attempt], Returns response)
      | Throws (N8NError _ Kind.validation _ as error) =>
          ([Call attempt], Throws error)
      | Throws (N8NError _ _ _ as error) =>
          if (attempt =? retryAttempts config)%Z then ([Call attempt], Throws error)
          else
            let '(events, result) := retry_loop rest in
            (Call attempt :: Wait (retryDelay config * attempt) :: events, result)
      | Throws error => ([Call attempt], Throws error)
      end
  end.

Definition sendMessageWithRetry : list Event * Outcome N8NResponse :=
  retry_loop attempts.

End Retry.

End N8N.

(** *** Vocabulary of the statements about the webhook client *)

Module N8NSpec.
Import N8N.

(** [type] is one of [interim], [final] and [messageType] one of the six
    known kinds. *)
Definition well_typed (r : N8NResponse) : bool :=
  in_strings responseTypes (type r) && in_strings messageTypes (messageType r).

(** The test of the second [if] of [validateResponse]. *)
Definition preformatted (data : json) : bool :=
  truthyU (get data "type") && truthyU (get data "messageType")
  && defined (get data "content").



End N8NSpec.

(** ** The local-storage persistence client ([LocalStorageMockAPIClient]) *)

Module MessageType.
Inductive t : Set := user | assistant | interim.
#[global] Instance eq_dec : EqDecision t.
Proof. solve_decision. Defined.
End MessageType.

Module ResponseType.
Inductive t : Set := text | json | image | chart | error | mixed.
#[global] Instance eq_dec : EqDecision t.
Proof. solve_decision. Defined.
End ResponseType.

Module Persistence.

(** [ResponseData]; [content] is declared [any] and [metadata] is optional. *)
Record ResponseData : Type := {
  rd_type : ResponseType.t;
  rd_content : option json;
  rd_metadata : option json
}.

(** [Message] *)
Record Message : Type := {
  id : string;
  sessionId : string;
  content : string;
  type : MessageType.t;
  timestamp : Z;
  responseData : option ResponseData
}.

(** [Omit<Message, 'id'>], the argument of [createMessage] *)
Record NewMessage : Type := {
  new_sessionId : string;
  new_content : string;
  new_type : MessageType.t;
  new_timestamp : Z;
  new_responseData : option ResponseData
}.

(** [Partial<Message>], the argument of [updateMessage] *)
Record PartialMessage : Type := {
  upd_id : option string;
  upd_sessionId : option string;
  upd_content : option string;
  upd_type : option MessageType.t;
  upd_timestamp : option Z;
  upd_responseData : option ResponseData
}.

(** [MockAPIMessage], the stored record.  Its [timestamp] is the ISO string
    of a date, kept here as the date it denotes. *)
Record MockAPIMessage : Type := {
  m_id : string;
  m_sessionId : string;
  m_content : string;
  m_type : MessageType.t;
  m_timestamp : Z;
  responseType : option ResponseType.t;
  responseContent : option json;
  responseMetadata : option json
}.

(** [MockAPISession] *)
Record MockAPISession : Type := {
  s_id : string;
  s_name : string;
  createdAt : Z;
  updatedAt : Z;
  messageCount : Z;
  lastActivity : Z;
  isActive : bool
}.

(** The two lists kept in [localStorage] under the keys [chat-sessions] and
    [chat-messages]; [getStorageData] reads one and [setStorageData] writes
    one.  The browser is taken to store what it is given. *)
Record Storage : Type := {
  sessions : list MockAPISession;
  messages : list MockAPIMessage
}.

Definition setMessages (st : Storage) (ms : list MockAPIMessage) : Storage :=
  {| sessions := sessions st; messages := ms |}.

Definition setSessions (st : Storage) (ss : list MockAPISession) : Storage :=
  {| sessions := ss; messages := messages st |}.

(** [MockAPIError] *)
Record MockAPIError : Type := {
  err_message : string;
  err_status : option Z
}.

(** The test of [transformMessage] for stored content "that looks like mixed
    format": an object, not an array, with a key that starts with [text] or
    [chart]. *)
Definition looksMixed (processedContent : option json) : bool :=
  match processedContent with
  | Some (JObj props) =>
      let keys := Json.keys props in
      let hasText := existsb (fun key => Js.startsWith key "text") keys in
      let hasChart := existsb (fun key => Js.startsWith key "chart") keys in
      hasText || hasChart
  | _ => false
  end.

Definition transformMessage (message : MockAPIMessage) : Message :=
  let responseData :=
    match responseType message with
    | Some processedType =>
        let processedContent := responseContent message in
        if looksMixed processedContent then
          Some {| rd_type := ResponseType.mixed;
                  rd_content := option_map (fun c => JArr [c]) processedContent;
                  rd_metadata := responseMetadata message |}
        else
          Some {| rd_type := processedType;
                  rd_content := processedContent;
                  rd_metadata := responseMetadata message |}
    | None => None
    end in
  {| id := m_id message;
     sessionId := m_sessionId message;
     content := m_content message;
     type := m_type message;
     timestamp := m_timestamp message;
     responseData := responseData |}.

(** [getMessages(sessionId)] *)
Definition getMessages (st : Storage) (sessionId_ : string) : list Message :=
  Js.sort (fun a b => (timestamp a - timestamp b)%Z)
    (map transformMessage
       (List.filter (fun m => String.eqb (m_sessionId m) sessionId_) (messages st))).

(** [incrementSessionMessageCount(sessionId)] at time [now] *)
Definition incrementSessionMessageCount (st : Storage) (now : Z)
    (sessionId_ : string) : Storage :=
  match list_find (fun s => s_id s = sessionId_) (sessions st) with
  | Some (index, session) =>
      setSessions st
        (<[index := {| s_id := s_id session; s_name := s_name session;
                       createdAt := createdAt session; updatedAt := now;
                       messageCount := (messageCount session + 1)%Z;
                       lastActivity := now; isActive := isActive session |}]>
           (sessions st))
  | None => st
  end.

(** The callback of [messages.find] in [createMessage]. *)
Definition similar (message : NewMessage) (m : MockAPIMessage) : bool :=
  String.eqb (m_sessionId m) (new_sessionId message)
  && String.eqb (m_content m) (new_content message)
  && bool_decide (m_type m = new_type message)
  && (Z.abs (m_timestamp m - new_timestamp message) <? 1000)%Z.

(** [createMessage(message)] at time [now]; [messageId] is the identifier
    [generateId()] returns for this call. *)
Definition createMessage (st : Storage) (messageId : string) (now : Z)
    (message : NewMessage) : Storage * Message :=
  let messageData :=
    {| m_id := messageId;
       m_sessionId := new_sessionId message;
       m_content := new_content message;
       m_type := new_type message;
       m_timestamp := new_timestamp message;
       responseType := option_map rd_type (new_responseData message);
       responseContent := new_responseData message ≫= rd_content;
       responseMetadata := new_responseData message ≫= rd_metadata |} in
  match List.find (similar message) (messages st) with
  | Some existingMessage => (st, transformMessage existingMessage)
  | None =>
      let st1 := setMessages st (messages st ++ [messageData]) in
      let st2 := incrementSessionMessageCount st1 now (new_sessionId message) in
      (st2, transformMessage messageData)
  end.

(** [a || b] on strings *)
Definition or_string (a : option string) (b : string) : string :=
  match a with
  | Some s => if String.eqb s "" then b else s
  | None => b
  end.

(** [updateMessage(id, updates)]: the new storage and the message returned,
    or the error thrown. *)
Definition updateMessage (st : Storage) (id_ : string) (updates : PartialMessage)
  : Storage * (MockAPIError + Message) :=
  match list_find (fun m => m_id m = id_) (messages st) with
  | None => (st, inl {| err_message := "Message not found"; err_status := Some 404%Z |})
  | Some (index, stored) =>
      let updated :=
        {| m_id := m_id stored;
           m_sessionId := m_sessionId stored;
           m_content := or_string (upd_content updates) (m_content stored);
           m_type := m_type stored;
           m_timestamp := m_timestamp stored;
           responseType :=
             match option_map rd_type (upd_responseData updates) with
             | Some t => Some t
             | None => responseType stored
             end;
           responseContent :=
             or_else (upd_responseData updates ≫= rd_content) (responseContent stored);
           responseMetadata :=
             or_else (upd_responseData updates ≫= rd_metadata) (responseMetadata stored) |} in
      (setMessages st (<[index := updated]> (messages st)), inr (transformMessage updated))
  end.

(** [deleteMessage(id)] *)
Definition deleteMessage (st : Storage) (id_ : string) : Storage :=
  setMessages st (List.filter (fun m => negb (String.eqb (m_id m) id_)) (messages st)).

End Persistence.

(** ** The persistence client ([MockAPIClient]): remote first, local storage
       as the fallback

    The remote service is outside the sources.  [remote] is what
    [this.request] gives for the one request an operation makes: the decoded
    body, or [None] when it throws (no connection, a status outside 2xx, a
    timeout). *)

Module Client.
Import Persistence.

Record MockAPIConfig : Type := {
  baseUrl : string;
  projectId : string;
  timeout : option Z
}.

(** The constructor's test for the placeholder configuration. *)
Definition useFallback (config : MockAPIConfig) : bool :=
  Js.includes (baseUrl config) "mockapi.io"
  && String.eqb (projectId config) "your-project-id".

(** [createMessage(message)] *)
Definition createMessage (config : MockAPIConfig) (remote : option MockAPIMessage)
    (st : Storage) (messageId : string) (now : Z) (message : NewMessage)
  : Storage * Message :=
  if useFallback config then Persistence.createMessage st messageId now message
  else
    match remote with
    | Some createdMessage => (st, transformMessage createdMessage)
    | None => Persistence.createMessage st messageId now message
    end.

(** [getMessages(sessionId)] *)
Definition getMessages (config : MockAPIConfig) (remote : option (list MockAPIMessage))
    (st : Storage) (sessionId_ : string) : list Message :=
  if useFallback config then Persistence.getMessages st sessionId_
  else
    match remote with
    | Some messages_ =>
        Js.sort (fun a b => (timestamp a - timestamp b)%Z)
          (map transformMessage messages_)
    | None => Persistence.getMessages st sessionId_
    end.

End Client.

(** ** The chart adapter ([transformChartData]) *)

Module Chart.

(** The array [dataArray]: a value of the upstream description, or the
    records the adapter builds from [labels] and [datasets].  A built record
    is the list of the property writes that make it, in program order; the
    value written may be [undefined]. *)
Inductive DataArray : Type :=
  | Upstream (v : json)
  | Built (rows : list (list (string * option json))).

(** [ChartData].  [options] lists the properties of the object literal in the
    order they are written, the defaults first and those spread from the
    upstream [options] after them; a later write of a key wins. *)
Record ChartData : Type := {
  type : string;
  title : json;
  data : DataArray;
  xKey : string;
  yKey : string;
  options : list (string * json)
}.

(** How a call ends: with a value, or with an uncaught [TypeError]. *)
Inductive Completion (A : Type) : Type :=
  | Normal (a : A)
  | TypeError.
Arguments Normal {A} a.
Arguments TypeError {A}.

(** How the [try] block ends: it falls through with [dataArray], it returns
    [null], or an exception reaches the [catch], which returns [null]. *)
Inductive TryBlock : Type :=
  | Value (dataArray : DataArray)
  | ReturnNull
  | Caught.

Definition chartTypes : list string := ["bar"; "line"; "pie"; "area"; "scatter"].

(** [v?.k] *)
Definition optget (v : option json) (k : string) : option json :=
  match v with
  | None | Some JNull => None
  | Some v => get v k
  end.

(** [v[i]] for a value that is neither [null] nor [undefined] *)
Definition index (v : json) (i : nat) : option json :=
  match v with
  | JArr items => nth_error items i
  | JStr s => match String.get i s with
              | Some c => Some (JStr (String c EmptyString))
              | None => None
              end
  | JObj props => Json.lookup (pretty i) props
  | _ => None
  end.

Section Adapter.
Context `{Platform}.

(** [v > 0] *)
Definition gt0 (v : option json) : bool :=
  match v with
  | None | Some JNull => false
  | Some (JBool b) => b
  | Some (JNum n) => (0 <? n)%float
  | Some v => (0 <? ToNumber v)%float
  end.

(** [v.length === 0] for a value that is neither [null] nor [undefined] *)
Definition length_is_0 (v : json) : bool :=
  match v with
  | JArr items => bool_decide (length items = 0)
  | JStr s => bool_decide (String.length s = 0)
  | JObj props => match Json.lookup "length" props with
                  | Some (JNum n) => PrimFloat.is_zero n
                  | _ => false
                  end
  | _ => false
  end.

(** [v.length > 0] for a value that is neither [null] nor [undefined] *)
Definition length_gt_0 (v : json) : bool :=
  match v with
  | JArr items => bool_decide (0 < length items)
  | JStr s => bool_decide (0 < String.length s)
  | JObj props => gt0 (Json.lookup "length" props)
  | _ => false
  end.

(** The scatter branch, entered with [dataArray = chartDataRaw.datasets[0].data]. *)
Definition scatterData (dataArray : json) : TryBlock :=
  if length_is_0 dataArray then ReturnNull
  else
    match index dataArray 0 with
    | None | Some JNull => Caught
    | Some first =>
        match get first "x", get first "y" with
        | Some _, Some _ => Value (Upstream dataArray)
        | _, _ => ReturnNull
        end
    end.

(** One turn of [chartDataRaw.datasets.forEach] for the label of index
    [idx]: the write [obj[key] = ds.data[idx]] added to the writes so far. *)
Definition seriesWrite (idx : nat) (obj : option (list (string * option json)))
    (entry : nat * json) : option (list (string * option json)) :=
  let '(dsIdx, ds) := entry in
  match obj with
  | None => None
  | Some writes =>
      match ds with
      | JNull => None
      | _ =>
          let key := match get ds "label" with
                     | Some l => if truthy l then String_ l else "series" +:+ pretty dsIdx
                     | None => "series" +:+ pretty dsIdx
                     end in
          match get ds "data" with
          | None | Some JNull => None
          | Some d => Some (writes ++ [(key, index d idx)])
          end
      end
  end.

(** The record built for one label of a multi-series line or area chart;
    [None] when building it throws. *)
Definition multiSeriesRow (datasets : list json) (idx : nat) (label : json)
  : option (list (string * option json)) :=
  fold_left (seriesWrite idx) (imap (fun dsIdx ds => (dsIdx, ds)) datasets)
    (Some [("name", Some label)]).

(** The record built for one label of a single-series chart. *)
Definition singleSeriesRow (datasets : list json) (idx : nat) (label : json)
  : option (list (string * option json)) :=
  match nth_error datasets 0 with
  | None | Some JNull => None
  | Some ds0 =>
      match get ds0 "data" with
      | None | Some JNull => None
      | Some d => Some [("name", Some label); ("value", index d idx)]
      end
  end.

(** [labels.map(callback)]: a [TypeError] unless [labels] is an array, and
    when a call of [callback] throws. *)
Definition mapLabels (labels : json)
    (callback : nat -> json -> option (list (string * option json))) : TryBlock :=
  match labels with
  | JArr ls =>
      match mapM (fun '(idx, label) => callback idx label)
                 (imap (fun idx label => (idx, label)) ls) with
      | Some rows => Value (Built rows)
      | None => Caught
      end
  | _ => Caught
  end.

(** The [try] block. *)
Definition tryBlock (type_ : string) (chartDataRaw : option json) : TryBlock :=
  let scatter :=
    if String.eqb type_ "scatter" then
      match optget chartDataRaw "datasets" with
      | Some (JArr datasets) =>
          match optget (nth_error datasets 0) "data" with
          | Some d => if truthy d then Some d else None
          | None => None
          end
      | _ => None
      end
    else None in
  match scatter with
  | Some dataArray => scatterData dataArray
  | None =>
      match chartDataRaw with
      | Some (JArr items) => Value (Upstream (JArr items))
      | _ =>
          match optget chartDataRaw "labels", optget chartDataRaw "datasets" with
          | Some labels, Some (JArr datasets) =>
              if truthy labels then
                if (String.eqb type_ "line" || String.eqb type_ "area")
                   && bool_decide (1 < length datasets)
                then mapLabels labels (multiSeriesRow datasets)
                else mapLabels labels (singleSeriesRow datasets)
              else
                match chartDataRaw with
                | Some (JObj props) => Value (Upstream (JArr [JObj props]))
                | _ => ReturnNull
                end
          | _, _ =>
              match chartDataRaw with
              | Some (JObj props) => Value (Upstream (JArr [JObj props]))
              | _ => ReturnNull
              end
          end
      end
  end.

(** [c.toUpperCase()] of a letter [a]..[z] *)
Definition upper (c : ascii) : ascii :=
  let n := nat_of_ascii c in
  if (97 <=? n)%nat && (n <=? 122)%nat then ascii_of_nat (n - 32) else c.

(** [type.charAt(0).toUpperCase() + type.slice(1)] *)
Definition capitalize (s : string) : string :=
  match s with
  | EmptyString => EmptyString
  | String c r => String (upper c) r
  end.

(** The properties an object spread [...v] copies. *)
Definition spread (v : option json) : list (string * json) :=
  match v with
  | Some (JObj props) => props
  | Some (JArr items) => imap (fun i x => (pretty i, x)) items
  | Some (JStr s) =>
      imap (fun i c => (pretty i, JStr (String c EmptyString))) (list_ascii_of_string s)
  | _ => []
  end.

Definition defaultOptions : list (string * json) :=
  [("colors", JArr [JStr "hsl(var(--chart-1))"; JStr "hsl(var(--chart-2))";
                    JStr "hsl(var(--chart-3))"; JStr "hsl(var(--chart-4))";
                    JStr "hsl(var(--chart-5))"]);
   ("showLegend", JBool true);
   ("showGrid", JBool true);
   ("showTooltip", JBool true);
   ("responsive", JBool true)].

(** The choice of [xKey] and [yKey]; a [TypeError] when the type is [scatter]
    and the first element of [dataArray] is [null] or [undefined]. *)
Definition axisKeys (type_ : string) (dataArray : DataArray)
  : Completion (string * string) :=
  match dataArray with
  | Built _ => Normal ("name", "value")
  | Upstream v =>
      if length_gt_0 v then
        if String.eqb type_ "scatter" then
          match index v 0 with
          | None | Some JNull => TypeError
          | Some firstItem =>
              match get firstItem "x", get firstItem "y" with
              | Some _, Some _ => Normal ("x", "y")
              | _, _ => Normal ("name", "value")
              end
          end
        else Normal ("name", "value")
      else Normal ("name", "value")
  end.

(** [transformChartData(chartConfig)]: [Normal None] is the result [null]. *)
Definition transformChartData (chartConfig : option json)
  : Completion (option ChartData) :=
  match chartConfig with
  | None => Normal None
  | Some chartConfig =>
    if negb (truthy chartConfig) || negb (typeof_object chartConfig) then Normal None
    else
      let chartDataRaw := get chartConfig "data" in
      let options_ := get chartConfig "options" in
      match get chartConfig "type" with
      | Some (JStr type_) =>
          if negb (truthy (JStr type_)) || negb (in_strings chartTypes (JStr type_))
          then Normal None
          else
            match tryBlock type_ chartDataRaw with
            | ReturnNull | Caught => Normal None
            | Value dataArray =>
                let title_ :=
                  or_default
                    (or_else (get chartConfig "title")
                             (optget (optget options_ "title") "text"))
                    (JStr (capitalize type_ +:+ " Chart")) in
                match axisKeys type_ dataArray with
                | TypeError => TypeError
                | Normal (xKey_, yKey_) =>
                    Normal (Some {| type := type_;
                                    title := title_;
                                    data := dataArray;
                                    xKey := xKey_;
                                    yKey := yKey_;
                                    options := defaultOptions ++ spread options_ |})
                end
            end
      | _ => Normal None
      end
  end.

End Adapter.

(** [validateChartData] of [ChartRenderer], on a chart model the adapter
    returned: the error it reports, [None] when the model is valid. *)
Definition validateChartData (chartData : ChartData) : option string :=
  if negb (in_strings chartTypes (JStr (type chartData)))
  then Some ("Invalid chart type: " +:+ type chartData)
  else
    match data chartData with
    | Upstream (JArr []) | Built [] => Some "Chart data must be a non-empty array"
    | Upstream (JArr items) =>
        if forallb (fun item => typeof_object item
                                && negb (match item with JNull => true | _ => false end))
                   items
        then None
        else Some "All chart data items must be objects"
    | Built _ => None
    | Upstream _ => Some "Chart data must be a non-empty array"
    end.

End Chart.

(** ** The mixed-content renderer ([MixedContentRenderer]) *)

Module Mixed.
Import Chart.

(** What is pushed on [renderItems]: a markdown block for a text fragment, a
    chart, or the chart-error panel.  Each carries the [key] it was made
    from, with [itemIndex] and [keyIndex], the parts of its React key. *)
Inductive RenderItem : Type :=
  | Text (itemIndex keyIndex : nat) (key : string) (value : string)
  | ChartItem (itemIndex keyIndex : nat) (key : string) (chartData : ChartData)
  | ChartError (itemIndex keyIndex : nat) (key : string) (value : json).

Definition keyOf (r : RenderItem) : string :=
  match r with
  | Text _ _ key _ | ChartItem _ _ key _ | ChartError _ _ key _ => key
  end.

Definition is_digit (c : ascii) : bool :=
  let n := nat_of_ascii c in (48 <=? n)%nat && (n <=? 57)%nat.

(** The match of [/\d+$/]: the digits that end the key, read as a decimal
    number, with how many they are; [(0, 0)] when the key ends in no digit. *)
Fixpoint trailingDigits (key : string) : Z * nat :=
  match key with
  | EmptyString => (0%Z, 0)
  | String c rest =>
      let '(value, count) := trailingDigits rest in
      if is_digit c && bool_decide (count = String.length rest)
      then ((Z.of_nat (nat_of_ascii c) - 48) * 10 ^ Z.of_nat count + value, S count)%Z
      else (value, count)
  end.

(** [getNumber(key)]: [parseInt] of the digits that end the key, 0 when there
    are none.  The digits are read exactly, as [parseInt] reads them below
    2^53. *)
Definition getNumber (key : string) : Z := fst (trailingDigits key).

Section Renderer.
Context `{Platform}.

(** The comparator passed to [sort]. *)
Definition compareKeys (a b : string) : Z :=
  let aNum := getNumber a in
  let bNum := getNumber b in
  if negb (aNum =? bNum)%Z then (aNum - bNum)%Z
  else if Js.startsWith a "text" && Js.startsWith b "chart" then (-1)%Z
  else if Js.startsWith a "chart" && Js.startsWith b "text" then 1%Z
  else localeCompare a b.

(** [Object.keys(item)] of an object or an array *)
Definition objectKeys (item : json) : list string :=
  match item with
  | JObj props => Json.keys props
  | JArr items => imap (fun i _ => pretty i) items
  | _ => []
  end.

(** [item[key]] for a key of [Object.keys(item)] *)
Definition member (item : json) (key : string) : option json :=
  match item with
  | JObj props => Json.lookup key props
  | JArr items => list_find (fun '(i, _) => pretty i = key)
                    (imap (fun i x => (i, x)) items) ≫= fun '(_, (_, x)) => Some x
  | _ => None
  end.

(** The sorted keys of one element of [content]. *)
Definition sortedKeys (item : json) : list string :=
  Js.sort compareKeys (objectKeys item).

(** One turn of [keys.forEach]: what the key adds to [renderItems]. *)
Definition renderKey (item : json) (itemIndex keyIndex : nat) (key : string)
  : Completion (list RenderItem) :=
  match member item key with
  | Some (JStr value) =>
      if Js.startsWith key "text" then Normal [Text itemIndex keyIndex key value]
      else Normal []
  | Some value =>
      if Js.startsWith key "chart" && truthy value && typeof_object value then
        match transformChartData (Some value) with
        | TypeError => TypeError
        | Normal (Some chartData) => Normal [ChartItem itemIndex keyIndex key chartData]
        | Normal None => Normal [ChartError itemIndex keyIndex key value]
        end
      else Normal []
  | None => Normal []
  end.

(** Running the turns in order; the first [TypeError] ends the rendering. *)
Fixpoint renderKeys (item : json) (itemIndex keyIndex : nat) (keys : list string)
  : Completion (list RenderItem) :=
  match keys with
  | [] => Normal []
  | key :: rest =>
      match renderKey item itemIndex keyIndex key with
      | TypeError => TypeError
      | Normal here =>
          match renderKeys item itemIndex (S keyIndex) rest with
          | TypeError => TypeError
          | Normal after => Normal (here ++ after)
          end
      end
  end.

(** One turn of [content.forEach]. *)
Definition renderItem (itemIndex : nat) (item : json) : Completion (list RenderItem) :=
  if negb (truthy item) || negb (typeof_object item) then Normal []
  else renderKeys item itemIndex 0 (sortedKeys item).

Fixpoint renderContent (itemIndex : nat) (content : list json)
  : Completion (list RenderItem) :=
  match content with
  | [] => Normal []
  | item :: rest =>
      match renderItem itemIndex item with
      | TypeError => TypeError
      | Normal here =>
          match renderContent (S itemIndex) rest with
          | TypeError => TypeError
          | Normal after => Normal (here ++ after)
          end
      end
  end.

(** What the component shows. *)
Inductive Rendered : Type :=
  | NoContent               (* "No content to display" *)
  | NoValidContent          (* "No valid content found to display" *)
  | Container (renderItems : list RenderItem).

Definition MixedContentRenderer (content : json) : Completion Rendered :=
  match content with
  | JArr [] => Normal NoContent
  | JArr items =>
      match renderContent 0 items with
      | TypeError => TypeError
      | Normal [] => Normal NoValidContent
      | Normal renderItems => Normal (Container renderItems)
      end
  | _ => Normal NoContent
  end.

(** The keys of the fragments shown, in the order they are shown. *)
Definition renderedKeys (content : json) : list string :=
  match MixedContentRenderer content with
  | Normal (Container renderItems) => map keyOf renderItems
  | _ => []
  end.

End Renderer.

End Mixed.

(** ** The chat state store ([ChatProvider] of [ChatContext.tsx])

    The store runs on the event loop: a call of [sendMessage] runs to its
    first [await], and each later part runs when what it awaits resolves.
    The model is the state of the provider, the invocations that are waiting,
    and the requests already made of the two clients; one step is a call or
    the resumption of a waiting invocation.  The two clients answer from
    outside: what a request settles with is part of the step.  Left out are
    the effect that reloads [currentMessages] when the session changes and
    the copy of the session id kept in [localStorage]; [sendMessage] reads
    neither. *)

Module ChatStore.

(** [n8nUtils.formatError] *)
Definition formatError (type : N8N.Kind.t) : string :=
  match type with
  | N8N.Kind.network => "Network connection failed. Please check your internet connection."
  | N8N.Kind.timeout => "Request timed out. The workflow may be taking longer than expected."
  | N8N.Kind.server => "Server error occurred. Please try again later."
  | N8N.Kind.validation => "Invalid data format. Please contact support."
  end.

(** The [responseData] the store attaches to an assistant message: the
    [messageType], [content] and [metadata] of the normalized response. *)
Record ResponseData : Type := {
  rd_type : json;
  rd_content : json;
  rd_metadata : N8N.Metadata
}.

(** [Omit<Message, 'id'>] as the store builds it *)
Record NewMessage : Type := {
  new_sessionId : string;
  new_content : string;
  new_type : MessageType.t;
  new_timestamp : Z;
  new_responseData : option ResponseData
}.

(** A message as [createMessage] resolves it *)
Record Message : Type := {
  id : string;
  message : NewMessage
}.

Record ChatSession : Type := {
  session_id : string;
  session_name : string;
  messageCount : Z
}.

(** A request made of [mockApiClient] or of [n8nClient]. *)
Inductive Request : Type :=
  | CreateMessage (message : NewMessage)
  | SendMessageWithRetry (request : N8N.N8NRequest)
  | DeleteSession (sessionId : string).

(** An invocation of [sendMessage] suspended at one of its three [await]s;
    [sessionId] is the [state.currentSessionId] its closure captured. *)
Inductive Waiting : Type :=
  | SavingUserMessage (sessionId content tempMessageId : string)
  | AwaitingWebhook (sessionId : string)
  | SavingAssistantMessage (sessionId : string).

Record Store : Type := {
  (* ChatState *)
  sessions : list ChatSession;
  currentSessionId : option string;
  isLoading : bool;
  error : option string;
  (* the other state of the provider *)
  currentMessages : list Message;
  currentMessageId : option string;
  sendingMessageRef : bool;
  (* the event loop and the clients *)
  waiting : list Waiting;
  requests : list Request
}.

(** What an awaited promise settles with. *)
Inductive Settlement : Type :=
  | Saved (message : Message)                 (* createMessage resolved *)
  | Answered (response : N8N.N8NResponse)     (* sendMessageWithRetry resolved *)
  | Failed (error : N8N.Exn)                  (* the webhook client threw *)
  | FailedOther.                              (* anything else was thrown *)

(** [state.currentSessionId] when it is truthy: neither [null] nor [""]. *)
Definition selected (st : Store) : option string :=
  match currentSessionId st with
  | Some sessionId => if String.eqb sessionId "" then None else Some sessionId
  | None => None
  end.

(** The part of [sendMessage(content)] up to its first [await], called at
    time [now]. *)
Definition sendMessage (st : Store) (content : string) (now : Z) : Store :=
  match selected st with
  | None =>
      {| sessions := sessions st; currentSessionId := currentSessionId st;
         isLoading := isLoading st; error := Some "No session selected";
         currentMessages := currentMessages st; currentMessageId := currentMessageId st;
         sendingMessageRef := sendingMessageRef st;
         waiting := waiting st; requests := requests st |}
  | Some sessionId =>
      if sendingMessageRef st then st
      else
        let tempMessageId := "temp-" +:+ pretty now in
        let userMessage :=
          {| new_sessionId := sessionId; new_content := content;
             new_type := MessageType.user; new_timestamp := now;
             new_responseData := None |} in
        {| sessions := sessions st; currentSessionId := currentSessionId st;
           isLoading := true; error := None;
           currentMessages := currentMessages st;
           currentMessageId := Some tempMessageId;
           sendingMessageRef := true;
           waiting := waiting st ++ [SavingUserMessage sessionId content tempMessageId];
           requests := requests st ++ [CreateMessage userMessage] |}
  end.

(** [setCurrentMessages(prev => ...)]: append unless the id is there. *)
Definition addMessage (prev : list Message) (saved : Message) : list Message :=
  if existsb (fun msg => String.eqb (id msg) (id saved)) prev then prev
  else prev ++ [saved].

(** The [catch] and [finally] blocks. *)
Definition sendMessage_catch (st : Store) (rest : list Waiting) (errorMessage : string)
  : Store :=
  {| sessions := sessions st; currentSessionId := currentSessionId st;
     isLoading := false; error := Some errorMessage;
     currentMessages := currentMessages st; currentMessageId := None;
     sendingMessageRef := false;
     waiting := rest; requests := requests st |}.

Definition errorMessageOf (s : Settlement) : string :=
  match s with
  | Failed (N8N.N8NError _ type _) => formatError type
  | _ => "Failed to send message"
  end.

(** The invocation [w] resumes at time [now] with the settlement [s] of what
    it awaited; [rest] is what else is waiting. *)
Definition resume (st : Store) (w : Waiting) (rest : list Waiting)
    (s : Settlement) (now : Z) : Store :=
  match w, s with
  | SavingUserMessage sessionId content tempMessageId, Saved savedUserMessage =>
      let n8nRequest :=
        {| N8N.username := "user"; N8N.request_message := content;
           N8N.sessionId := sessionId; N8N.timestamp := now;
           N8N.messageId := Some tempMessageId |} in
      {| sessions := sessions st; currentSessionId := currentSessionId st;
         isLoading := isLoading st; error := error st;
         currentMessages := addMessage (currentMessages st) savedUserMessage;
         currentMessageId := currentMessageId st;
         sendingMessageRef := sendingMessageRef st;
         waiting := rest ++ [AwaitingWebhook sessionId];
         requests := requests st ++ [SendMessageWithRetry n8nRequest] |}
  | AwaitingWebhook sessionId, Answered response =>
      let assistantMessage :=
        {| new_sessionId := sessionId; new_content := "";
           new_type := MessageType.assistant; new_timestamp := now;
           new_responseData := Some
             {| rd_type := N8N.messageType response;
                rd_content := N8N.content response;
                rd_metadata := N8N.metadata response |} |} in
      {| sessions := sessions st; currentSessionId := currentSessionId st;
         isLoading := isLoading st; error := error st;
         currentMessages := currentMessages st;
         currentMessageId := currentMessageId st;
         sendingMessageRef := sendingMessageRef st;
         waiting := rest ++ [SavingAssistantMessage sessionId];
         requests := requests st ++ [CreateMessage assistantMessage] |}
  | SavingAssistantMessage sessionId, Saved savedAssistantMessage =>
      {| sessions :=
           map (fun session =>
                  if String.eqb (session_id session) sessionId
                  then {| session_id := session_id session;
                          session_name := session_name session;
                          messageCount := (messageCount session + 2)%Z |}
                  else session) (sessions st);
         currentSessionId := currentSessionId st;
         isLoading := false; error := error st;
         currentMessages := addMessage (currentMessages st) savedAssistantMessage;
         currentMessageId := None;
         sendingMessageRef := false;
         waiting := rest; requests := requests st |}
  | _, _ => sendMessage_catch st rest (errorMessageOf s)
  end.

(** The state update of [deleteSession(sessionId)], made when the request
    to delete has resolved. *)
Definition sessionDeleted (st : Store) (sessionId : string) : Store :=
  let newSessions :=
    List.filter (fun s => negb (String.eqb (session_id s) sessionId)) (sessions st) in
  let newCurrentSessionId :=
    match currentSessionId st with
    | Some current =>
        if String.eqb current sessionId
        then option_map session_id (head newSessions)
        else Some current
    | None => None
    end in
  {| sessions := newSessions; currentSessionId := newCurrentSessionId;
     isLoading := isLoading st; error := error st;
     currentMessages := currentMessages st; currentMessageId := currentMessageId st;
     sendingMessageRef := sendingMessageRef st;
     waiting := waiting st; requests := requests st ++ [DeleteSession sessionId] |}.

(** What happens to the store, one step at a time. *)
Inductive Event : Type :=
  | Call (content : string) (now : Z)            (* sendMessage(content) *)
  | Settle (k : nat) (s : Settlement) (now : Z)  (* the k-th waiting invocation resumes *)
  | Deleted (sessionId : string).                (* deleteSession(sessionId) completed *)

Definition step (st : Store) (e : Event) : Store :=
  match e with
  | Call content now => sendMessage st content now
  | Settle k s now =>
      match waiting st !! k with
      | Some w => resume st w (delete k (waiting st)) s now
      | None => st
      end
  | Deleted sessionId => sessionDeleted st sessionId
  end.

Definition run (st : Store) (events : list Event) : Store := fold_left step events st.

(** A provider that has loaded [sessions] and selected [current]. *)
Definition loaded (sessions_ : list ChatSession) (current : option string) : Store :=
  {| sessions := sessions_; currentSessionId := current;
     isLoading := false; error := None;
     currentMessages := []; currentMessageId := None;
     sendingMessageRef := false; waiting := []; requests := [] |}.

(** The user messages the store has asked the persistence client to create. *)
Definition userMessagesRequested (st : Store) : list NewMessage :=
  omap (fun r => match r with
                 | CreateMessage m =>
                     if bool_decide (new_type m = MessageType.user) then Some m else None
                 | _ => None
                 end) (requests st).

End ChatStore.

(** *** Vocabulary of the statements about the store *)

Module ChatStoreSpec.
Import ChatStore.

(** The in-flight guard: the flag is set exactly while an invocation of
    [sendMessage] is waiting, and no two are. *)
Definition guarded (st : Store) : Prop :=
  (waiting st <> [] <-> sendingMessageRef st = true) /\ length (waiting st) <= 1.

(** The user message [sendMessage(content)] builds at time [now] for the
    session [sessionId]. *)
Definition userMessage (sessionId content : string) (now : Z) : NewMessage :=
  {| new_sessionId := sessionId; new_content := content;
     new_type := MessageType.user; new_timestamp := now;
     new_responseData := None |}.

End ChatStoreSpec.

(** *** Vocabulary of the statements about the renderer *)

Module MixedSpec.

Definition isText (key : string) : bool := Js.startsWith key "text".
Definition isChart (key : string) : bool := Js.startsWith key "chart".

(** A key the renderer may turn into a fragment. *)
Definition fragmentKey (key : string) : bool := isText key || isChart key.

(** The order of the specification between a fragment and a later one: the
    numeric suffix does not decrease, and for equal suffixes a chart does not
    come before a text. *)
Definition inOrder (a b : string) : Prop :=
  (Mixed.getNumber a < Mixed.getNumber b)%Z \/
  (Mixed.getNumber a = Mixed.getNumber b /\ ~ (isChart a = true /\ isText b = true)).

(** What ECMAScript asks of a comparator, for [localeCompare]. *)
Definition consistent (compare : string -> string -> Z) : Prop :=
  (forall a b, (0 < compare a b)%Z -> (compare b a <= 0)%Z) /\
  (forall a b c, (compare a b <= 0)%Z -> (compare b c <= 0)%Z -> (compare a c <= 0)%Z).

End MixedSpec.

(** ** The streaming endpoint ([N8NClient.streamMessages]) *)

Module Stream.
Import N8N.

(** [s.slice(n)] for [n] from 0 to the length of [s] *)
Fixpoint slice (n : nat) (s : string) : string :=
  match n, s with
  | O, _ => s
  | S n', String _ r => slice n' r
  | S _, EmptyString => EmptyString
  end.

(** What the generator throws: the two [N8NError]s of type [server] it
    builds, an [N8NError] it caught and throws again, or the [N8NError] of
    type [network] it wraps around any other error. *)
Inductive Thrown : Type :=
  | StreamingFailed (status : Z)
  | NoResponseBody
  | Rethrown (error : Exn)
  | ConnectionFailed (error : Exn).

(** The body of a response as the reader delivers it: the decoded text of
    the chunks read before [done], or before [read()] rejects. *)
Record Body : Type := {
  chunks : list string;
  readFails : option Exn
}.

(** How the [fetch] of the streaming URL settles. *)
Inductive Opened : Type :=
  | Refused (error : Exn)
  | Answered (status : Z) (body : option Body).

Section StreamMessages.
Context `{Platform}.

(** The [for (const line of lines)] loop: the values handed to
    [validateResponse], in order, and whether a [[DONE]] line ended the
    generator. *)
Fixpoint processLines (lines : list string) : list json * bool :=
  match lines with
  | [] => ([], false)
  | line :: rest =>
      if decide (Js.trim line = "") then processLines rest
      else if Js.startsWith line "data: " then
        let data := slice 6 line in
        if String.eqb data "[DONE]" then ([], true)
        else
          match JSON_parse data with
          | Some parsed =>
              let '(yielded, returned) := processLines rest in
              (parsed :: yielded, returned)
          | None => processLines rest
          end
      else processLines rest
  end.

(** The [while (true)] loop, entered with [buffer] and the chunks still to
    be read. *)
Fixpoint readLoop (buffer : string) (values : list string) : list json * bool :=
  match values with
  | [] => ([], false)
  | value :: later =>
      let lines := Js.split Js.LF (buffer +:+ value) in
      let buffer' := List.last lines "" in
      let '(yielded, returned) := processLines (removelast lines) in
      if returned then (yielded, true)
      else
        let '(more, returned') := readLoop buffer' later in
        (yielded ++ more, returned')
  end.

(** [catch (error)] of the generator *)
Definition rethrow (error : Exn) : Thrown :=
  match error with
  | N8NError _ _ _ => Rethrown error
  | Error _ _ => ConnectionFailed error
  end.

(** [streamMessages(sessionId)]: the responses yielded, the [k]-th of them
    normalized at time [clock k], and what the generator throws at the end,
    if it throws. *)
Definition streamMessages (clock : nat -> Z) (opened : Opened)
  : list N8NResponse * option Thrown :=
  match opened with
  | Refused error => ([], Some (rethrow error))
  | Answered status body =>
      if negb (ok status) then ([], Some (StreamingFailed status))
      else
        match body with
        | None => ([], Some NoResponseBody)
        | Some body =>
            let '(yielded, returned) := readLoop "" (chunks body) in
            (imap (fun k parsed => validateResponse (clock k) parsed) yielded,
             if returned then None
             else option_map rethrow (readFails body))
        end
  end.

(** What the loop over the lines does on two runs of lines in a row. *)
Definition processBoth (first second : list json * bool) : list json * bool :=
  if first.2 then (first.1, true) else (first.1 ++ second.1, second.2).

End StreamMessages.

End Stream.

(** *** Vocabulary of the statements about lines *)

Module LinesSpec.

(** No line feed occurs in [s]. *)
Fixpoint noLF (s : string) : bool :=
  match s with
  | EmptyString => true
  | String c r => negb (Ascii.eqb c Js.LF) && noLF r
  end.

(** The lines of [text] that end in a line feed. *)
Definition terminated (text : string) : list string :=
  removelast (Js.split Js.LF text).

(** The text of a whole stream. *)
Definition concat (values : list string) : string :=
  fold_right String.append EmptyString values.

(** The text of lines that each end in a line feed. *)
Fixpoint unlines (ls : list string) : string :=
  match ls with
  | [] => EmptyString
  | l :: ls => (l +:+ String Js.LF "") +:+ unlines ls
  end.

(** Two histories against which the same lines count as repeated. *)
Definition same_history (p q : list string) : Prop :=
  forall x, existsb (DedupSpec.same_trimmed x) q = existsb (DedupSpec.same_trimmed x) p.

End LinesSpec.

(** ** Sessions in local storage ([LocalStorageMockAPIClient]) *)

Module Sessions.
Import Persistence.

(** The [metadata] of a [ChatSession] *)
Record SessionMetadata : Type := {
  md_messageCount : Z;
  md_lastActivity : Z;
  md_isActive : bool
}.

(** [ChatSession] *)
Record ChatSession : Type := {
  cs_id : string;
  cs_name : string;
  cs_createdAt : Z;
  cs_updatedAt : Z;
  cs_messages : list Message;
  cs_metadata : SessionMetadata
}.

(** [Partial<Pick<ChatSession, 'name'>>]: [None] when the property is absent. *)
Record SessionUpdates : Type := {
  upd_name : option string
}.

Definition transformSession (session : MockAPISession) : ChatSession :=
  {| cs_id := s_id session;
     cs_name := s_name session;
     cs_createdAt := createdAt session;
     cs_updatedAt := updatedAt session;
     cs_messages := [];
     cs_metadata := {| md_messageCount := messageCount session;
                       md_lastActivity := lastActivity session;
                       md_isActive := isActive session |} |}.

(** [getSessions()] *)
Definition getSessions (st : Storage) : list ChatSession :=
  map transformSession (sessions st).

(** [getSession(id)] *)
Definition getSession (st : Storage) (id_ : string) : option ChatSession :=
  match List.find (fun s => String.eqb (s_id s) id_) (sessions st) with
  | Some session => Some (transformSession session)
  | None => None
  end.

(** [createSession(name)] at time [now]; [sessionId] is the identifier
    [generateId()] returns for this call. *)
Definition createSession (st : Storage) (sessionId_ : string) (now : Z) (name : string)
  : Storage * ChatSession :=
  let sessionData :=
    {| s_id := sessionId_; s_name := name; createdAt := now; updatedAt := now;
       messageCount := 0; lastActivity := now; isActive := true |} in
  (setSessions st (sessions st ++ [sessionData]), transformSession sessionData).

(** [updateSession(id, updates)] at time [now] *)
Definition updateSession (st : Storage) (now : Z) (id_ : string) (updates : SessionUpdates)
  : Storage * (MockAPIError + ChatSession) :=
  match list_find (fun s => s_id s = id_) (sessions st) with
  | None => (st, inl {| err_message := "Session not found"; err_status := Some 404%Z |})
  | Some (index, session) =>
      let updated :=
        {| s_id := s_id session;
           s_name := default (s_name session) (upd_name updates);
           createdAt := createdAt session;
           updatedAt := now;
           messageCount := messageCount session;
           lastActivity := lastActivity session;
           isActive := isActive session |} in
      (setSessions st (<[index := updated]> (sessions st)), inr (transformSession updated))
  end.

(** [deleteSession(id)] *)
Definition deleteSession (st : Storage) (id_ : string) : Storage :=
  let filteredSessions :=
    List.filter (fun s => negb (String.eqb (s_id s) id_)) (sessions st) in
  let filteredMessages :=
    List.filter (fun m => negb (String.eqb (m_sessionId m) id_)) (messages st) in
  {| sessions := filteredSessions; messages := filteredMessages |}.

(** [updateSessionActivity(id)]; [now1] and [now2] are its two readings of
    the clock. *)
Definition updateSessionActivity (st : Storage) (now1 now2 : Z) (id_ : string) : Storage :=
  match list_find (fun s => s_id s = id_) (sessions st) with
  | Some (index, session) =>
      setSessions st
        (<[index := {| s_id := s_id session; s_name := s_name session;
                       createdAt := createdAt session; updatedAt := now2;
                       messageCount := messageCount session;
                       lastActivity := now1; isActive := isActive session |}]>
           (sessions st))
  | None => st
  end.

(** [clearAllData()]: both keys are removed, and a key that is not there
    reads as the empty list. *)
Definition clearAllData (st : Storage) : Storage :=
  {| sessions := []; messages := [] |}.

End Sessions.

(** *** Vocabulary of the statements about local storage *)

Module StorageSpec.
Import Persistence.

(** The stored messages of a session, in stored order. *)
Definition stored (st : Storage) (sessionId_ : string) : list MockAPIMessage :=
  List.filter (fun m => String.eqb (m_sessionId m) sessionId_) (messages st).

(** Session identifiers are unique and every [messageCount] is the number of
    stored messages of its session. *)
Definition counted (st : Storage) : Prop :=
  NoDup (map s_id (sessions st)) /\
  Forall (fun s => messageCount s = Z.of_nat (length (stored st (s_id s)))) (sessions st).

#[global] Instance counted_dec (st : Storage) : Decision (counted st).
Proof. unfold counted. apply _. Defined.

(** What [updateMessage] may not change in a stored message. *)
Definition same_identity (a b : MockAPIMessage) : Prop :=
  m_id a = m_id b /\ m_sessionId a = m_sessionId b /\ m_type a = m_type b
  /\ m_timestamp a = m_timestamp b.

End StorageSpec.

(** ** The remote requests of the persistence client ([MockAPIClient.request])

    [fetch] is called with [signal: AbortSignal.timeout(timeout)]; the
    callers pass a [method] and a [body] only, so the signal stays.  The
    network settles a request after [latency] milliseconds: with a response,
    whose [json()] gives the decoded body or throws, or with a rejection. *)

Module Remote.
Import Persistence Sessions.

(** A thrown [Error] that is not a [MockAPIError]. *)
Record JsError : Type := {
  name : string;
  message : string
}.

Inductive Settled (T : Type) : Type :=
  | Response (status : Z) (statusText : string) (json_ : JsError + T)
  | Rejected (error : JsError).
Arguments Response {T} status statusText json_.
Arguments Rejected {T} error.

Record Network (T : Type) : Type := {
  latency : Z;
  settles : Settled T
}.
Arguments latency {T} _.
Arguments settles {T} _.

Definition fetch {T : Type} (net : Network T) (signal : Z) : Settled T :=
  if (signal <=? latency net)%Z
  then Rejected {| name := "TimeoutError"; message := "The operation timed out." |}
  else settles net.

(** [this.config.timeout]: 10000 unless the configuration names one. *)
Definition timeoutOf (config : Client.MockAPIConfig) : Z :=
  default 10000%Z (Client.timeout config).

(** The [catch] block of [request], for an error that is not a
    [MockAPIError]. *)
Definition request_catch (error : JsError) : MockAPIError :=
  if String.eqb (name error) "TimeoutError"
  then {| err_message := "Request timeout"; err_status := None |}
  else if Js.includes (message error) "fetch"
  then {| err_message := "Network error"; err_status := None |}
  else {| err_message := "Unexpected error"; err_status := None |}.

(** [request<T>(endpoint, options)]: the decoded body, or the
    [MockAPIError] thrown. *)
Definition request {T : Type} (config : Client.MockAPIConfig) (net : Network T)
  : MockAPIError + T :=
  if Client.useFallback config
  then inl {| err_message := "Using fallback client"; err_status := Some 0%Z |}
  else
    match fetch net (timeoutOf config) with
    | Response status statusText json_ =>
        if negb (N8N.ok status)
        then inl {| err_message := "HTTP " +:+ pretty status +:+ ": " +:+ statusText;
                    err_status := Some status |}
        else match json_ with
             | inr data => inr data
             | inl error => inl (request_catch error)
             end
    | Rejected error => inl (request_catch error)
    end.

(** [getSession(id)] *)
Definition getSession (config : Client.MockAPIConfig) (net : Network MockAPISession)
    (st : Storage) (id_ : string) : option ChatSession :=
  if Client.useFallback config then Sessions.getSession st id_
  else
    match request config net with
    | inr session => Some (transformSession session)
    | inl error =>
        if decide (err_status error = Some 404%Z) then None
        else Sessions.getSession st id_
    end.

End Remote.

(** ** The chat state store: sessions loaded, created and selected *)

Module SessionStore.
Import ChatStore.

(** The state update of [loadSessions()] when [getSessions()] has resolved
    with [sessions]; [savedSessionId] is what [localStorage] holds under the
    key of the selected session, [None] for [null]. *)
Definition sessionsLoaded (st : Store) (sessions_ : list ChatSession)
    (savedSessionId : option string) : Store :=
  let found :=
    match savedSessionId with
    | Some saved =>
        negb (String.eqb saved "")
        && bool_decide (is_Some (List.find (fun s => String.eqb (session_id s) saved) sessions_))
    | None => false
    end in
  {| sessions := sessions_;
     currentSessionId :=
       if found then savedSessionId else option_map session_id (head sessions_);
     isLoading := false; error := error st;
     currentMessages := currentMessages st; currentMessageId := currentMessageId st;
     sendingMessageRef := sendingMessageRef st;
     waiting := waiting st; requests := requests st |}.

(** The state update of [createSession(name)] when the client has resolved
    with [session]. *)
Definition sessionCreated (st : Store) (session : ChatSession) : Store :=
  {| sessions := session :: sessions st;
     currentSessionId := Some (session_id session);
     isLoading := false; error := error st;
     currentMessages := currentMessages st; currentMessageId := currentMessageId st;
     sendingMessageRef := sendingMessageRef st;
     waiting := waiting st; requests := requests st |}.

(** The first state update of [loadSessions()] and of [createSession(name)]. *)
Definition started (st : Store) : Store :=
  {| sessions := sessions st; currentSessionId := currentSessionId st;
     isLoading := true; error := None;
     currentMessages := currentMessages st; currentMessageId := currentMessageId st;
     sendingMessageRef := sendingMessageRef st;
     waiting := waiting st; requests := requests st |}.

(** The state update of their [catch] blocks. *)
Definition failed (st : Store) (errorMessage : string) : Store :=
  {| sessions := sessions st; currentSessionId := currentSessionId st;
     isLoading := false; error := Some errorMessage;
     currentMessages := currentMessages st; currentMessageId := currentMessageId st;
     sendingMessageRef := sendingMessageRef st;
     waiting := waiting st; requests := requests st |}.

(** What happens to the store: the events of [ChatStore], and the state
    updates of [loadSessions] and [createSession].  ([selectSession], which
    selects whatever identifier it is given, is not among them.) *)
Inductive Action : Type :=
  | Chat (e : Event)
  | Started
  | Failed (errorMessage : string)
  | Loaded (sessions_ : list ChatSession) (savedSessionId : option string)
  | Created (session : ChatSession).

Definition act (st : Store) (a : Action) : Store :=
  match a with
  | Chat e => step st e
  | Started => started st
  | Failed errorMessage => failed st errorMessage
  | Loaded sessions_ savedSessionId => sessionsLoaded st sessions_ savedSessionId
  | Created session => sessionCreated st session
  end.

Definition perform (st : Store) (actions : list Action) : Store := fold_left act actions st.

(** The provider as it is mounted: the initial [useState] values. *)
Definition mounted : Store := loaded [] None.

End SessionStore.

(** *** Vocabulary of the further statements about the store *)

Module StoreSpec.
Import ChatStore.

(** The selected session is one of the sessions listed. *)
Definition validSelection (st : Store) : Prop :=
  match currentSessionId st with
  | Some current => current ∈ map session_id (sessions st)
  | None => True
  end.



(** The requests of the chat itself, without those to delete a session. *)
Definition chatRequests (st : Store) : list Request :=
  List.filter (fun r => match r with DeleteSession _ => false | _ => true end) (requests st).

(** What a request may follow: a call of the webhook comes right after the
    request to store the user message it carries, and a request to store an
    assistant message right after a call of the webhook for its session. *)
Definition follows (prev : option Request) (r : Request) : bool :=
  match r with
  | SendMessageWithRetry q =>
      match prev with
      | Some (CreateMessage m) =>
          bool_decide (new_type m = MessageType.user)
          && String.eqb (new_content m) (N8N.request_message q)
          && String.eqb (new_sessionId m) (N8N.sessionId q)
      | _ => false
      end
  | CreateMessage m =>
      if bool_decide (new_type m = MessageType.assistant) then
        match prev with
        | Some (SendMessageWithRetry q) => String.eqb (N8N.sessionId q) (new_sessionId m)
        | _ => false
        end
      else true
  | DeleteSession _ => true
  end.

Definition inProtocol (rs : list Request) : Prop :=
  forall pre r post, rs = pre ++ r :: post -> follows (last pre) r = true.

(** What the waiting invocation has asked for last. *)
Definition lastRequested (st : Store) : Prop :=
  match waiting st with
  | [SavingUserMessage sessionId content _] =>
      exists m, last (chatRequests st) = Some (CreateMessage m)
                /\ new_type m = MessageType.user
                /\ new_content m = content /\ new_sessionId m = sessionId
  | [AwaitingWebhook sessionId] =>
      exists q, last (chatRequests st) = Some (SendMessageWithRetry q)
                /\ N8N.sessionId q = sessionId
  | _ => True
  end.

(** The invariant: the chat requests are in protocol and the waiting
    invocation has asked last for what it waits for. *)
Definition orderly (st : Store) : Prop :=
  ChatStoreSpec.guarded st /\ inProtocol (chatRequests st) /\ lastRequested st.

End StoreSpec.

(** ** Session names ([validateSessionName]) *)

Module MockAPIUtils.

(** [mockAPIUtils.validateSessionName(name)]; [None] for [null]. *)
Definition validateSessionName (name : string) : option string :=
  if String.eqb (Js.trim name) "" then Some "Session name cannot be empty"
  else if (100 <? Z.of_nat (String.length name))%Z
  then Some "Session name cannot exceed 100 characters"
  else None.

End MockAPIUtils.

Module UseSession.

(** [VALIDATION_RULES.session] *)
Definition nameMaxLength : Z := 100.
Definition nameMinLength : Z := 1.

(** [validateSessionName(name)] of the [useSession] hook *)
Definition validateSessionName (name : string) : option string :=
  if String.eqb (Js.trim name) "" then Some "Session name cannot be empty"
  else if (nameMaxLength <? Z.of_nat (String.length name))%Z
  then Some ("Session name cannot exceed " +:+ pretty nameMaxLength +:+ " characters")
  else if (Z.of_nat (String.length name) <? nameMinLength)%Z
  then Some ("Session name must be at least " +:+ pretty nameMinLength +:+ " character")
  else None.

End UseSession.

(** ** The status route ([POST], [GET] and [DELETE] of the thinking status)

    [thinkingStatus] is the [Map] of the module, from keys to the records
    stored.  A reply is the JSON body the handler answers with. *)

Module StatusRoute.

(** A record of the map; [status] and [message] are what the body gave,
    [None] for [undefined]. *)
Record Entry : Type := {
  e_sessionId : json;
  e_messageId : json;
  e_status : option json;
  e_message : option json;
  e_type : json;
  e_timestamp : Z
}.

Inductive Reply : Type :=
  | Success                           (* { success: true } *)
  | Status (status : option Entry)    (* { status }, [None] for [null] *)
  | Required                          (* status 400: sessionId and messageId are required *)
  | Failed.                           (* status 500: Failed to update status *)

Section Route.
Context `{Platform}.

(** The key of a template literal over two values. *)
Definition key (sessionId messageId : json) : string :=
  String_ sessionId +:+ "-" +:+ String_ messageId.

(** [POST(request)]: [body] is what [request.json()] gives, [None] when it
    throws; [now1] is the time of [new Date()] and [now2] that of
    [Date.now()]. *)
Definition POST (thinkingStatus : gmap string Entry) (body : option json) (now1 now2 : Z)
  : gmap string Entry * Reply :=
  match body with
  | None | Some JNull => (thinkingStatus, Failed)
  | Some body =>
      let sessionId := get body "sessionId" in
      let messageId := get body "messageId" in
      let status := get body "status" in
      let message := get body "message" in
      let type := default (JStr "thinking") (get body "type") in
      match sessionId, messageId with
      | Some sessionId, Some messageId =>
          if negb (truthy sessionId) || negb (truthy messageId)
          then (thinkingStatus, Required)
          else
            let timestamp := now1 in
            let stored :=
              <[key sessionId messageId :=
                  {| e_sessionId := sessionId; e_messageId := messageId;
                     e_status := status; e_message := message;
                     e_type := type; e_timestamp := timestamp |}]> thinkingStatus in
            let fiveMinutesAgo := (now2 - 5 * 60 * 1000)%Z in
            (filter (fun kv => ~ (e_timestamp kv.2 < fiveMinutesAgo)%Z) stored, Success)
      | _, _ => (thinkingStatus, Required)
      end
  end.

End Route.

(** The key of the two search parameters. *)
Definition paramKey (sessionId messageId : string) : string :=
  sessionId +:+ "-" +:+ messageId.

(** [GET(request)]: the search parameters, [None] when absent. *)
Definition GET (thinkingStatus : gmap string Entry) (sessionId messageId : option string)
  : Reply :=
  match sessionId, messageId with
  | Some sessionId, Some messageId =>
      if String.eqb sessionId "" || String.eqb messageId "" then Required
      else Status (thinkingStatus !! paramKey sessionId messageId)
  | _, _ => Required
  end.

(** [DELETE(request)] *)
Definition DELETE (thinkingStatus : gmap string Entry) (sessionId messageId : option string)
  : gmap string Entry * Reply :=
  match sessionId, messageId with
  | Some sessionId, Some messageId =>
      if String.eqb sessionId "" || String.eqb messageId "" then (thinkingStatus, Required)
      else (delete (paramKey sessionId messageId) thinkingStatus, Success)
  | _, _ => (thinkingStatus, Required)
  end.

End StatusRoute.

(** ** Dates of sessions ([date-utils])

    A date is its time value in milliseconds.  The quotients of the source
    are floating-point: [diffInHours < 24] is the comparison of the
    difference with 24 hours, and [Math.floor] of the quotient by the
    milliseconds of a day is the floor of the integer division (the time
    values of dates near the present are far below the size at which the
    rounding of the quotient could reach the next integer). *)

Module DateUtils.

(** What a call reads from its surroundings: the clock ([new Date()]) and
    the two tests of the date library, which read the clock themselves. *)
Record Env : Type := {
  now : Z;
  isToday : Z -> bool;
  isYesterday : Z -> bool
}.

Definition hour : Z := 1000 * 60 * 60.
Definition day : Z := 1000 * 60 * 60 * 24.

(** [isWithin24Hours(date)] *)
Definition isWithin24Hours (now_ : Z) (date : Z) : bool :=
  (now_ - date <? 24 * hour)%Z.

(** [getSessionActivityStatus(lastActivity)]; [now1] and [now2] are its two
    readings of the clock. *)
Definition getSessionActivityStatus (now1 now2 : Z) (lastActivity : Z) : string :=
  if isWithin24Hours now1 lastActivity then "active"
  else
    let diffInDays := ((now2 - lastActivity) / day)%Z in
    if (diffInDays <? 7)%Z then "recent" else "old".

(** [getSessionTimeCategory(lastActivity)] *)
Definition getSessionTimeCategory (env : Env) (lastActivity : Z) : string :=
  let diffInDays := ((now env - lastActivity) / day)%Z in
  if isToday env lastActivity then "Today"
  else if isYesterday env lastActivity then "Yesterday"
  else if (diffInDays <? 7)%Z then "This Week"
  else if (diffInDays <? 30)%Z then "This Month"
  else "Older".

Section Sessions.
Context {T : Type}.
(** [session.metadata.lastActivity.getTime()] *)
Variable lastActivity : T -> Z.

(** [sortSessionsByActivity(sessions)] *)
Definition sortSessionsByActivity (sessions : list T) : list T :=
  Js.sort (fun a b => (lastActivity b - lastActivity a)%Z) sessions.

(** The body of the loop of [groupSessionsByTime]: [groups] is the object,
    its properties in the order of their creation. *)
Fixpoint push (groups : list (string * list T)) (category : string) (session : T)
  : list (string * list T) :=
  match groups with
  | [] => [(category, [session])]
  | (c, group) :: rest =>
      if String.eqb c category then (c, group ++ [session]) :: rest
      else (c, group) :: push rest category session
  end.

(** The loop from its turn [k] on; [env k] is what the turn [k] reads. *)
Fixpoint groupLoop (env : nat -> Env) (k : nat) (sorted : list T)
    (groups : list (string * list T)) : list (string * list T) :=
  match sorted with
  | [] => groups
  | session :: rest =>
      let category := getSessionTimeCategory (env k) (lastActivity session) in
      groupLoop env (S k) rest (push groups category session)
  end.

(** [groupSessionsByTime(sessions)] *)
Definition groupSessionsByTime (env : nat -> Env) (sessions : list T)
  : list (string * list T) :=
  groupLoop env 0 (sortSessionsByActivity sessions) [].

(** Most recent first. *)
Definition recentFirst (a b : T) : Prop := (lastActivity b <= lastActivity a)%Z.

(** What the loop keeps: the groups hold the sessions done so far, each
    group in their order, under distinct categories, none empty. *)
Definition grouped (done : list T) (groups : list (string * list T)) : Prop :=
  concat (map snd groups) ≡ₚ done
  /\ NoDup (map fst groups)
  /\ Forall (fun g => g.2 <> [] /\ sublist g.2 done) groups.

End Sessions.

End DateUtils.

(** ** Sample data of the examples *)

Module Samples.

(** A user message ["Hello"] of session ["s1"] sent at time [t]. *)
Definition hello (t : Z) : Persistence.NewMessage :=
  {| Persistence.new_sessionId := "s1"; Persistence.new_content := "Hello";
     Persistence.new_type := MessageType.user; Persistence.new_timestamp := t;
     Persistence.new_responseData := None |}.

(** A store that holds one user message ["Hello"] of session ["s1"], sent at
    time 0. *)
Definition oneHello : Persistence.Storage :=
  {| Persistence.sessions := [];
     Persistence.messages :=
       [ {| Persistence.m_id := "old"; Persistence.m_sessionId := "s1";
            Persistence.m_content := "Hello";
            Persistence.m_type := MessageType.user;
            Persistence.m_timestamp := 0;
            Persistence.responseType := None;
            Persistence.responseContent := None;
            Persistence.responseMetadata := None |} ] |}.

Definition emptyStorage : Persistence.Storage :=
  {| Persistence.sessions := []; Persistence.messages := [] |}.

(** An assistant message of session ["s1"] whose response is [rd]. *)
Definition answer (rd : Persistence.ResponseData) : Persistence.NewMessage :=
  {| Persistence.new_sessionId := "s1"; Persistence.new_content := "";
     Persistence.new_type := MessageType.assistant;
     Persistence.new_timestamp := 1000%Z;
     Persistence.new_responseData := Some rd |}.

(** A text response, and a response of type [json] whose content is the
    object [{text: "hi"}]. *)
Definition textResponse : Persistence.ResponseData :=
  {| Persistence.rd_type := ResponseType.text;
     Persistence.rd_content := Some (JStr "Hi");
     Persistence.rd_metadata := None |}.


(** A client configured with a real endpoint, and one with the placeholder. *)
Definition remoteConfig : Client.MockAPIConfig :=
  {| Client.baseUrl := "https://api.example.com/v1"; Client.projectId := "p1";
     Client.timeout := None |}.

Definition placeholderConfig : Client.MockAPIConfig :=
  {| Client.baseUrl := "https://mockapi.io/api/v1";
     Client.projectId := "your-project-id"; Client.timeout := None |}.

(** Comparison of strings by code units, the order [localeCompare] gives to
    keys made of lower-case ASCII letters and digits. *)
Fixpoint codeUnitCompare (a b : string) : Z :=
  match a, b with
  | EmptyString, EmptyString => 0%Z
  | EmptyString, String _ _ => (-1)%Z
  | String _ _, EmptyString => 1%Z
  | String x a', String y b' =>
      let d := (Z.of_nat (nat_of_ascii x) - Z.of_nat (nat_of_ascii y))%Z in
      if (d =? 0)%Z then codeUnitCompare a' b' else d
  end.

(** A platform for the examples: strings compare by code unit.  The examples
    give it nothing to parse and no number or object to convert. *)
Definition platform : Platform := {|
  JSON_parse := fun _ => None;
  Number_toString := fun _ => "NaN";
  Object_toString := fun _ => "[object Object]";
  ToNumber := fun _ => PrimFloat.nan;
  localeCompare := codeUnitCompare
|}.

(** A bar chart with one record. *)
Definition barChart : json :=
  JObj [("type", JStr "bar");
        ("data", JArr [JObj [("name", JStr "a"); ("value", JNum 1%float)]])].

(** An element of a mixed content whose keys are [chart1], [foo1], [text1],
    in this order. *)
Definition chartFooText : json :=
  JObj [("chart1", barChart); ("foo1", JStr "x"); ("text1", JStr "hello")].

(** The element of the specification's example: [text2], [chart1], [text1]. *)
Definition text2Chart1Text1 : json :=
  JObj [("text2", JStr "two"); ("chart1", barChart); ("text1", JStr "one")].

(** A store with the session ["s1"] and its one message. *)
Definition oneSession : Persistence.Storage :=
  {| Persistence.sessions :=
       [ {| Persistence.s_id := "s1"; Persistence.s_name := "Chat";
            Persistence.createdAt := 0; Persistence.updatedAt := 0;
            Persistence.messageCount := 1; Persistence.lastActivity := 0;
            Persistence.isActive := true |} ];
     Persistence.messages := Persistence.messages oneHello |}.


End Samples.

(** * Properties *)

(** ** [Array.prototype.sort] *)

Section SortProofs.
Context {A : Type} (compareFn : A -> A -> Z).

Lemma insert_back_Permutation (x : A) (l : list A) :
  Js.insert_back compareFn x l ≡ₚ x :: l.
Proof.
  induction l as [|y ys IH]; simpl; [done|].
  destruct (0 <? compareFn y x)%Z; [|done].
  rewrite IH. apply Permutation_swap.
Qed.

Lemma fold_insert_back_Permutation (xs acc : list A) :
  fold_left (fun sorted_rev x => Js.insert_back compareFn x sorted_rev) xs acc
  ≡ₚ xs ++ acc.
Proof.
  revert acc. induction xs as [|x xs IH]; intros acc; simpl; [done|].
  rewrite IH, insert_back_Permutation. by rewrite Permutation_middle.
Qed.

(** Sorting rearranges: nothing is lost and nothing is added. *)
Lemma sort_Permutation (xs : list A) : Js.sort compareFn xs ≡ₚ xs.
Proof.
  unfold Js.sort. rewrite <- Permutation_rev.
  rewrite fold_insert_back_Permutation. by rewrite app_nil_r.
Qed.

Lemma elem_of_sort (x : A) (xs : list A) : x ∈ Js.sort compareFn xs <-> x ∈ xs.
Proof. by rewrite sort_Permutation. Qed.

End SortProofs.

(** With a comparator that is consistent on the elements sorted, the result
    is in order. *)
Section SortSorted.
Context {A : Type} (compareFn : A -> A -> Z) (P : A -> Prop).
Hypothesis compare_total :
  forall a b, P a -> P b -> (0 < compareFn a b)%Z -> (compareFn b a <= 0)%Z.
Hypothesis compare_trans :
  forall a b c, P a -> P b -> P c ->
    (compareFn a b <= 0)%Z -> (compareFn b c <= 0)%Z -> (compareFn a c <= 0)%Z.

Let before (a b : A) : Prop := (compareFn a b <= 0)%Z.

Lemma insert_back_Forall (Q : A -> Prop) (x : A) (l : list A) :
  Q x -> Forall Q l -> Forall Q (Js.insert_back compareFn x l).
Proof.
  intros Hx Hl. rewrite Forall_forall in *. intros y Hy.
  rewrite insert_back_Permutation in Hy. apply elem_of_cons in Hy as [->|Hy]; auto.
Qed.

Lemma insert_back_sorted (x : A) (sorted_rev : list A) :
  P x -> Forall P sorted_rev ->
  StronglySorted (flip before) sorted_rev ->
  StronglySorted (flip before) (Js.insert_back compareFn x sorted_rev).
Proof.
  intros Hx. induction sorted_rev as [|y ys IH]; intros HP Hs; simpl.
  - repeat constructor.
  - apply Forall_cons_1 in HP as [Hy Hys].
    apply StronglySorted_cons in Hs as [Hall Hs].
    destruct (Z.ltb_spec 0 (compareFn y x)) as [Hgt|Hle].
    + apply StronglySorted_cons. split; [|by apply IH].
      apply insert_back_Forall; [|done].
      unfold flip, before. by apply compare_total.
    + apply StronglySorted_cons. split.
      * constructor; [exact Hle|].
        rewrite Forall_forall in *. intros z Hz. unfold flip, before in *.
        apply (compare_trans z y x); auto.
      * by apply StronglySorted_cons.
Qed.

Lemma fold_insert_back_sorted (xs acc : list A) :
  Forall P xs -> Forall P acc -> StronglySorted (flip before) acc ->
  StronglySorted (flip before)
    (fold_left (fun sorted_rev x => Js.insert_back compareFn x sorted_rev) xs acc).
Proof.
  revert acc. induction xs as [|x xs IH]; intros acc Hxs Hacc Hs; simpl; [done|].
  apply Forall_cons_1 in Hxs as [Hx Hxs]. apply IH; [done| |].
  - by apply insert_back_Forall.
  - by apply insert_back_sorted.
Qed.

Lemma StronglySorted_rev (l : list A) :
  StronglySorted (flip before) l -> StronglySorted before (rev l).
Proof.
  induction 1 as [|a l Hs IH Hall]; simpl; [constructor|].
  apply StronglySorted_app_2; [|done|repeat constructor].
  intros x1 x2 Hx1 Hx2. apply list_elem_of_singleton in Hx2 as ->.
  rewrite Forall_forall in Hall. apply Hall.
  apply list_elem_of_In. apply in_rev. by apply list_elem_of_In.
Qed.

Lemma sort_sorted (xs : list A) :
  Forall P xs -> StronglySorted before (Js.sort compareFn xs).
Proof.
  intros Hxs. unfold Js.sort. apply StronglySorted_rev.
  apply fold_insert_back_sorted; [done|constructor|constructor].
Qed.

End SortSorted.

Lemma StronglySorted_sublist {A : Type} (R : A -> A -> Prop) (l1 l2 : list A) :
  l1 `sublist_of` l2 -> StronglySorted R l2 -> StronglySorted R l1.
Proof.
  induction 1 as [|x l1 l2 Hsub IH|x l1 l2 Hsub IH]; intros Hs.
  - constructor.
  - apply StronglySorted_cons in Hs as [Hall Hs].
    apply StronglySorted_cons. split; [|by apply IH].
    rewrite Forall_forall in *. intros y Hy. apply Hall.
    by apply (elem_of_sublist l1).
  - apply StronglySorted_cons in Hs as [_ Hs]. by apply IH.
Qed.

Lemma StronglySorted_impl {A : Type} (R S : A -> A -> Prop) (P : A -> Prop) (l : list A) :
  (forall a b, P a -> P b -> R a b -> S a b) ->
  Forall P l -> StronglySorted R l -> StronglySorted S l.
Proof.
  intros HRS HP Hs. induction Hs as [|a l Hs IH Hall]; [constructor|].
  apply Forall_cons_1 in HP as [Ha Hl]. constructor; [by apply IH|].
  rewrite Forall_forall in *. intros b Hb. apply HRS; auto.
Qed.

(** ** The chart adapter *)

Section ChartProofs.
Import Chart.
Context `{Platform}.





(** The adapter answers [null] to what is not an object. *)
Lemma transformChartData_not_object (chartConfig : json) :
  negb (truthy chartConfig) || negb (typeof_object chartConfig) = true ->
  transformChartData (Some chartConfig) = Normal None.
Proof. intros Hno. unfold transformChartData. by rewrite Hno. Qed.



End ChartProofs.



Example transformChartData_empty_pie `{Platform} :
  Chart.transformChartData (Some (JObj [("type", JStr "pie"); ("data", JArr [])]))
  = Chart.Normal (Some
      {| Chart.type := "pie"; Chart.title := JStr "Pie Chart";
         Chart.data := Chart.Upstream (JArr []);
         Chart.xKey := "name"; Chart.yKey := "value";
         Chart.options := Chart.defaultOptions |}).
Proof. reflexivity. Qed.

Example transformChartData_missing_data `{Platform} :
  Chart.transformChartData (Some (JObj [("type", JStr "pie")])) = Chart.Normal None.
Proof. reflexivity. Qed.

Example transformChartData_bar_labels `{Platform} :
  Chart.transformChartData
    (Some (JObj [("type", JStr "bar");
                 ("data", JObj [("labels", JArr [JStr "Jan"; JStr "Feb"]);
                                ("datasets", JArr [JObj [("label", JStr "Sales");
                                   ("data", JArr [JNum 10%float; JNum 20%float])]])])]))
  = Chart.Normal (Some
      {| Chart.type := "bar"; Chart.title := JStr "Bar Chart";
         Chart.data := Chart.Built
           [[("name", Some (JStr "Jan")); ("value", Some (JNum 10%float))];
            [("name", Some (JStr "Feb")); ("value", Some (JNum 20%float))]];
         Chart.xKey := "name"; Chart.yKey := "value";
         Chart.options := Chart.defaultOptions |}).
Proof. reflexivity. Qed.

Example transformChartData_scatter_null_throws `{Platform} :
  Chart.transformChartData
    (Some (JObj [("type", JStr "scatter"); ("data", JArr [JNull])]))
  = Chart.TypeError.
Proof. reflexivity. Qed.

(** The empty model the adapter lets through is refused by the renderer of
    charts. *)
Lemma validateChartData_empty (chartData : Chart.ChartData) :
  in_strings Chart.chartTypes (JStr (Chart.type chartData)) = true ->
  Chart.data chartData = Chart.Upstream (JArr []) ->
  Chart.validateChartData chartData = Some "Chart data must be a non-empty array".
Proof. intros Hty Hdata. unfold Chart.validateChartData. by rewrite Hty, Hdata. Qed.

Example validateChartData_empty_pie `{Platform} :
  match Chart.transformChartData
          (Some (JObj [("type", JStr "pie"); ("data", JArr [])])) with
  | Chart.Normal (Some chartData) => Chart.validateChartData chartData
  | _ => None
  end = Some "Chart data must be a non-empty array".
Proof. reflexivity. Qed.

Section DedupProofs.
Import DedupSpec.

Lemma seen_of_empty : seen_of ∅ [].
Proof.
  intros t. split.
  - intros H. set_solver.
  - intros [_ [p [Hp _]]]. set_solver.
Qed.

Lemma seen_of_existsb seenLines prev l :
  seen_of seenLines prev -> Js.trim l <> "" ->
  (Js.trim l ∈ seenLines <-> existsb (same_trimmed l) prev = true).
Proof.
  intros Hinv Hnb. rewrite (Hinv (Js.trim l)), existsb_exists. split.
  - intros [_ [p [Hp Heq]]]. exists p. split.
    + by apply list_elem_of_In.
    + unfold same_trimmed. apply String.eqb_eq. by symmetry.
  - intros [p [Hp Heq]]. split; [done|]. exists p. split.
    + by apply list_elem_of_In.
    + unfold same_trimmed in Heq. apply String.eqb_eq in Heq. by symmetry.
Qed.

Lemma seen_of_blank seenLines prev l :
  seen_of seenLines prev -> Js.trim l = "" -> seen_of seenLines (prev ++ [l]).
Proof.
  intros Hinv Hb t. rewrite (Hinv t). split.
  - intros [Ht [p [Hp Heq]]]. split; [done|]. exists p. set_solver.
  - intros [Ht [p [Hp Heq]]]. split; [done|]. exists p. split; [|done].
    apply elem_of_app in Hp as [Hp|Hp]; [done|].
    apply list_elem_of_singleton in Hp. subst p. congruence.
Qed.

Lemma seen_of_repeated seenLines prev l :
  seen_of seenLines prev -> Js.trim l ∈ seenLines -> seen_of seenLines (prev ++ [l]).
Proof.
  intros Hinv Hin t. rewrite (Hinv t). split.
  - intros [Ht [p [Hp Heq]]]. split; [done|]. exists p. set_solver.
  - intros [Ht [p [Hp Heq]]]. split; [done|].
    apply elem_of_app in Hp as [Hp|Hp]; [by exists p|].
    apply list_elem_of_singleton in Hp. subst p.
    apply Hinv in Hin as [_ [q [Hq Hqe]]]. exists q. split; [done|congruence].
Qed.

Lemma seen_of_fresh seenLines prev l :
  seen_of seenLines prev -> Js.trim l <> "" ->
  seen_of ({[Js.trim l]} ∪ seenLines) (prev ++ [l]).
Proof.
  intros Hinv Hnb t. rewrite elem_of_union, elem_of_singleton, (Hinv t). split.
  - intros [->|[Ht [p [Hp Heq]]]].
    + split; [done|]. exists l. set_solver.
    + split; [done|]. exists p. set_solver.
  - intros [Ht [p [Hp Heq]]].
    apply elem_of_app in Hp as [Hp|Hp].
    + right. split; [done|]. by exists p.
    + apply list_elem_of_singleton in Hp. subst p. by left.
Qed.

(** The loop, started in any state that satisfies the invariant, appends to
    [deduplicatedLines] the lines [keep_first] keeps. *)
Lemma fold_step_keep_first ls : forall seenLines out prev,
  seen_of seenLines prev ->
  snd (fold_left Dedup.step ls (seenLines, out))
  = out ++ keep_first same_trimmed prev ls.
Proof.
  induction ls as [|l r IH]; intros seenLines out prev Hinv; simpl.
  - by rewrite app_nil_r.
  - unfold is_blank. destruct (decide (Js.trim l = "")) as [Hb|Hnb].
    + rewrite bool_decide_true by done. simpl.
      rewrite (IH _ _ (prev ++ [l])) by by apply seen_of_blank.
      by rewrite <- app_assoc.
    + rewrite bool_decide_false by done. simpl.
      destruct (decide (Js.trim l ∈ seenLines)) as [Hin|Hnin].
      * apply (seen_of_existsb _ _ _ Hinv Hnb) in Hin as Hex. rewrite Hex. simpl.
        apply IH. by apply seen_of_repeated.
      * assert (existsb (same_trimmed l) prev = false) as Hex.
        { apply not_true_is_false. intros Hex.
          by apply (seen_of_existsb _ _ _ Hinv Hnb) in Hex. }
        rewrite Hex. simpl.
        rewrite (IH _ _ (prev ++ [l])) by by apply seen_of_fresh.
        by rewrite <- app_assoc.
Qed.

End DedupProofs.

(** C5 (as amended): [deduplicateContent] splits the content on newline, keeps
    every blank (whitespace-only) line, drops every other line whose trimmed
    text equals the trimmed text of an earlier line, keeps the order of what
    remains, and joins it with newline. *)
Theorem deduplicateContent_drops_trimmed_repeats (content : string) :
  Dedup.deduplicateContent content = DedupSpec.dedup_trimmed content.
Proof.
  unfold Dedup.deduplicateContent, DedupSpec.dedup_trimmed.
  by rewrite (fold_step_keep_first _ ∅ [] []) by apply seen_of_empty.
Qed.

(** C5 (as stated) fails: the second line of ["a\n a"] is not identical to the
    first, yet the code drops it. *)
Lemma deduplicateContent_not_identical_lines :
  Dedup.deduplicateContent ("a" +:+ Js.newline +:+ " a") = "a" /\
  DedupSpec.dedup_identical ("a" +:+ Js.newline +:+ " a") = "a" +:+ Js.newline +:+ " a" /\
  Dedup.deduplicateContent ("a" +:+ Js.newline +:+ " a")
    <> DedupSpec.dedup_identical ("a" +:+ Js.newline +:+ " a").
Proof. repeat split; vm_compute; congruence. Qed.

Example dedup_lines :
  Dedup.deduplicateContent
    ("Line 1" +:+ Js.newline +:+ "Line 2" +:+ Js.newline +:+ "Line 1" +:+ Js.newline +:+ "Line 3")
  = "Line 1" +:+ Js.newline +:+ "Line 2" +:+ Js.newline +:+ "Line 3".
Proof. vm_compute. reflexivity. Qed.

(** ** The mixed-content renderer *)

Example getNumber_text12 : Mixed.getNumber "text12" = 12%Z.
Proof. reflexivity. Qed.

Example getNumber_text : Mixed.getNumber "text" = 0%Z.
Proof. reflexivity. Qed.

Example getNumber_a1b2 : Mixed.getNumber "a1b2" = 2%Z.
Proof. reflexivity. Qed.

(** The example of the specification: no key but [text*] and [chart*]. *)
Example renderedKeys_text2_chart1_text1 `{Platform} :
  Mixed.renderedKeys (JArr [Samples.text2Chart1Text1]) = ["text1"; "chart1"; "text2"].
Proof. reflexivity. Qed.

(** C7 (the code departs from it): the comparator sends [chart1] before
    [foo1] and [foo1] before [text1] wherever [localeCompare] orders the three
    names alphabetically, so the keys [chart1], [foo1], [text1] are left in
    this order, and the chart of suffix 1 is shown before the text of
    suffix 1. *)
Theorem renderedKeys_chart_before_text `{Platform} :
  (localeCompare "chart1" "foo1" <= 0)%Z ->
  (localeCompare "foo1" "text1" <= 0)%Z ->
  Mixed.getNumber "chart1" = Mixed.getNumber "text1" /\
  Mixed.compareKeys "text1" "chart1" = (-1)%Z /\
  Mixed.sortedKeys Samples.chartFooText = ["chart1"; "foo1"; "text1"] /\
  Mixed.renderedKeys (JArr [Samples.chartFooText]) = ["chart1"; "text1"].
Proof.
  intros Hcf Hft.
  assert (Hsorted : Mixed.sortedKeys Samples.chartFooText = ["chart1"; "foo1"; "text1"]).
  { unfold Mixed.sortedKeys, Js.sort. cbn [Mixed.objectKeys Samples.chartFooText Json.keys map fst fold_left Js.insert_back].
    assert (Mixed.compareKeys "chart1" "foo1" = localeCompare "chart1" "foo1") as -> by reflexivity.
    destruct (Z.ltb_spec 0 (localeCompare "chart1" "foo1")) as [Hlt|_]; [lia|].
    cbn [Js.insert_back].
    assert (Mixed.compareKeys "foo1" "text1" = localeCompare "foo1" "text1") as -> by reflexivity.
    destruct (Z.ltb_spec 0 (localeCompare "foo1" "text1")) as [Hlt|_]; [lia|].
    reflexivity. }
  repeat split; try done.
  unfold Mixed.renderedKeys, Mixed.MixedContentRenderer, Mixed.renderContent, Mixed.renderItem.
  cbn [truthy typeof_object Samples.chartFooText negb orb].
  rewrite Hsorted. reflexivity.
Qed.

(** The theorem at work, on the platform that compares by code unit. *)
Lemma renderedKeys_chart_before_text_witness :
  Mixed.sortedKeys (H := Samples.platform) Samples.chartFooText = ["chart1"; "foo1"; "text1"] /\
  Mixed.renderedKeys (H := Samples.platform) (JArr [Samples.chartFooText]) = ["chart1"; "text1"].
Proof.
  destruct (renderedKeys_chart_before_text (H := Samples.platform)) as (_ & _ & Hs & Hr).
  - vm_compute. discriminate.
  - vm_compute. discriminate.
  - split; [exact Hs|exact Hr].
Defined.

(** *** The order of the fragments when every key is a [text*] or a [chart*]
        key *)

Section MixedOrder.
Import Chart Mixed MixedSpec.
Context `{Platform}.
Hypothesis collation : consistent localeCompare.

Lemma text_not_chart (key : string) : isText key = true -> isChart key = false.
Proof.
  unfold isText, isChart. destruct key as [|c key]; [done|].
  cbn [Js.startsWith]. destruct (Ascii.eqb "t" c) eqn:E.
  - apply Ascii.eqb_eq in E as <-. reflexivity.
  - cbn [andb]. discriminate.
Qed.

(** On fragment keys the comparator is the lexicographic order of the
    suffix, then the kind, then the collation. *)
Lemma compareKeys_fragment (a b : string) :
  fragmentKey a = true -> fragmentKey b = true ->
  compareKeys a b
  = if negb (getNumber a =? getNumber b)%Z then (getNumber a - getNumber b)%Z
    else if isText a && isChart b then (-1)%Z
    else if isChart a && isText b then 1%Z
    else localeCompare a b.
Proof. reflexivity. Qed.

Lemma compareKeys_inOrder (a b : string) :
  fragmentKey a = true -> fragmentKey b = true ->
  (compareKeys a b <= 0)%Z -> inOrder a b.
Proof.
  intros Ha Hb. rewrite (compareKeys_fragment a b Ha Hb). unfold inOrder.
  destruct (Z.eqb_spec (getNumber a) (getNumber b)) as [Heq|Hne]; simpl.
  - intros Hle. right. split; [done|]. intros [Hca Htb].
    rewrite Hca, Htb in Hle. rewrite (text_not_chart b Htb) in Hle.
    rewrite andb_false_r in Hle. simpl in Hle. lia.
  - intros Hle. left. lia.
Qed.

Lemma fragmentKey_kind (key : string) :
  fragmentKey key = true ->
  (isText key = true /\ isChart key = false) \/ (isText key = false /\ isChart key = true).
Proof.
  unfold fragmentKey. destruct (isText key) eqn:Ht.
  - intros _. left. split; [done|]. by apply text_not_chart.
  - simpl. intros ->. by right.
Qed.

Lemma compareKeys_total (a b : string) :
  fragmentKey a = true -> fragmentKey b = true ->
  (0 < compareKeys a b)%Z -> (compareKeys b a <= 0)%Z.
Proof.
  intros Ha Hb. rewrite (compareKeys_fragment a b Ha Hb), (compareKeys_fragment b a Hb Ha).
  destruct collation as [Htotal _].
  rewrite (Z.eqb_sym (getNumber b) (getNumber a)).
  destruct (Z.eqb_spec (getNumber a) (getNumber b)) as [Heq|Hne]; simpl; [|lia].
  destruct (fragmentKey_kind a Ha) as [[-> ->]|[-> ->]],
           (fragmentKey_kind b Hb) as [[-> ->]|[-> ->]]; simpl; try lia; apply Htotal.
Qed.

Lemma compareKeys_trans (a b c : string) :
  fragmentKey a = true -> fragmentKey b = true -> fragmentKey c = true ->
  (compareKeys a b <= 0)%Z -> (compareKeys b c <= 0)%Z -> (compareKeys a c <= 0)%Z.
Proof.
  intros Ha Hb Hc.
  rewrite (compareKeys_fragment a b Ha Hb), (compareKeys_fragment b c Hb Hc),
          (compareKeys_fragment a c Ha Hc).
  destruct collation as [_ Htrans].
  destruct (Z.eqb_spec (getNumber a) (getNumber b)) as [Hab|Hab],
           (Z.eqb_spec (getNumber b) (getNumber c)) as [Hbc|Hbc],
           (Z.eqb_spec (getNumber a) (getNumber c)) as [Hac|Hac]; simpl; try lia.
  destruct (fragmentKey_kind a Ha) as [[-> ->]|[-> ->]],
           (fragmentKey_kind b Hb) as [[-> ->]|[-> ->]],
           (fragmentKey_kind c Hc) as [[-> ->]|[-> ->]]; simpl; try lia; apply Htrans.
Qed.

(** The fragments of one element come from its sorted keys, in their
    order. *)
Lemma renderKey_keys item itemIndex keyIndex key here :
  renderKey item itemIndex keyIndex key = Normal here ->
  map keyOf here = [] \/ map keyOf here = [key].
Proof.
  unfold renderKey. intros Hr.
  repeat match type of Hr with
  | context [match ?x with _ => _ end] => destruct x
  end; inversion Hr; subst; auto.
Qed.

Lemma renderKeys_sublist item itemIndex keys : forall keyIndex renderItems,
  renderKeys item itemIndex keyIndex keys = Normal renderItems ->
  map keyOf renderItems `sublist_of` keys.
Proof.
  induction keys as [|key rest IH]; intros keyIndex renderItems Hr; simpl in Hr.
  - inversion Hr. constructor.
  - destruct (renderKey item itemIndex keyIndex key) as [here|] eqn:Hhere; [|done].
    destruct (renderKeys item itemIndex (S keyIndex) rest) as [after|] eqn:Hafter; [|done].
    inversion Hr; subst. rewrite map_app.
    destruct (renderKey_keys _ _ _ _ _ Hhere) as [-> | ->]; simpl.
    + apply sublist_cons, (IH _ _ Hafter).
    + apply sublist_skip, (IH _ _ Hafter).
Qed.

(** For an object whose keys all start with [text] or [chart], under a
    consistent collation: the fragments appear by numeric suffix ascending,
    and for equal suffix no chart comes before a text. *)
Lemma renderItem_in_order (props : list (string * json)) (itemIndex : nat)
    (renderItems : list RenderItem) :
  Forall (fun key => fragmentKey key = true) (Json.keys props) ->
  renderItem itemIndex (JObj props) = Normal renderItems ->
  StronglySorted inOrder (map keyOf renderItems).
Proof.
  intros Hkeys Hr. unfold renderItem in Hr. cbn [truthy typeof_object negb orb] in Hr.
  apply renderKeys_sublist in Hr.
  apply (StronglySorted_sublist _ _ _ Hr).
  assert (Forall (fun key => fragmentKey key = true) (sortedKeys (JObj props))) as Hsk.
  { unfold sortedKeys. rewrite Forall_forall in *. intros key Hkey.
    apply elem_of_sort in Hkey. by apply Hkeys. }
  apply (StronglySorted_impl (fun a b => (compareKeys a b <= 0)%Z) _
           (fun key => fragmentKey key = true)); [|done|].
  - intros a b. apply compareKeys_inOrder.
  - unfold sortedKeys.
    apply (sort_sorted compareKeys (fun key => fragmentKey key = true)); [| |done].
    + intros a b. apply compareKeys_total.
    + intros a b c. apply compareKeys_trans.
Qed.

End MixedOrder.

(** The collation of the sample platform is consistent. *)
Lemma codeUnitCompare_opp (a : string) : forall b,
  Samples.codeUnitCompare b a = (- Samples.codeUnitCompare a b)%Z.
Proof.
  induction a as [|x a IH]; intros [|y b]; simpl; try reflexivity.
  rewrite IH.
  destruct (Z.eqb_spec (Z.of_nat (nat_of_ascii x) - Z.of_nat (nat_of_ascii y)) 0),
           (Z.eqb_spec (Z.of_nat (nat_of_ascii y) - Z.of_nat (nat_of_ascii x)) 0); lia.
Qed.

Lemma codeUnitCompare_trans (a : string) : forall b c,
  (Samples.codeUnitCompare a b <= 0)%Z -> (Samples.codeUnitCompare b c <= 0)%Z ->
  (Samples.codeUnitCompare a c <= 0)%Z.
Proof.
  induction a as [|x a IH]; intros [|y b] [|z c]; simpl; try lia.
  destruct (Z.eqb_spec (Z.of_nat (nat_of_ascii x) - Z.of_nat (nat_of_ascii y)) 0),
           (Z.eqb_spec (Z.of_nat (nat_of_ascii y) - Z.of_nat (nat_of_ascii z)) 0),
           (Z.eqb_spec (Z.of_nat (nat_of_ascii x) - Z.of_nat (nat_of_ascii z)) 0);
    try lia. apply IH.
Qed.

Lemma codeUnitCompare_consistent : MixedSpec.consistent Samples.codeUnitCompare.
Proof.
  split.
  - intros a b Hlt. rewrite codeUnitCompare_opp. lia.
  - intros a b c. apply codeUnitCompare_trans.
Qed.

Example renderItem_in_order_sample :
  StronglySorted MixedSpec.inOrder ["text1"; "chart1"; "text2"].
Proof.
  apply (renderItem_in_order (H := Samples.platform) codeUnitCompare_consistent
           [("text2", JStr "two"); ("chart1", Samples.barChart); ("text1", JStr "one")] 0
           [Mixed.Text 0 0 "text1" "one";
            Mixed.ChartItem 0 1 "chart1"
              {| Chart.type := "bar"; Chart.title := JStr "Bar Chart";
                 Chart.data := Chart.Upstream
                   (JArr [JObj [("name", JStr "a"); ("value", JNum 1%float)]]);
                 Chart.xKey := "name"; Chart.yKey := "value";
                 Chart.options := Chart.defaultOptions |};
            Mixed.Text 0 2 "text2" "two"]).
  - repeat constructor.
  - reflexivity.
Qed.

(** ** The normalizer *)

Section NormalizerProofs.
Import N8N N8NSpec.
Context `{Platform}.

Lemma in_strings_or_text (v : json) :
  in_strings messageTypes
    (if negb (in_strings messageTypes v) then JStr "text" else v) = true.
Proof. destruct (in_strings messageTypes v) eqn:E; simpl; [done|reflexivity]. Qed.

Lemma in_strings_or_final (v : json) :
  in_strings responseTypes
    (if negb (in_strings responseTypes v) then JStr "final" else v) = true.
Proof. destruct (in_strings responseTypes v) eqn:E; simpl; [done|reflexivity]. Qed.

(** Below the early returns both fields are validated. *)
Lemma normalize_well_typed (now : Z) (data : json) :
  well_typed (normalize now data) = true.
Proof.
  unfold well_typed, normalize.
  destruct (fromOutput _ _ _ _) as [[content1 messageType1] type1].
  simpl. by rewrite in_strings_or_text, in_strings_or_final.
Qed.

(** The first early return wraps a primitive as final text. *)
Lemma validateResponse_primitive (now : Z) (data : json) :
  negb (truthy data) || negb (typeof_object data) = true ->
  validateResponse now data
  = {| type := JStr "final"; messageType := JStr "text";
       content := JStr (String_ data); metadata := Stamped now |}.
Proof. intros Hprim. unfold validateResponse. by rewrite Hprim. Qed.

(** Every value that does not take the second early return is normalized to
    a response with a known [type] and [messageType]. *)
Lemma validateResponse_well_typed (now : Z) (data : json) :
  preformatted data = false ->
  well_typed (validateResponse now data) = true.
Proof.
  intros Hpre. unfold validateResponse.
  destruct (negb (truthy data) || negb (typeof_object data)); [reflexivity|].
  unfold preformatted in Hpre.
  destruct (get data "type") as [ty|]; [|apply normalize_well_typed].
  destruct (get data "messageType") as [mt|]; [|apply normalize_well_typed].
  destruct (get data "content") as [c|]; [|apply normalize_well_typed].
  simpl in Hpre. rewrite andb_true_r in Hpre. rewrite Hpre.
  apply normalize_well_typed.
Qed.

(** On the second early return [type] and [messageType] are the upstream
    values, whatever they are. *)
Lemma validateResponse_preformatted (now : Z) (data : json) ty mt c :
  truthy data = true -> typeof_object data = true ->
  get data "type" = Some ty -> get data "messageType" = Some mt ->
  get data "content" = Some c -> truthy ty = true -> truthy mt = true ->
  type (validateResponse now data) = ty /\
  messageType (validateResponse now data) = mt.
Proof.
  intros Ht Ho Hty Hmt Hc Htt Htm. unfold validateResponse.
  rewrite Ht, Ho, Hty, Hmt, Hc, Htt, Htm. simpl. done.
Qed.

End NormalizerProofs.

(** C1 (the code departs from it): a decoded body that carries truthy
    [type] and [messageType] and a [content] is returned with both fields as
    they came, here ["foo"] and ["bar"], neither of which is a known value. *)
Theorem validateResponse_keeps_unknown_types `{Platform} (now : Z) :
  let data := JObj [("type", JStr "foo"); ("messageType", JStr "bar");
                    ("content", JStr "x")] in
  N8N.validateResponse now data
  = {| N8N.type := JStr "foo"; N8N.messageType := JStr "bar";
       N8N.content := JStr "x"; N8N.metadata := N8N.Stamped now |}
  /\ in_strings N8N.responseTypes (N8N.type (N8N.validateResponse now data)) = false
  /\ in_strings N8N.messageTypes (N8N.messageType (N8N.validateResponse now data)) = false.
Proof. repeat split. Qed.

Example validateResponse_output `{Platform} (now : Z) :
  JSON_parse "Test response" = None ->
  N8N.validateResponse now (JObj [("output", JStr "Test response")])
  = {| N8N.type := JStr "final"; N8N.messageType := JStr "text";
       N8N.content := JStr "Test response";
       N8N.metadata := N8N.StampedWebhook now (JObj [("output", JStr "Test response")]) |}.
Proof.
  intros Hparse. unfold N8N.validateResponse, N8N.normalize, N8N.fromOutput. simpl.
  rewrite Hparse. vm_compute. reflexivity.
Qed.

(** The scenario of the specification: the webhook answers
    [{output: "Hi\nHi\nThere"}]. *)
Example validateResponse_output_dedup `{Platform} (now : Z) :
  let output := "Hi" +:+ Js.newline +:+ "Hi" +:+ Js.newline +:+ "There" in
  JSON_parse output = None ->
  N8N.messageType (N8N.validateResponse now (JObj [("output", JStr output)])) = JStr "text" /\
  N8N.content (N8N.validateResponse now (JObj [("output", JStr output)]))
  = JStr ("Hi" +:+ Js.newline +:+ "There").
Proof.
  intros output Hparse. unfold N8N.validateResponse, N8N.normalize, N8N.fromOutput.
  simpl. fold output. rewrite Hparse. split; vm_compute; reflexivity.
Qed.

Example validateResponse_string `{Platform} (now : Z) :
  N8N.validateResponse now (JStr "invalid response")
  = {| N8N.type := JStr "final"; N8N.messageType := JStr "text";
       N8N.content := JStr "invalid response"; N8N.metadata := N8N.Stamped now |}.
Proof. reflexivity. Qed.

Example validateResponse_null `{Platform} (now : Z) :
  N8N.validateResponse now JNull
  = {| N8N.type := JStr "final"; N8N.messageType := JStr "text";
       N8N.content := JStr "null"; N8N.metadata := N8N.Stamped now |}.
Proof. reflexivity. Qed.

Example validateResponse_array `{Platform} (now : Z) :
  N8N.messageType (N8N.validateResponse now (JArr [JNum 1%float; JNum 2%float])) = JStr "json".
Proof. reflexivity. Qed.

(** ** [sendMessage] *)

Section SendMessageProofs.
Import N8N N8NSpec.
Context `{Platform}.

(** No option of the [fetch] call depends on the configured [timeout]: the
    call carries no abort signal. *)
Lemma sendMessage_init_no_signal (config : Config) (request : N8NRequest) :
  signal (sendMessage_init config request) = None.
Proof. reflexivity. Qed.

(** Without a signal the request settles as the network settles it, however
    late. *)
Lemma fetch_no_signal (net : Network) (url : string) (init : RequestInit) :
  signal init = None -> fetch net url init = settles net.
Proof. intros Hs. unfold fetch. by rewrite Hs. Qed.

(** Two clients that differ in their [timeout] only behave alike. *)
Lemma sendMessage_timeout_irrelevant (config : Config) (ms : Z)
    (net : Network) (now : Z) (request : N8NRequest) :
  sendMessage
    {| webhookUrl := webhookUrl config; streamingUrl := streamingUrl config;
       timeout := ms; retryAttempts := retryAttempts config;
       retryDelay := retryDelay config |} net now request
  = sendMessage config net now request.
Proof. reflexivity. Qed.

(** [sendMessage] never fails with a [timeout] unless the transport itself
    reports an error named [TimeoutError] or [AbortError]. *)
Lemma sendMessage_timeout_only_from_transport config net now request m d :
  sendMessage config net now request = Throws (N8NError m Kind.timeout d) ->
  exists e, settles net = Rejected e /\
    (name e = "TimeoutError" \/ name e = "AbortError" \/ e = N8NError m Kind.timeout d).
Proof.
  unfold sendMessage, sendMessage_try.
  rewrite fetch_no_signal by reflexivity.
  destruct (settles net) as [status statusText text|e].
  - destruct (negb (ok status)); [|discriminate].
    unfold sendMessage_catch. cbn [name message].
    replace (String.eqb "N8NError" "TimeoutError") with false by reflexivity.
    replace (String.eqb "N8NError" "AbortError") with false by reflexivity.
    cbn [orb]. destruct (_ || _); discriminate.
  - intros He. exists e. split; [done|].
    unfold sendMessage_catch in He.
    destruct (String.eqb (name e) "TimeoutError") eqn:E1.
    { left. by apply String.eqb_eq. }
    destruct (String.eqb (name e) "AbortError") eqn:E2.
    { right. left. by apply String.eqb_eq. }
    cbn [orb] in He. destruct (_ || _); [discriminate|].
    right. right. congruence.
Qed.

(** A status outside 200..299 is thrown as a [server] error that carries the
    status and the body, unless the status text contains [fetch] or
    [network]: such an error is classified again, as [network]. *)
Lemma sendMessage_server_error config latency now request status statusText body :
  ok status = false ->
  Js.includes ("HTTP " +:+ pretty status +:+ ": " +:+ statusText) "fetch" = false ->
  Js.includes ("HTTP " +:+ pretty status +:+ ": " +:+ statusText) "network" = false ->
  sendMessage config {| latency := latency; settles := Response status statusText body |}
    now request
  = Throws (N8NError ("HTTP " +:+ pretty status +:+ ": " +:+ statusText) Kind.server
              (ServerDetails status statusText body)).
Proof.
  intros Hok Hf Hn. unfold sendMessage, sendMessage_try.
  rewrite fetch_no_signal by reflexivity. cbn [settles]. rewrite Hok. cbn [negb].
  unfold sendMessage_catch. cbn [name message]. rewrite Hf, Hn.
  reflexivity.
Qed.

(** A transport failure is thrown as a [network] error when its message
    contains [fetch] or [network], and as it is otherwise. *)
Lemma sendMessage_transport_error config latency now request n m :
  n <> "TimeoutError" -> n <> "AbortError" ->
  sendMessage config {| latency := latency; settles := Rejected (Error n m) |}
    now request
  = Throws (if Js.includes m "fetch" || Js.includes m "network"
            then N8NError "Network error" Kind.network (Caught (Error n m))
            else Error n m).
Proof.
  intros H1 H2. unfold sendMessage, sendMessage_try.
  rewrite fetch_no_signal by reflexivity. cbn [settles].
  unfold sendMessage_catch. cbn [name message].
  apply String.eqb_neq in H1, H2. rewrite H1, H2. reflexivity.
Qed.

End SendMessageProofs.

(** C3 (the code departs from it): a client configured with a timeout of one
    second posts to a webhook that answers after five seconds.  The request
    carries no deadline, so [sendMessage] returns the late answer; had the
    configured timeout been passed as the signal of the request, the call
    would have failed with an error of type [timeout]. *)
Theorem sendMessage_ignores_timeout `{Platform} (now : Z) (request : N8N.N8NRequest) :
  let config := N8N.N8NClient
    {| N8N.cfg_webhookUrl := "https://n8n.example/webhook/chat";
       N8N.cfg_streamingUrl := "https://n8n.example/webhook/stream";
       N8N.cfg_timeout := Some 1000%Z;
       N8N.cfg_retryAttempts := None; N8N.cfg_retryDelay := None |} in
  let net := {| N8N.latency := 5000%Z; N8N.settles := N8N.Response 200 "OK" "late" |} in
  N8N.timeout config = 1000%Z /\
  N8N.signal (N8N.sendMessage_init config request) = None /\
  N8N.sendMessage config net now request
  = N8N.Returns (N8N.validateResponse now (default (JStr "late") (JSON_parse "late"))) /\
  N8N.sendMessage_catch
    (match N8N.fetch net (N8N.webhookUrl config)
             {| N8N.method := "POST"; N8N.headers := []; N8N.body := request;
                N8N.signal := Some (N8N.timeout config) |} with
     | N8N.Rejected error => error
     | N8N.Response _ _ _ => N8N.Error "" ""
     end)
  = N8N.N8NError "Request timeout" N8N.Kind.timeout N8N.NoDetails.
Proof.
  repeat split.
Qed.

Example default_config (webhookUrl streamingUrl : string) :
  N8N.N8NClient {| N8N.cfg_webhookUrl := webhookUrl; N8N.cfg_streamingUrl := streamingUrl;
                   N8N.cfg_timeout := None; N8N.cfg_retryAttempts := None;
                   N8N.cfg_retryDelay := None |}
  = {| N8N.webhookUrl := webhookUrl; N8N.streamingUrl := streamingUrl;
       N8N.timeout := 120000; N8N.retryAttempts := 3; N8N.retryDelay := 1000 |}.
Proof. reflexivity. Qed.

(** ** [sendMessageWithRetry] *)

Section RetryProofs.
Import N8N N8NSpec.
Variable config : Config.
Variable send : Z -> Outcome N8NResponse.






End RetryProofs.


Example retry_three_failures :
  let config := {| N8N.webhookUrl := ""; N8N.streamingUrl := ""; N8N.timeout := 120000;
                   N8N.retryAttempts := 3; N8N.retryDelay := 1000 |} in
  let failure (attempt : Z) : N8N.Outcome N8N.N8NResponse :=
    N8N.Throws (N8N.N8NError (pretty attempt) N8N.Kind.server N8N.NoDetails) in
  N8N.sendMessageWithRetry config failure
  = ([N8N.Call 1; N8N.Wait 1000; N8N.Call 2; N8N.Wait 2000; N8N.Call 3],
     N8N.Throws (N8N.N8NError "3" N8N.Kind.server N8N.NoDetails)).
Proof. vm_compute. reflexivity. Qed.

Example retry_validation_stops :
  let config := {| N8N.webhookUrl := ""; N8N.streamingUrl := ""; N8N.timeout := 120000;
                   N8N.retryAttempts := 3; N8N.retryDelay := 1000 |} in
  let failure (attempt : Z) : N8N.Outcome N8N.N8NResponse :=
    N8N.Throws (N8N.N8NError "bad request" N8N.Kind.validation N8N.NoDetails) in
  N8N.sendMessageWithRetry config failure
  = ([N8N.Call 1],
     N8N.Throws (N8N.N8NError "bad request" N8N.Kind.validation N8N.NoDetails)).
Proof. vm_compute. reflexivity. Qed.

(** ** The local-storage persistence client *)

Section PersistenceProofs.
Import Persistence.

Lemma similar_spec (message : NewMessage) (m : MockAPIMessage) :
  similar message m = true <->
  m_sessionId m = new_sessionId message /\ m_content m = new_content message /\
  m_type m = new_type message /\
  (Z.abs (m_timestamp m - new_timestamp message) < 1000)%Z.
Proof.
  unfold similar. rewrite !andb_true_iff, !String.eqb_eq, bool_decide_eq_true, Z.ltb_lt.
  tauto.
Qed.

Lemma incrementSessionMessageCount_messages st now sid :
  messages (incrementSessionMessageCount st now sid) = messages st.
Proof.
  unfold incrementSessionMessageCount.
  by destruct (list_find _ _) as [[index session]|].
Qed.


(** What [createMessage] does when the guard finds nothing. *)
Lemma createMessage_fresh st messageId now message :
  List.find (similar message) (messages st) = None ->
  let messageData :=
    {| m_id := messageId; m_sessionId := new_sessionId message;
       m_content := new_content message; m_type := new_type message;
       m_timestamp := new_timestamp message;
       responseType := option_map rd_type (new_responseData message);
       responseContent := new_responseData message ≫= rd_content;
       responseMetadata := new_responseData message ≫= rd_metadata |} in
  messages (fst (createMessage st messageId now message)) = messages st ++ [messageData] /\
  snd (createMessage st messageId now message) = transformMessage messageData.
Proof.
  intros Hfind. unfold createMessage. rewrite Hfind. cbn [fst snd].
  by rewrite incrementSessionMessageCount_messages.
Qed.

(** What [createMessage] does when the guard finds a record. *)
Lemma createMessage_existing st messageId now message existingMessage :
  List.find (similar message) (messages st) = Some existingMessage ->
  createMessage st messageId now message = (st, transformMessage existingMessage).
Proof. intros Hfind. unfold createMessage. by rewrite Hfind. Qed.


End PersistenceProofs.



Example createMessage_getMessages_text :
  let message := Samples.answer Samples.textResponse in
  let st' := fst (Persistence.createMessage Samples.emptyStorage "m1" 1000%Z message) in
  map Persistence.responseData (Persistence.getMessages st' "s1")
  = [Some Samples.textResponse].
Proof. reflexivity. Qed.

(** The client with the placeholder configuration is the local store. *)
Lemma Client_placeholder_local remote1 remote2 st messageId now message sessionId_ :
  Client.createMessage Samples.placeholderConfig remote1 st messageId now message
  = Persistence.createMessage st messageId now message /\
  Client.getMessages Samples.placeholderConfig remote2 st sessionId_
  = Persistence.getMessages st sessionId_.
Proof. split; reflexivity. Qed.

(** When the remote call fails the operation is served by the local store. *)
Lemma Client_fallback config st messageId now message sessionId_ :
  Client.createMessage config None st messageId now message
  = Persistence.createMessage st messageId now message /\
  Client.getMessages config None st sessionId_ = Persistence.getMessages st sessionId_.
Proof.
  unfold Client.createMessage, Client.getMessages.
  by destruct (Client.useFallback config).
Qed.

(** The two backends do not share what they hold: a message the remote
    service accepted is not listed when the next read falls back to local
    storage. *)
Example Client_write_remote_read_local :
  let message := Samples.answer Samples.textResponse in
  let echoed :=
    {| Persistence.m_id := "r1"; Persistence.m_sessionId := "s1";
       Persistence.m_content := ""; Persistence.m_type := MessageType.assistant;
       Persistence.m_timestamp := 1000%Z;
       Persistence.responseType := Some ResponseType.text;
       Persistence.responseContent := Some (JStr "Hi");
       Persistence.responseMetadata := None |} in
  let st' := fst (Client.createMessage Samples.remoteConfig (Some echoed)
                    Samples.emptyStorage "m1" 1000%Z message) in
  Persistence.id (snd (Client.createMessage Samples.remoteConfig (Some echoed)
                         Samples.emptyStorage "m1" 1000%Z message)) = "r1" /\
  Client.getMessages Samples.remoteConfig None st' "s1" = [].
Proof. split; reflexivity. Qed.

Section DuplicateGuard.
Import Persistence.

Lemma find_is_Some {A : Type} (f : A -> bool) (l : list A) (x : A) :
  In x l -> f x = true -> exists y, List.find f l = Some y.
Proof.
  intros Hin Hf. destruct (List.find f l) as [y|] eqn:Hfind; [by exists y|].
  pose proof (find_none f l Hfind x Hin) as Hnone. congruence.
Qed.

(** The guard of the second call sees the record the first call stored. *)
Lemma similar_after_insert (messageId : string) (m1 m2 : NewMessage) :
  new_sessionId m2 = new_sessionId m1 -> new_content m2 = new_content m1 ->
  new_type m2 = new_type m1 ->
  (Z.abs (new_timestamp m2 - new_timestamp m1) < 1000)%Z ->
  similar m2
    {| m_id := messageId; m_sessionId := new_sessionId m1;
       m_content := new_content m1; m_type := new_type m1;
       m_timestamp := new_timestamp m1;
       responseType := option_map rd_type (new_responseData m1);
       responseContent := new_responseData m1 ≫= rd_content;
       responseMetadata := new_responseData m1 ≫= rd_metadata |} = true.
Proof.
  intros Hs Hc Ht Hd. apply similar_spec. cbn. repeat split; try done. lia.
Qed.

(** Whatever the store holds, two calls that agree on session, content and
    type and are less than a second apart add at most one record. *)
Lemma createMessage_twice_at_most_one st id1 id2 now1 now2 (m1 m2 : NewMessage) :
  new_sessionId m2 = new_sessionId m1 -> new_content m2 = new_content m1 ->
  new_type m2 = new_type m1 ->
  (Z.abs (new_timestamp m2 - new_timestamp m1) < 1000)%Z ->
  let st1 := fst (createMessage st id1 now1 m1) in
  let st2 := fst (createMessage st1 id2 now2 m2) in
  length (messages st2) <= S (length (messages st)).
Proof.
  intros Hs Hc Ht Hd. cbn zeta.
  destruct (List.find (similar m1) (messages st)) as [e1|] eqn:Hfind1.
  - rewrite (createMessage_existing _ _ _ _ _ Hfind1). cbn [fst].
    destruct (List.find (similar m2) (messages st)) as [e2|] eqn:Hfind2.
    + rewrite (createMessage_existing _ _ _ _ _ Hfind2). cbn [fst]. lia.
    + destruct (createMessage_fresh st id2 now2 m2 Hfind2) as [-> _].
      rewrite length_app. simpl. lia.
  - destruct (createMessage_fresh st id1 now1 m1 Hfind1) as [Hms1 _].
    destruct (find_is_Some (similar m2)
                (messages (fst (createMessage st id1 now1 m1)))
                {| m_id := id1; m_sessionId := new_sessionId m1;
                   m_content := new_content m1; m_type := new_type m1;
                   m_timestamp := new_timestamp m1;
                   responseType := option_map rd_type (new_responseData m1);
                   responseContent := new_responseData m1 ≫= rd_content;
                   responseMetadata := new_responseData m1 ≫= rd_metadata |})
      as [e2 Hfind2].
    { rewrite Hms1. apply in_or_app. right. by left. }
    { by apply similar_after_insert. }
    rewrite (createMessage_existing _ _ _ _ _ Hfind2). cbn [fst].
    rewrite Hms1, length_app. simpl. lia.
Qed.

End DuplicateGuard.




Section UpdateMessage.
Import Persistence.

Lemma or_else_falsy (a b : option json) : truthyU a = false -> or_else a b = b.
Proof. intros Ha. unfold or_else. by rewrite Ha. Qed.

Lemma or_string_empty (a : option string) (b : string) :
  or_string a b = "" -> b = "".
Proof.
  unfold or_string. destruct a as [s|]; [|done].
  destruct (String.eqb s "") eqn:E; [done|].
  intros ->. discriminate.
Qed.

End UpdateMessage.

(** C10: on the local-storage path [updateMessage] of a stored message writes
    back a record in which every field whose update is falsy keeps its stored
    value: an absent or empty [content], an absent [responseData], a falsy
    response content or metadata.  So the stored content becomes the empty
    string only if it was the empty string before. *)
Theorem updateMessage_keeps_fields_on_falsy (st : Persistence.Storage)
    (id_ : string) (updates : Persistence.PartialMessage)
    (index : nat) (stored : Persistence.MockAPIMessage) :
  list_find (fun m => Persistence.m_id m = id_) (Persistence.messages st)
    = Some (index, stored) ->
  exists updated : Persistence.MockAPIMessage,
    Persistence.updateMessage st id_ updates
    = (Persistence.setMessages st (<[index := updated]> (Persistence.messages st)),
       inr (Persistence.transformMessage updated)) /\
    Persistence.messages (fst (Persistence.updateMessage st id_ updates)) !! index
      = Some updated /\
    (Persistence.upd_content updates = None \/ Persistence.upd_content updates = Some "" ->
       Persistence.m_content updated = Persistence.m_content stored) /\
    (Persistence.upd_responseData updates = None ->
       Persistence.responseType updated = Persistence.responseType stored) /\
    (truthyU (Persistence.upd_responseData updates ≫= Persistence.rd_content) = false ->
       Persistence.responseContent updated = Persistence.responseContent stored) /\
    (truthyU (Persistence.upd_responseData updates ≫= Persistence.rd_metadata) = false ->
       Persistence.responseMetadata updated = Persistence.responseMetadata stored) /\
    (Persistence.m_content updated = "" -> Persistence.m_content stored = "") /\
    Persistence.m_id updated = Persistence.m_id stored /\
    Persistence.m_sessionId updated = Persistence.m_sessionId stored /\
    Persistence.m_type updated = Persistence.m_type stored /\
    Persistence.m_timestamp updated = Persistence.m_timestamp stored.
Proof.
  intros Hfind. unfold Persistence.updateMessage. rewrite Hfind.
  eexists. split; [reflexivity|]. cbn [fst Persistence.setMessages Persistence.messages].
  split.
  { apply list_lookup_insert_eq. apply list_find_Some in Hfind as (Hl & _).
    by apply lookup_lt_Some in Hl. }
  cbn. repeat split.
  - intros [->| ->]; reflexivity.
  - intros ->. reflexivity.
  - apply or_else_falsy.
  - apply or_else_falsy.
  - apply or_string_empty.
Qed.

(** The theorem at work: an update with the empty content leaves ["Hello"]
    in place. *)
Lemma updateMessage_keeps_fields_on_falsy_witness :
  let updates :=
    {| Persistence.upd_id := None; Persistence.upd_sessionId := None;
       Persistence.upd_content := Some ""; Persistence.upd_type := None;
       Persistence.upd_timestamp := None; Persistence.upd_responseData := None |} in
  exists updated : Persistence.MockAPIMessage,
    Persistence.updateMessage Samples.oneHello "old" updates
    = (Persistence.setMessages Samples.oneHello
         (<[0 := updated]> (Persistence.messages Samples.oneHello)),
       inr (Persistence.transformMessage updated)) /\
    Persistence.m_content updated = "Hello".
Proof.
  cbn zeta.
  destruct (updateMessage_keeps_fields_on_falsy Samples.oneHello "old"
              {| Persistence.upd_id := None; Persistence.upd_sessionId := None;
                 Persistence.upd_content := Some ""; Persistence.upd_type := None;
                 Persistence.upd_timestamp := None; Persistence.upd_responseData := None |}
              0 _ eq_refl)
    as (updated & Hrun & _ & Hcontent & _).
  exists updated. split; [exact Hrun|]. apply Hcontent. by right.
Defined.

Example updateMessage_empty_content :
  Persistence.messages (fst (Persistence.updateMessage Samples.oneHello "old"
    {| Persistence.upd_id := None; Persistence.upd_sessionId := None;
       Persistence.upd_content := Some ""; Persistence.upd_type := None;
       Persistence.upd_timestamp := None; Persistence.upd_responseData := None |}))
  = Persistence.messages Samples.oneHello.
Proof. reflexivity. Qed.

Example updateMessage_missing :
  snd (Persistence.updateMessage Samples.emptyStorage "nope"
    {| Persistence.upd_id := None; Persistence.upd_sessionId := None;
       Persistence.upd_content := Some "x"; Persistence.upd_type := None;
       Persistence.upd_timestamp := None; Persistence.upd_responseData := None |})
  = inl {| Persistence.err_message := "Message not found";
           Persistence.err_status := Some 404%Z |}.
Proof. reflexivity. Qed.

(** ** The chat state store *)

Section ChatStoreProofs.
Import ChatStore ChatStoreSpec.

Lemma guarded_loaded sessions_ current : guarded (loaded sessions_ current).
Proof. split; simpl; [split; [done|discriminate]|lia]. Qed.

Lemma guarded_sendMessage st content now :
  guarded st -> guarded (sendMessage st content now).
Proof.
  intros Hg. unfold sendMessage.
  destruct (selected st) as [sessionId|]; [|exact Hg].
  destruct (sendingMessageRef st) eqn:Href; [exact Hg|].
  assert (waiting st = []) as Hw.
  { destruct Hg as [Hflag _]. destruct (waiting st) as [|w ws]; [done|].
    assert (w :: ws <> []) as Hne by discriminate.
    apply Hflag in Hne. congruence. }
  split; cbn; rewrite Hw; simpl; [split; [done|discriminate]|lia].
Qed.

Lemma guarded_resume st w s now :
  guarded st -> waiting st = [w] -> guarded (resume st w [] s now).
Proof.
  intros [Hflag Hlen] Hw.
  assert (sendingMessageRef st = true) as Href.
  { apply Hflag. rewrite Hw. discriminate. }
  unfold resume, sendMessage_catch.
  destruct w, s; split; cbn; rewrite ?Href;
    (split; [done||discriminate | done||discriminate]) || lia.
Qed.

Lemma guarded_step st e : guarded st -> guarded (step st e).
Proof.
  intros Hg. destruct e as [content now|k s now|sessionId]; cbn [step].
  - by apply guarded_sendMessage.
  - destruct (waiting st !! k) as [w|] eqn:Hk; [|done].
    destruct Hg as [Hflag Hlen].
    destruct (waiting st) as [|w0 [|w1 ws]] eqn:Hw; simpl in Hlen; try lia.
    { discriminate. }
    destruct k as [|k]; [|discriminate]. injection Hk as ->.
    change (delete 0 [w]) with (@nil Waiting).
    apply guarded_resume; [|done]. split; [by rewrite Hw|rewrite Hw; simpl; lia].
  - exact Hg.
Qed.

Lemma guarded_run events : forall st, guarded st -> guarded (run st events).
Proof.
  induction events as [|e events IH]; intros st Hg; [done|].
  apply IH. by apply guarded_step.
Qed.

(** The guard in the code: with the flag set and a session selected, a call
    changes nothing. *)
Lemma sendMessage_guarded_noop st sessionId content now :
  sendingMessageRef st = true -> selected st = Some sessionId ->
  sendMessage st content now = st.
Proof. intros Href Hcur. unfold sendMessage. by rewrite Hcur, Href. Qed.

Lemma selected_sendMessage st content now :
  selected (sendMessage st content now) = selected st.
Proof.
  unfold sendMessage. destruct (selected st) as [sessionId|] eqn:Hsel; [|done].
  by destruct (sendingMessageRef st).
Qed.

(** A call that starts sets the flag and leaves the session selected. *)
Lemma sendMessage_twice st c1 t1 c2 t2 :
  sendMessage (sendMessage st c1 t1) c2 t2 = sendMessage st c1 t1.
Proof.
  destruct (selected st) as [sessionId|] eqn:Hcur.
  - destruct (sendingMessageRef st) eqn:Href.
    + rewrite (sendMessage_guarded_noop st sessionId c1 t1) by done.
      by apply (sendMessage_guarded_noop _ sessionId).
    + apply (sendMessage_guarded_noop _ sessionId).
      * unfold sendMessage. by rewrite Hcur, Href.
      * by rewrite selected_sendMessage.
  - assert (selected (sendMessage st c1 t1) = None) as Hsel
      by by rewrite selected_sendMessage.
    unfold sendMessage at 1. rewrite Hsel.
    unfold sendMessage. rewrite Hcur. reflexivity.
Qed.

End ChatStoreProofs.

(** C9 (as amended): in every state the provider reaches, the flag is set
    exactly while an invocation of [sendMessage] waits, and at most one
    does.  While one waits and a session is selected ([currentSessionId] is
    neither [null] nor empty), a further call returns
    the store unchanged: no request to persist, no error, nothing queued.
    (With no session selected the call stores the error "No session
    selected" and does nothing else.)  A second call right after any call
    changes nothing, so two calls in a row on an idle store with a session
    ask for exactly one user message to be created. *)
Theorem sendMessage_single_in_flight (sessions_ : list ChatStore.ChatSession)
    (current : option string) (events : list ChatStore.Event)
    (content : string) (now : Z) :
  let st := ChatStore.run (ChatStore.loaded sessions_ current) events in
  ChatStoreSpec.guarded st /\
  (forall sessionId, ChatStore.waiting st <> [] ->
     ChatStore.selected st = Some sessionId ->
     ChatStore.sendMessage st content now = st) /\
  (ChatStore.selected st = None ->
     ChatStore.requests (ChatStore.sendMessage st content now) = ChatStore.requests st /\
     ChatStore.waiting (ChatStore.sendMessage st content now) = ChatStore.waiting st /\
     ChatStore.error (ChatStore.sendMessage st content now) = Some "No session selected") /\
  (forall c2 t2,
     ChatStore.run st [ChatStore.Call content now; ChatStore.Call c2 t2]
     = ChatStore.run st [ChatStore.Call content now]) /\
  (forall sessionId c2 t2, ChatStore.waiting st = [] ->
     ChatStore.selected st = Some sessionId ->
     ChatStore.userMessagesRequested
       (ChatStore.run st [ChatStore.Call content now; ChatStore.Call c2 t2])
     = ChatStore.userMessagesRequested st
         ++ [ChatStoreSpec.userMessage sessionId content now]).
Proof.
  intros st.
  assert (Hg : ChatStoreSpec.guarded st) by apply guarded_run, guarded_loaded.
  split; [exact Hg|]. split; [|split; [|split]].
  - intros sessionId Hw Hcur. apply (sendMessage_guarded_noop _ sessionId); [|done].
    by apply Hg.
  - intros Hcur. unfold ChatStore.sendMessage. by rewrite Hcur.
  - intros c2 t2. cbn [ChatStore.run fold_left ChatStore.step]. apply sendMessage_twice.
  - intros sessionId c2 t2 Hw Hcur. cbn [ChatStore.run fold_left ChatStore.step].
    rewrite sendMessage_twice.
    assert (ChatStore.sendingMessageRef st = false) as Href.
    { destruct Hg as [Hflag _]. destruct (ChatStore.sendingMessageRef st); [|done].
      destruct Hflag as [_ Hflag]. by destruct (Hflag eq_refl). }
    unfold ChatStore.sendMessage. rewrite Hcur, Href.
    unfold ChatStore.userMessagesRequested. cbn [ChatStore.requests].
    by rewrite omap_app.
Qed.

(** C9 (as stated) fails: while the first invocation waits, the only session
    is deleted; the next call finds no session selected and stores an
    error. *)
Lemma sendMessage_in_flight_stores_error :
  let st := ChatStore.run
    (ChatStore.loaded
       [ {| ChatStore.session_id := "s1"; ChatStore.session_name := "Chat";
            ChatStore.messageCount := 0 |} ] (Some "s1"))
    [ChatStore.Call "first" 1; ChatStore.Deleted "s1"] in
  ChatStore.waiting st = [ChatStore.SavingUserMessage "s1" "first" "temp-1"] /\
  ChatStore.sendingMessageRef st = true /\
  ChatStore.error st = None /\
  ChatStore.error (ChatStore.sendMessage st "second" 2) = Some "No session selected" /\
  ChatStore.sendMessage st "second" 2 <> st.
Proof. cbn zeta. repeat split; try (vm_compute; congruence). Qed.

Example sendMessage_full_turn :
  let st := ChatStore.run
    (ChatStore.loaded
       [ {| ChatStore.session_id := "s1"; ChatStore.session_name := "Chat";
            ChatStore.messageCount := 0 |} ] (Some "s1"))
    [ ChatStore.Call "Hello" 1;
      ChatStore.Call "Hello" 2;
      ChatStore.Settle 0 (ChatStore.Saved
        {| ChatStore.id := "u1";
           ChatStore.message := ChatStoreSpec.userMessage "s1" "Hello" 1 |}) 3;
      ChatStore.Settle 0 (ChatStore.Answered
        {| N8N.type := JStr "final"; N8N.messageType := JStr "text";
           N8N.content := JStr "Hi"; N8N.metadata := N8N.Stamped 4 |}) 5;
      ChatStore.Settle 0 (ChatStore.Saved
        {| ChatStore.id := "a1";
           ChatStore.message :=
             {| ChatStore.new_sessionId := "s1"; ChatStore.new_content := "";
                ChatStore.new_type := MessageType.assistant;
                ChatStore.new_timestamp := 5;
                ChatStore.new_responseData := Some
                  {| ChatStore.rd_type := JStr "text"; ChatStore.rd_content := JStr "Hi";
                     ChatStore.rd_metadata := N8N.Stamped 4 |} |} |}) 6 ] in
  map ChatStore.id (ChatStore.currentMessages st) = ["u1"; "a1"] /\
  length (ChatStore.userMessagesRequested st) = 1 /\
  map ChatStore.messageCount (ChatStore.sessions st) = [2%Z] /\
  ChatStore.sendingMessageRef st = false /\
  ChatStore.isLoading st = false /\
  ChatStore.error st = None.
Proof. cbn zeta. repeat split. Qed.

(** ** Lines: [split], [join] and the line feed *)

Section LinesProofs.
Import LinesSpec.

Lemma split_nonempty (c : ascii) (s : string) : Js.split c s <> [].
Proof.
  destruct s as [|x r]; simpl; [discriminate|].
  destruct (Ascii.eqb x c); [discriminate|].
  destruct (Js.split c r); discriminate.
Qed.

Lemma split_cons_other (c x : ascii) (r : string) :
  Ascii.eqb x c = false ->
  exists l ls, Js.split c r = l :: ls /\ Js.split c (String x r) = String x l :: ls.
Proof.
  intros Hx. simpl. rewrite Hx.
  destruct (Js.split c r) as [|l ls] eqn:Hs; [by destruct (split_nonempty c r)|].
  by exists l, ls.
Qed.

(** Splitting a text in two places commutes with appending: the last piece
    of the first part goes on with the second part. *)
Lemma split_app (c : ascii) (a b : string) :
  Js.split c (a +:+ b)
  = removelast (Js.split c a) ++ Js.split c (List.last (Js.split c a) "" +:+ b).
Proof.
  induction a as [|x r IH].
  - reflexivity.
  - destruct (Ascii.eqb x c) eqn:Hx.
    + change (String x r +:+ b) with (String x (r +:+ b)).
      cbn [Js.split]. rewrite Hx, IH.
      destruct (Js.split c r) as [|l ls] eqn:Hs; [by destruct (split_nonempty c r)|].
      reflexivity.
    + destruct (split_cons_other c x r Hx) as (l & ls & Hr & Hxr).
      change (String x r +:+ b) with (String x (r +:+ b)).
      destruct (split_cons_other c x (r +:+ b) Hx) as (l' & ls' & Hrb & Hxrb).
      rewrite Hxrb, Hxr. rewrite IH, Hr in Hrb.
      destruct ls as [|l2 ls].
      * cbn [removelast List.last app] in *.
        change (String x l +:+ b) with (String x (l +:+ b)).
        destruct (split_cons_other c x (l +:+ b) Hx) as (l3 & ls3 & Hlb & ->).
        congruence.
      * cbn [removelast List.last] in *. simpl in Hrb. injection Hrb as <- <-.
        reflexivity.
Qed.

Lemma split_noLF_all (s : string) : Forall (fun l => noLF l = true) (Js.split Js.LF s).
Proof.
  induction s as [|x r IH]; simpl.
  - repeat constructor.
  - destruct (Ascii.eqb x Js.LF) eqn:Hx.
    + constructor; [reflexivity|exact IH].
    + destruct (Js.split Js.LF r) as [|l ls]; [repeat constructor; simpl; by rewrite Hx|].
      apply Forall_cons_1 in IH as [Hl Hls]. constructor; [|done].
      simpl. by rewrite Hx.
Qed.

Lemma split_noLF (s : string) : noLF s = true -> Js.split Js.LF s = [s].
Proof.
  induction s as [|x r IH]; simpl; [done|].
  intros [Hx Hr]%andb_true_iff. apply negb_true_iff in Hx.
  rewrite Hx, IH by done. reflexivity.
Qed.

Lemma last_noLF (ls : list string) :
  Forall (fun l => noLF l = true) ls -> noLF (List.last ls "") = true.
Proof.
  induction ls as [|l [|l2 ls] IH]; intros Hall; [reflexivity| |].
  - by apply Forall_cons_1 in Hall as [Hl _].
  - apply Forall_cons_1 in Hall as [_ Hls]. by apply IH.
Qed.

Lemma last_split_noLF (s : string) : noLF (List.last (Js.split Js.LF s) "") = true.
Proof. apply last_noLF, split_noLF_all. Qed.

Lemma split_line_feed (l s : string) :
  noLF l = true -> Js.split Js.LF (l +:+ String Js.LF s) = l :: Js.split Js.LF s.
Proof.
  induction l as [|x l IH]; simpl.
  - reflexivity.
  - intros [Hx Hl]%andb_true_iff. apply negb_true_iff in Hx.
    rewrite Hx, IH by done. reflexivity.
Qed.

(** [split] undoes [join] on lines without line feed. *)
Lemma split_join (ls : list string) :
  ls <> [] -> Forall (fun l => noLF l = true) ls ->
  Js.split Js.LF (Js.join Js.newline ls) = ls.
Proof.
  induction ls as [|l [|l2 ls] IH]; intros Hne Hall; [done| |].
  - apply Forall_cons_1 in Hall as [Hl _]. simpl. by apply split_noLF.
  - apply Forall_cons_1 in Hall as [Hl Hls].
    change (Js.join Js.newline (l :: l2 :: ls))
      with (l +:+ String Js.LF (Js.join Js.newline (l2 :: ls))).
    rewrite split_line_feed by done. f_equal. by apply IH.
Qed.

(** The terminated lines of a text in two parts. *)
Lemma terminated_app (a b : string) :
  terminated (a +:+ b)
  = terminated a ++ terminated (List.last (Js.split Js.LF a) "" +:+ b).
Proof.
  unfold terminated. rewrite split_app. apply removelast_app, split_nonempty.
Qed.

Lemma terminated_noLF (s : string) : noLF s = true -> terminated s = [].
Proof. intros Hs. unfold terminated. by rewrite split_noLF. Qed.

Lemma append_assoc (a b c : string) : (a +:+ b) +:+ c = a +:+ (b +:+ c).
Proof.
  induction a as [|x a IH]; [reflexivity|].
  change (String x ((a +:+ b) +:+ c) = String x (a +:+ (b +:+ c))). by rewrite IH.
Qed.

Lemma append_empty_r (a : string) : a +:+ "" = a.
Proof.
  induction a as [|x a IH]; [reflexivity|].
  change (String x (a +:+ "") = String x a). by rewrite IH.
Qed.

End LinesProofs.

(** ** [deduplicateContent], applied again and seen line by line *)

Section DedupMore.
Import DedupSpec LinesSpec.

Lemma same_history_snoc p q l : same_history p q -> same_history (p ++ [l]) (q ++ [l]).
Proof. intros Hpq x. rewrite !existsb_app, (Hpq x). reflexivity. Qed.

Lemma same_history_repeated p q l :
  same_history p q -> existsb (same_trimmed l) p = true -> same_history (p ++ [l]) q.
Proof.
  intros Hpq Hl x. rewrite existsb_app, (Hpq x). simpl. rewrite orb_false_r.
  destruct (same_trimmed x l) eqn:Hxl; [|by rewrite orb_false_r].
  rewrite orb_true_r. apply existsb_exists in Hl as (y & Hy & Hly).
  apply existsb_exists. exists y. split; [done|].
  unfold same_trimmed in *. apply String.eqb_eq in Hxl, Hly. apply String.eqb_eq. congruence.
Qed.

Lemma keep_first_again ls : forall p q,
  same_history p q ->
  keep_first same_trimmed q (keep_first same_trimmed p ls) = keep_first same_trimmed p ls.
Proof.
  induction ls as [|l r IH]; intros p q Hpq; [reflexivity|].
  cbn [keep_first].
  destruct (is_blank l || negb (existsb (same_trimmed l) p)) eqn:Hkeep.
  - cbn [keep_first]. rewrite (Hpq l), Hkeep. f_equal.
    apply IH. by apply same_history_snoc.
  - apply IH. apply same_history_repeated; [done|].
    apply orb_false_iff in Hkeep as [_ Hin]. by apply negb_false_iff in Hin.
Qed.

Lemma keep_first_sublist same ls : forall p, sublist (keep_first same p ls) ls.
Proof.
  induction ls as [|l r IH]; intros p; cbn [keep_first]; [constructor|].
  destruct (is_blank l || negb (existsb (same l) p)).
  - apply sublist_skip, IH.
  - apply sublist_cons, IH.
Qed.

Lemma keep_first_nonempty same l r : keep_first same [] (l :: r) <> [].
Proof. cbn [keep_first existsb negb]. rewrite orb_true_r. discriminate. Qed.

(** The lines of the result are the lines the loop kept. *)
Lemma deduplicateContent_lines (content : string) :
  Js.split Js.LF (Dedup.deduplicateContent content)
  = keep_first same_trimmed [] (Js.split Js.LF content).
Proof.
  unfold Dedup.deduplicateContent.
  rewrite (fold_step_keep_first _ ∅ [] []) by apply seen_of_empty. cbn [app].
  pose proof (split_noLF_all content) as Hall.
  destruct (Js.split Js.LF content) as [|l r] eqn:Hs; [by destruct (split_nonempty Js.LF content)|].
  apply split_join; [apply keep_first_nonempty|].
  rewrite Forall_forall in *. intros x Hx. apply Hall.
  eapply elem_of_sublist; [exact Hx|apply keep_first_sublist].
Qed.

(** Every line met so far has its trimmed text among the blank texts or the
    texts of [prev ++ kept]. *)
Lemma keep_first_covers ls : forall p l,
  l ∈ ls -> is_blank l = false ->
  exists k, k ∈ p ++ keep_first same_trimmed p ls /\ Js.trim k = Js.trim l.
Proof.
  induction ls as [|x r IH]; intros p l Hl Hnb; [by apply elem_of_nil in Hl|].
  cbn [keep_first]. apply elem_of_cons in Hl as [->|Hl].
  - rewrite Hnb. cbn [orb].
    destruct (existsb (same_trimmed x) p) eqn:Hin; cbn [negb].
    + apply existsb_exists in Hin as (y & Hy & Hxy).
      exists y. split; [apply elem_of_app; left; by apply list_elem_of_In|].
      unfold same_trimmed in Hxy. apply String.eqb_eq in Hxy. congruence.
    + exists x. split; [|done]. set_solver.
  - destruct (IH (p ++ [x]) l Hl Hnb) as (k & Hk & Hkl).
    destruct (is_blank x || negb (existsb (same_trimmed x) p)) eqn:Hkeep.
    + exists k. split; [|done]. rewrite <- app_assoc in Hk. exact Hk.
    + apply orb_false_iff in Hkeep as [_ Hin]. apply negb_false_iff in Hin.
      rewrite <- app_assoc in Hk. apply elem_of_app in Hk as [Hk|Hk].
      * exists k. split; [|done]. set_solver.
      * apply elem_of_cons in Hk as [->|Hk].
        -- apply existsb_exists in Hin as (y & Hy & Hxy).
           exists y. split; [apply elem_of_app; left; by apply list_elem_of_In|].
           unfold same_trimmed in Hxy. apply String.eqb_eq in Hxy. congruence.
        -- exists k. split; [|done]. set_solver.
Qed.

(** The non-blank lines kept have trimmed texts that differ from each other
    and from those of [prev]. *)
Lemma keep_first_distinct ls : forall p,
  NoDup (map Js.trim (filter (fun l => is_blank l = false) (keep_first same_trimmed p ls)))
  /\ forall k, k ∈ keep_first same_trimmed p ls -> is_blank k = false ->
       existsb (same_trimmed k) p = false.
Proof.
  induction ls as [|x r IH]; intros p; cbn [keep_first].
  { split; [constructor|]. intros k Hk. by apply elem_of_nil in Hk. }
  destruct (IH (p ++ [x])) as [Hnd Hout].
  assert (forall k, k ∈ keep_first same_trimmed (p ++ [x]) r -> is_blank k = false ->
            existsb (same_trimmed k) p = false /\ same_trimmed k x = false) as Hout'.
  { intros k Hk Hnb. specialize (Hout k Hk Hnb).
    rewrite existsb_app in Hout. apply orb_false_iff in Hout as [H1 H2].
    simpl in H2. rewrite orb_false_r in H2. done. }
  destruct (is_blank x) eqn:Hbx; cbn [orb].
  - split.
    + rewrite filter_cons. rewrite decide_False by (rewrite Hbx; discriminate). exact Hnd.
    + intros k [->|Hk]%elem_of_cons Hnb; [congruence|]. by apply Hout'.
  - destruct (existsb (same_trimmed x) p) eqn:Hin; cbn [negb].
    + split; [exact Hnd|]. intros k Hk Hnb. by apply Hout'.
    + split.
      * rewrite filter_cons. rewrite decide_True by done. cbn [map].
        apply NoDup_cons. split; [|exact Hnd].
        intros (k & Hkx & Hk)%list_elem_of_fmap.
        apply list_elem_of_filter in Hk as [Hnb Hk].
        destruct (Hout' k Hk Hnb) as [_ Hne].
        unfold same_trimmed in Hne. apply String.eqb_neq in Hne. congruence.
      * intros k [->|Hk]%elem_of_cons Hnb; [done|]. by apply Hout'.
Qed.

End DedupMore.

(** The result, as the loop leaves it. *)
Lemma deduplicateContent_kept (content : string) :
  Dedup.deduplicateContent content
  = Js.join Js.newline
      (DedupSpec.keep_first DedupSpec.same_trimmed [] (Js.split Js.LF content)).
Proof.
  unfold Dedup.deduplicateContent.
  by rewrite (fold_step_keep_first _ ∅ [] []) by apply seen_of_empty.
Qed.

Lemma keep_first_kept (ls : list string) :
  DedupSpec.keep_first DedupSpec.same_trimmed []
    (DedupSpec.keep_first DedupSpec.same_trimmed [] ls)
  = DedupSpec.keep_first DedupSpec.same_trimmed [] ls.
Proof. apply keep_first_again. intros x. reflexivity. Qed.

(** X1: [deduplicateContent] is idempotent: a text that went through it once
    comes back unchanged from a second pass. *)
Theorem deduplicateContent_idempotent (content : string) :
  Dedup.deduplicateContent (Dedup.deduplicateContent content)
  = Dedup.deduplicateContent content.
Proof.
  rewrite (deduplicateContent_kept (Dedup.deduplicateContent content)).
  rewrite deduplicateContent_lines, keep_first_kept.
  symmetry. apply deduplicateContent_kept.
Qed.

(** X2: The lines of the result of [deduplicateContent] are lines of the input
    in their order (nothing is added, changed or moved), its non-blank lines
    have pairwise different trimmed texts, and the trimmed text of every
    non-blank input line is still that of some line of the result. *)
Theorem deduplicateContent_lines_kept (content : string) :
  let lines := Js.split Js.LF content in
  let kept := Js.split Js.LF (Dedup.deduplicateContent content) in
  sublist kept lines
  /\ NoDup (map Js.trim (filter (fun l => DedupSpec.is_blank l = false) kept))
  /\ forall l, l ∈ lines -> DedupSpec.is_blank l = false ->
       exists k, k ∈ kept /\ Js.trim k = Js.trim l.
Proof.
  cbv zeta. rewrite deduplicateContent_lines. split; [apply keep_first_sublist|]. split.
  - apply keep_first_distinct.
  - intros l Hl Hnb. by apply (keep_first_covers _ [] l).
Qed.

(** ** The streaming endpoint: lines, chunks and the end marker *)

Section StreamProofs.
Context `{Platform}.
Import Stream LinesSpec N8N.

Lemma processLines_app (l1 l2 : list string) :
  processLines (l1 ++ l2) = processBoth (processLines l1) (processLines l2).
Proof.
  induction l1 as [|line rest IH]; cbn [app processLines].
  - unfold processBoth. simpl. by destruct (processLines l2).
  - destruct (decide (Js.trim line = "")); [exact IH|].
    destruct (Js.startsWith line "data: "); [|exact IH].
    destruct (String.eqb (slice 6 line) "[DONE]"); [reflexivity|].
    destruct (JSON_parse (slice 6 line)); [|exact IH].
    rewrite IH. unfold processBoth.
    destruct (processLines rest) as [y1 r1], (processLines l2) as [y2 r2]. simpl.
    by destruct r1.
Qed.

Lemma readLoop_cons (buffer value : string) (later : list string) :
  readLoop buffer (value :: later)
  = processBoth (processLines (terminated (buffer +:+ value)))
      (readLoop (List.last (Js.split Js.LF (buffer +:+ value)) "") later).
Proof.
  cbn [readLoop]. unfold terminated, processBoth.
  destruct (processLines (removelast (Js.split Js.LF (buffer +:+ value)))) as [y1 r1].
  simpl. destruct r1; [reflexivity|].
  by destruct (readLoop _ later).
Qed.

(** The reader loop yields what the loop over the lines yields on the
    terminated lines of the buffer followed by all the chunks. *)
Lemma readLoop_lines (values : list string) : forall buffer,
  noLF buffer = true ->
  readLoop buffer values = processLines (terminated (buffer +:+ concat values)).
Proof.
  induction values as [|value later IH]; intros buffer Hb.
  - cbn [concat fold_right readLoop]. rewrite append_empty_r.
    by rewrite terminated_noLF.
  - rewrite readLoop_cons, IH by apply last_split_noLF.
    cbn [concat fold_right]. fold (concat later).
    rewrite <- append_assoc, (terminated_app (buffer +:+ value)).
    by rewrite processLines_app.
Qed.

Lemma readLoop_start (values : list string) :
  readLoop "" values = processLines (terminated (concat values)).
Proof. by rewrite readLoop_lines. Qed.

Lemma terminated_line (l rest : string) :
  noLF l = true -> terminated (l +:+ String Js.LF rest) = l :: terminated rest.
Proof.
  intros Hl. unfold terminated. rewrite split_line_feed by done.
  destruct (Js.split Js.LF rest) eqn:Hs; [by destruct (split_nonempty Js.LF rest)|].
  reflexivity.
Qed.

Lemma terminated_unlines (ls : list string) (rest : string) :
  Forall (fun l => noLF l = true) ls ->
  terminated (unlines ls +:+ rest) = ls ++ terminated rest.
Proof.
  induction ls as [|l ls IH]; intros Hall; [reflexivity|].
  apply Forall_cons_1 in Hall as [Hl Hls].
  cbn [unlines app]. rewrite !append_assoc.
  change (String Js.LF "" +:+ (unlines ls +:+ rest)) with (String Js.LF (unlines ls +:+ rest)).
  rewrite terminated_line by done. f_equal. by apply IH.
Qed.

Lemma processLines_done (before after : list string) :
  processLines (before ++ "data: [DONE]" :: after) = ((processLines before).1, true).
Proof.
  rewrite processLines_app. unfold processBoth.
  destruct (processLines before) as [y r]. simpl.
  destruct r; [reflexivity|].
  change (processLines ("data: [DONE]" :: after)) with (@nil json, true).
  simpl. by rewrite app_nil_r.
Qed.

Lemma streamMessages_lines (clock : nat -> Z) (status : Z) (body : Body) :
  ok status = true ->
  streamMessages clock (Answered status (Some body))
  = let '(yielded, returned) := processLines (terminated (concat (chunks body))) in
    (imap (fun k parsed => validateResponse (clock k) parsed) yielded,
     if returned then None else option_map rethrow (readFails body)).
Proof.
  intros Hok. unfold streamMessages. rewrite Hok. cbn [negb].
  by rewrite readLoop_start.
Qed.

End StreamProofs.

(** X3: What [streamMessages] yields and how it ends depend on the bytes
    received, not on how the transport cut them into chunks: two bodies with
    the same concatenated text give the same run. *)
Theorem streamMessages_chunking `{Platform} (clock : nat -> Z) (status : Z)
    (chunks1 chunks2 : list string) (readFails : option N8N.Exn) :
  LinesSpec.concat chunks1 = LinesSpec.concat chunks2 ->
  Stream.streamMessages clock
    (Stream.Answered status (Some (Stream.Build_Body chunks1 readFails)))
  = Stream.streamMessages clock
      (Stream.Answered status (Some (Stream.Build_Body chunks2 readFails))).
Proof.
  intros Heq. unfold Stream.streamMessages.
  destruct (negb (N8N.ok status)); [reflexivity|]. cbn [Stream.chunks Stream.readFails].
  by rewrite !readLoop_start, Heq.
Qed.

Lemma streamMessages_chunking_witness :
  Stream.streamMessages (H := Samples.platform) (fun _ => 0%Z)
    (Stream.Answered 200 (Some (Stream.Build_Body ["data: "; "[DONE]" +:+ Js.newline] None)))
  = Stream.streamMessages (H := Samples.platform) (fun _ => 0%Z)
      (Stream.Answered 200 (Some (Stream.Build_Body ["data: [DONE]" +:+ Js.newline] None))).
Proof. apply (streamMessages_chunking (H := Samples.platform)). reflexivity. Defined.

(** X4: A line that the stream leaves without its line feed is never processed:
    a body that ends in such a tail yields what the body without it yields. *)
Theorem streamMessages_unterminated_tail `{Platform} (clock : nat -> Z) (status : Z)
    (lines : list string) (tail : string) (readFails : option N8N.Exn) :
  Forall (fun l => LinesSpec.noLF l = true) lines ->
  LinesSpec.noLF tail = true ->
  Stream.streamMessages clock
    (Stream.Answered status
       (Some (Stream.Build_Body [LinesSpec.unlines lines +:+ tail] readFails)))
  = Stream.streamMessages clock
      (Stream.Answered status
         (Some (Stream.Build_Body [LinesSpec.unlines lines] readFails))).
Proof.
  intros Hlines Htail. unfold Stream.streamMessages.
  destruct (negb (N8N.ok status)); [reflexivity|]. cbn [Stream.chunks Stream.readFails].
  rewrite !readLoop_start.
  cbn [LinesSpec.concat fold_right]. rewrite !append_empty_r.
  rewrite terminated_unlines by done.
  rewrite <- (append_empty_r (LinesSpec.unlines lines)) at 1.
  rewrite terminated_unlines by done.
  by rewrite !terminated_noLF.
Qed.

Lemma streamMessages_unterminated_tail_witness :
  Stream.streamMessages (H := Samples.platform) (fun _ => 0%Z)
    (Stream.Answered 200
       (Some (Stream.Build_Body [LinesSpec.unlines ["data: 1"] +:+ "data: [DONE]"] None)))
  = Stream.streamMessages (H := Samples.platform) (fun _ => 0%Z)
      (Stream.Answered 200 (Some (Stream.Build_Body [LinesSpec.unlines ["data: 1"]] None))).
Proof.
  apply (streamMessages_unterminated_tail (H := Samples.platform)).
  - repeat constructor.
  - reflexivity.
Defined.

(** X5: After a line [data: [DONE]] the generator returns: whatever follows it in
    the stream, and a failure of a later read, change nothing. *)
Theorem streamMessages_done `{Platform} (clock : nat -> Z) (status : Z)
    (before : list string) (after : string) (later : list string)
    (readFails : option N8N.Exn) :
  N8N.ok status = true ->
  Forall (fun l => LinesSpec.noLF l = true) before ->
  Stream.streamMessages clock
    (Stream.Answered status
       (Some (Stream.Build_Body
                ((LinesSpec.unlines (before ++ ["data: [DONE]"]) +:+ after) :: later)
                readFails)))
  = (imap (fun k parsed => N8N.validateResponse (clock k) parsed)
       (Stream.processLines before).1, None).
Proof.
  intros Hok Hbefore.
  rewrite streamMessages_lines by done. cbn [Stream.chunks Stream.readFails].
  cbn [LinesSpec.concat fold_right]. fold (LinesSpec.concat later).
  rewrite append_assoc, terminated_unlines.
  - rewrite <- app_assoc. cbn [app]. rewrite processLines_done. reflexivity.
  - apply Forall_app. split; [done|]. repeat constructor.
Qed.

Lemma streamMessages_done_witness :
  Stream.streamMessages (H := Samples.platform) (fun _ => 0%Z)
    (Stream.Answered 200
       (Some (Stream.Build_Body
                ((LinesSpec.unlines ([] ++ ["data: [DONE]"]) +:+ "data: 1") :: ["x"])
                (Some (N8N.Error "TypeError" "network error")))))
  = ([], None).
Proof.
  apply (streamMessages_done (H := Samples.platform)
           (fun _ => 0%Z) 200 [] "data: 1" ["x"]).
  - reflexivity.
  - constructor.
Defined.

(** ** Local storage: sessions, messages and the message counter *)

Section StorageProofs.
Import Persistence Sessions StorageSpec.

Lemma filter_length_insert {A : Type} (f : A -> bool) (l : list A) : forall i x y,
  l !! i = Some x -> f y = f x ->
  length (List.filter f (<[i := y]> l)) = length (List.filter f l).
Proof.
  induction l as [|a l IH]; intros i x y Hi Hf; [done|].
  destruct i as [|i].
  - injection Hi as ->. cbn [list_insert insert List.filter]. rewrite Hf. by destruct (f x).
  - change (<[S i := y]> (a :: l)) with (a :: <[i := y]> l).
    cbn [List.filter]. pose proof (IH i x y Hi Hf) as IH'.
    destruct (f a); cbn [length]; by rewrite IH'.
Qed.

Lemma filter_filter_other {A : Type} (key : A -> string) (l : list A) (a b : string) :
  a <> b ->
  List.filter (fun m => String.eqb (key m) a)
    (List.filter (fun m => negb (String.eqb (key m) b)) l)
  = List.filter (fun m => String.eqb (key m) a) l.
Proof.
  intros Hab. induction l as [|m l IH]; [done|]. simpl.
  destruct (String.eqb (key m) b) eqn:Hb; simpl.
  - apply String.eqb_eq in Hb.
    destruct (String.eqb (key m) a) eqn:Ha; [|done].
    apply String.eqb_eq in Ha. congruence.
  - rewrite IH. reflexivity.
Qed.

Lemma filter_filter_same {A : Type} (key : A -> string) (l : list A) (a : string) :
  List.filter (fun m => String.eqb (key m) a)
    (List.filter (fun m => negb (String.eqb (key m) a)) l) = [].
Proof.
  induction l as [|m l IH]; [done|]. simpl.
  destruct (String.eqb (key m) a) eqn:Ha; simpl; [done|]. by rewrite Ha.
Qed.

Lemma filter_sublist {A : Type} (f : A -> bool) (l : list A) : sublist (List.filter f l) l.
Proof.
  induction l as [|a l IH]; simpl; [constructor|].
  destruct (f a); [by apply sublist_skip|by apply sublist_cons].
Qed.

(** A session replaced by one with the same identifier and the right count. *)
Lemma counted_insert (ss : list MockAPISession) (ms ms' : list MockAPIMessage)
    (i : nat) (s s' : MockAPISession) :
  counted {| sessions := ss; messages := ms |} ->
  ss !! i = Some s -> s_id s' = s_id s ->
  messageCount s' = Z.of_nat (length (stored {| sessions := ss; messages := ms' |} (s_id s))) ->
  (forall x, x <> s_id s ->
     length (stored {| sessions := ss; messages := ms' |} x)
     = length (stored {| sessions := ss; messages := ms |} x)) ->
  counted {| sessions := <[i := s']> ss; messages := ms' |}.
Proof.
  intros [Hnd Hall] Hi Hid Hcount Hother. unfold counted. cbn [sessions] in *.
  assert (map s_id (<[i := s']> ss) = map s_id ss) as Hids.
  { change (s_id <$> <[i := s']> ss = s_id <$> ss).
    rewrite list_fmap_insert, Hid. apply list_insert_id.
    by rewrite list_lookup_fmap, Hi. }
  split; [by rewrite Hids|].
  apply Forall_lookup. intros j x Hj.
  destruct (decide (i = j)) as [->|Hij].
  - rewrite list_lookup_insert_eq in Hj by (by eapply lookup_lt_Some).
    injection Hj as <-. unfold stored in *. cbn [messages] in *. by rewrite Hid.
  - rewrite list_lookup_insert_ne in Hj by done.
    assert (s_id x <> s_id s) as Hne.
    { intros Heq. apply Hij.
      assert ((s_id <$> ss) !! i = Some (s_id s)) as H1 by by rewrite list_lookup_fmap, Hi.
      assert ((s_id <$> ss) !! j = Some (s_id s)) as H2
        by (rewrite list_lookup_fmap, Hj; simpl; by rewrite Heq).
      exact (NoDup_lookup _ _ _ _ Hnd H1 H2). }
    rewrite Forall_lookup in Hall. specialize (Hall j x Hj).
    unfold stored in *. cbn [messages] in *.
    specialize (Hother (s_id x) Hne). cbn [messages] in Hother. lia.
Qed.

(** The messages changed, but no session's stored messages changed in number. *)
Lemma counted_messages (ss : list MockAPISession) (ms ms' : list MockAPIMessage) :
  counted {| sessions := ss; messages := ms |} ->
  (forall s, s ∈ ss ->
     length (stored {| sessions := ss; messages := ms' |} (s_id s))
     = length (stored {| sessions := ss; messages := ms |} (s_id s))) ->
  counted {| sessions := ss; messages := ms' |}.
Proof.
  intros [Hnd Hall] Hsame. split; [done|]. cbn [sessions] in *.
  rewrite Forall_forall in *. intros s Hs. rewrite (Hall s Hs).
  f_equal. symmetry. by apply Hsame.
Qed.

Lemma stored_snoc ss ms md x :
  stored {| sessions := ss; messages := ms ++ [md] |} x
  = stored {| sessions := ss; messages := ms |} x
    ++ (if String.eqb (m_sessionId md) x then [md] else []).
Proof. unfold stored. cbn [messages]. by rewrite List.filter_app. Qed.

Lemma createMessage_counted st messageId now message :
  counted st -> counted (createMessage st messageId now message).1.
Proof.
  intros Hc. unfold createMessage.
  destruct (List.find (similar message) (messages st)) as [existing|]; [exact Hc|].
  cbn [fst]. unfold incrementSessionMessageCount.
  cbn [sessions setMessages messages setSessions].
  set (md := {| m_id := messageId; m_sessionId := new_sessionId message |}).
  destruct st as [ss ms]. cbn [sessions messages] in *.
  destruct (list_find _ ss) as [[index session]|] eqn:Hfind.
  - apply list_find_Some in Hfind as (Hi & Hid & _).
    apply (counted_insert ss ms (ms ++ [md]) index session); [done|done|done| |].
    + cbn [messageCount].
      rewrite (stored_snoc ss ms md (s_id session)).
      replace (String.eqb (m_sessionId md) (s_id session)) with true
        by (symmetry; apply String.eqb_eq; by rewrite Hid).
      destruct Hc as [_ Hall]. rewrite Forall_lookup in Hall.
      rewrite (Hall index session Hi). rewrite length_app. cbn [length]. lia.
    + intros x Hx.
      rewrite (stored_snoc ss ms md x).
      replace (String.eqb (m_sessionId md) x) with false; [by rewrite app_nil_r|].
      symmetry. apply String.eqb_neq. cbn [md m_sessionId]. congruence.
  - apply list_find_None in Hfind.
    apply (counted_messages ss ms); [done|]. intros s Hs.
    rewrite (stored_snoc ss ms md (s_id s)).
    replace (String.eqb (m_sessionId md) (s_id s)) with false; [by rewrite app_nil_r|].
    symmetry. apply String.eqb_neq. cbn [md m_sessionId].
    rewrite Forall_forall in Hfind. intros Heq. by apply (Hfind s Hs).
Qed.

Lemma updateMessage_counted st id_ updates :
  counted st -> counted (updateMessage st id_ updates).1.
Proof.
  intros Hc. unfold updateMessage.
  destruct (list_find _ (messages st)) as [[index m]|] eqn:Hfind; [|exact Hc].
  cbn [fst]. apply list_find_Some in Hfind as (Hi & _ & _).
  destruct st as [ss ms]. cbn [sessions messages setMessages] in *.
  apply (counted_messages ss ms); [done|]. intros s Hs. unfold stored. cbn [messages].
  by apply (filter_length_insert _ _ _ m).
Qed.

Lemma updateSession_counted st now id_ updates :
  counted st -> counted (updateSession st now id_ updates).1.
Proof.
  intros Hc. unfold updateSession.
  destruct (list_find _ (sessions st)) as [[index s]|] eqn:Hfind; [|exact Hc].
  cbn [fst]. apply list_find_Some in Hfind as (Hi & _ & _).
  destruct st as [ss ms]. cbn [sessions messages setSessions] in *.
  apply (counted_insert ss ms ms index s); [done|done|done| |done].
  cbn [messageCount]. destruct Hc as [_ Hall]. rewrite Forall_lookup in Hall.
  apply (Hall index s Hi).
Qed.

Lemma updateSessionActivity_counted st now1 now2 id_ :
  counted st -> counted (updateSessionActivity st now1 now2 id_).
Proof.
  intros Hc. unfold updateSessionActivity.
  destruct (list_find _ (sessions st)) as [[index s]|] eqn:Hfind; [|exact Hc].
  apply list_find_Some in Hfind as (Hi & _ & _).
  destruct st as [ss ms]. cbn [sessions messages setSessions] in *.
  apply (counted_insert ss ms ms index s); [done|done|done| |done].
  cbn [messageCount]. destruct Hc as [_ Hall]. rewrite Forall_lookup in Hall.
  apply (Hall index s Hi).
Qed.

Lemma deleteSession_counted st id_ : counted st -> counted (deleteSession st id_).
Proof.
  intros [Hnd Hall]. unfold deleteSession, counted. cbn [sessions messages]. split.
  - eapply sublist_NoDup; [exact Hnd|].
    change (sublist (s_id <$> List.filter (fun s => negb (String.eqb (s_id s) id_)) (sessions st))
              (s_id <$> sessions st)).
    apply fmap_sublist, filter_sublist.
  - rewrite Forall_forall in *. intros s Hs.
    apply list_elem_of_In, List.filter_In in Hs as [Hs Hne].
    apply list_elem_of_In in Hs. apply negb_true_iff, String.eqb_neq in Hne.
    rewrite (Hall s Hs). unfold stored. cbn [messages].
    by rewrite (filter_filter_other m_sessionId).
Qed.

Lemma find_filter_other (ss : list MockAPISession) (a b : string) :
  a <> b ->
  List.find (fun s => String.eqb (s_id s) a)
    (List.filter (fun s => negb (String.eqb (s_id s) b)) ss)
  = List.find (fun s => String.eqb (s_id s) a) ss.
Proof.
  intros Hab. induction ss as [|s ss IH]; [done|]. simpl.
  destruct (String.eqb (s_id s) b) eqn:Hb; simpl.
  - apply String.eqb_eq in Hb.
    destruct (String.eqb (s_id s) a) eqn:Ha; [|done].
    apply String.eqb_eq in Ha. congruence.
  - by rewrite IH.
Qed.

Lemma find_filter_same (ss : list MockAPISession) (a : string) :
  List.find (fun s => String.eqb (s_id s) a)
    (List.filter (fun s => negb (String.eqb (s_id s) a)) ss) = None.
Proof.
  induction ss as [|s ss IH]; [done|]. simpl.
  destruct (String.eqb (s_id s) a) eqn:Ha; simpl; [done|]. by rewrite Ha.
Qed.

Lemma find_snoc_fresh (ss : list MockAPISession) (s : MockAPISession) (a : string) :
  List.find (fun s => String.eqb (s_id s) a) ss = None ->
  List.find (fun s => String.eqb (s_id s) a) (ss ++ [s])
  = if String.eqb (s_id s) a then Some s else None.
Proof.
  induction ss as [|x ss IH]; simpl; [done|].
  destruct (String.eqb (s_id x) a); [discriminate|]. exact IH.
Qed.

Lemma find_snoc_found (ss : list MockAPISession) (s x : MockAPISession) (a : string) :
  List.find (fun s => String.eqb (s_id s) a) ss = Some x ->
  List.find (fun s => String.eqb (s_id s) a) (ss ++ [s]) = Some x.
Proof.
  induction ss as [|y ss IH]; simpl; [discriminate|].
  destruct (String.eqb (s_id y) a); [done|]. exact IH.
Qed.

End StorageProofs.

(** X6: [getMessages(sessionId)] returns the stored messages of that session and
    no other, each once, in ascending order of their timestamps. *)
Theorem getMessages_sorted (st : Persistence.Storage) (sessionId : string) :
  Persistence.getMessages st sessionId
    ≡ₚ map Persistence.transformMessage (StorageSpec.stored st sessionId)
  /\ Forall (fun m => Persistence.sessionId m = sessionId)
       (Persistence.getMessages st sessionId)
  /\ StronglySorted (fun a b => (Persistence.timestamp a <= Persistence.timestamp b)%Z)
       (Persistence.getMessages st sessionId).
Proof.
  unfold Persistence.getMessages. split; [apply sort_Permutation|]. split.
  - rewrite Forall_forall. intros m Hm. apply elem_of_sort in Hm.
    apply list_elem_of_fmap in Hm as (x & -> & Hx).
    apply list_elem_of_In, List.filter_In in Hx as [_ Hx].
    cbn [Persistence.transformMessage Persistence.sessionId]. by apply String.eqb_eq.
  - eapply (StronglySorted_impl _ _ (fun _ => True)); cycle 1.
    + rewrite Forall_forall. done.
    + apply (sort_sorted _ (fun _ => True)); [intros; lia|intros; lia|].
      rewrite Forall_forall. done.
    + intros a b _ _ Hab. cbv beta in Hab. lia.
Qed.

(** X7: If session identifiers are unique and every [messageCount] equals the
    number of stored messages of its session, this is still so after
    [createMessage] (whether it stores or finds a similar message),
    [updateMessage], [updateSession], [updateSessionActivity] and
    [deleteSession]. *)
Theorem counted_preserved (st : Persistence.Storage) :
  StorageSpec.counted st ->
  (forall messageId now message,
     StorageSpec.counted (Persistence.createMessage st messageId now message).1) /\
  (forall id updates, StorageSpec.counted (Persistence.updateMessage st id updates).1) /\
  (forall now id updates, StorageSpec.counted (Sessions.updateSession st now id updates).1) /\
  (forall now1 now2 id, StorageSpec.counted (Sessions.updateSessionActivity st now1 now2 id)) /\
  (forall id, StorageSpec.counted (Sessions.deleteSession st id)).
Proof.
  intros Hc. split; [|split; [|split; [|split]]]; intros.
  - by apply createMessage_counted.
  - by apply updateMessage_counted.
  - by apply updateSession_counted.
  - by apply updateSessionActivity_counted.
  - by apply deleteSession_counted.
Qed.

Lemma counted_preserved_witness :
  StorageSpec.counted
    (Persistence.createMessage Samples.oneSession "new" 5000 (Samples.hello 5000)).1.
Proof.
  apply (counted_preserved Samples.oneSession).
  apply (bool_decide_unpack (StorageSpec.counted Samples.oneSession)). vm_compute. exact I.
Defined.

Section StorageMore.
Import Persistence Sessions StorageSpec.

Lemma filter_filter_shorter (ms : list MockAPIMessage) (sid id_ : string) (m : MockAPIMessage) :
  m ∈ ms -> m_sessionId m = sid -> m_id m = id_ ->
  length (List.filter (fun m => String.eqb (m_sessionId m) sid)
            (List.filter (fun m => negb (String.eqb (m_id m) id_)) ms))
  < length (List.filter (fun m => String.eqb (m_sessionId m) sid) ms).
Proof.
  intros Hm Hsid Hid.
  assert (forall l : list MockAPIMessage,
            length (List.filter (fun m => String.eqb (m_sessionId m) sid)
                      (List.filter (fun m => negb (String.eqb (m_id m) id_)) l))
            <= length (List.filter (fun m => String.eqb (m_sessionId m) sid) l)) as Hle.
  { induction l as [|x l IH]; [done|]. simpl.
    destruct (String.eqb (m_id x) id_); simpl;
      destruct (String.eqb (m_sessionId x) sid); simpl; lia. }
  induction ms as [|x ms IH]; [by apply elem_of_nil in Hm|].
  apply elem_of_cons in Hm as [<-|Hm].
  - simpl. rewrite (proj2 (String.eqb_eq _ _) Hid), (proj2 (String.eqb_eq _ _) Hsid).
    simpl. specialize (Hle ms). lia.
  - specialize (IH Hm). simpl.
    destruct (String.eqb (m_id x) id_); simpl;
      destruct (String.eqb (m_sessionId x) sid); simpl; lia.
Qed.

Lemma find_insert (ss : list MockAPISession) (id_ : string) :
  match list_find (fun s => s_id s = id_) ss with
  | Some (index, session) =>
      List.find (fun s => String.eqb (s_id s) id_) ss = Some session /\
      forall s', s_id s' = id_ ->
        List.find (fun s => String.eqb (s_id s) id_) (<[index := s']> ss) = Some s' /\
        forall other, other <> id_ ->
          List.find (fun s => String.eqb (s_id s) other) (<[index := s']> ss)
          = List.find (fun s => String.eqb (s_id s) other) ss
  | None => List.find (fun s => String.eqb (s_id s) id_) ss = None
  end.
Proof.
  induction ss as [|x ss IH]; [done|].
  cbn [list_find List.find]. destruct (decide (s_id x = id_)) as [Hx|Hx].
  - split; [by rewrite (proj2 (String.eqb_eq _ _) Hx)|].
    intros s' Hs'. change (<[0 := s']> (x :: ss)) with (s' :: ss). cbn [List.find].
    split; [by rewrite (proj2 (String.eqb_eq _ _) Hs')|].
    intros other Hother.
    rewrite (proj2 (String.eqb_neq _ _)) by congruence.
    by rewrite (proj2 (String.eqb_neq _ _)) by congruence.
  - rewrite (proj2 (String.eqb_neq _ _) Hx).
    destruct (list_find _ ss) as [[index session]|]; cbn [fmap option_fmap option_map prod_map fst snd];
      [|exact IH].
    destruct IH as [Hfound Hins]. split; [exact Hfound|].
    intros s' Hs'. change (<[S index := s']> (x :: ss)) with (x :: <[index := s']> ss).
    cbn [List.find]. rewrite (proj2 (String.eqb_neq _ _) Hx).
    destruct (Hins s' Hs') as [H1 H2]. split; [exact H1|].
    intros other Hother. rewrite (H2 other Hother). reflexivity.
Qed.

Lemma Forall2_insert_same {A : Type} (R : A -> A -> Prop) (l : list A) (i : nat) (x y : A) :
  (forall a, R a a) -> l !! i = Some x -> R y x -> Forall2 R (<[i := y]> l) l.
Proof.
  intros Hrefl. revert i. induction l as [|a l IH]; intros i Hi Hyx; [constructor|].
  destruct i as [|i].
  - injection Hi as ->. constructor; [done|]. by apply Forall_Forall2_diag, Forall_forall.
  - change (<[S i := y]> (a :: l)) with (a :: <[i := y]> l). constructor; [done|].
    by apply IH.
Qed.

End StorageMore.

(** X8: [deleteMessage(id)] removes every stored message with this identifier and
    leaves the sessions as they were: it does not count down.  So when the
    counters were right and a message of a listed session is deleted, that
    session's [messageCount] is afterwards larger than the number of its
    stored messages. *)
Theorem deleteMessage_stale_count (st : Persistence.Storage) (id : string)
    (m : Persistence.MockAPIMessage) (s : Persistence.MockAPISession) :
  StorageSpec.counted st ->
  m ∈ Persistence.messages st -> Persistence.m_id m = id ->
  s ∈ Persistence.sessions st -> Persistence.s_id s = Persistence.m_sessionId m ->
  let st' := Persistence.deleteMessage st id in
  Forall (fun x => Persistence.m_id x <> id) (Persistence.messages st')
  /\ s ∈ Persistence.sessions st'
  /\ (Z.of_nat (length (StorageSpec.stored st' (Persistence.s_id s)))
      < Persistence.messageCount s)%Z
  /\ ~ StorageSpec.counted st'.
Proof.
  intros [Hnd Hall] Hm Hid Hs Hsid st'.
  assert (Z.of_nat (length (StorageSpec.stored st' (Persistence.s_id s)))
          < Persistence.messageCount s)%Z as Hlt.
  { rewrite Forall_forall in Hall. rewrite (Hall s Hs).
    unfold StorageSpec.stored, st', Persistence.deleteMessage.
    cbn [Persistence.messages Persistence.setMessages].
    apply inj_lt. by apply (filter_filter_shorter _ _ id m). }
  split; [|split; [exact Hs|split; [exact Hlt|]]].
  - rewrite Forall_forall. intros x Hx.
    unfold st', Persistence.deleteMessage in Hx.
    cbn [Persistence.messages Persistence.setMessages] in Hx.
    apply list_elem_of_In, List.filter_In in Hx as [_ Hx].
    by apply negb_true_iff, String.eqb_neq in Hx.
  - intros [_ Hall']. rewrite Forall_forall in Hall'.
    specialize (Hall' s Hs). lia.
Qed.

Lemma deleteMessage_stale_count_witness :
  ~ StorageSpec.counted (Persistence.deleteMessage Samples.oneSession "old").
Proof.
  refine (proj2 (proj2 (proj2
    (deleteMessage_stale_count Samples.oneSession "old"
       {| Persistence.m_id := "old"; Persistence.m_sessionId := "s1";
          Persistence.m_content := "Hello"; Persistence.m_type := MessageType.user;
          Persistence.m_timestamp := 0; Persistence.responseType := None;
          Persistence.responseContent := None; Persistence.responseMetadata := None |}
       {| Persistence.s_id := "s1"; Persistence.s_name := "Chat";
          Persistence.createdAt := 0; Persistence.updatedAt := 0;
          Persistence.messageCount := 1; Persistence.lastActivity := 0;
          Persistence.isActive := true |}
       _ _ _ _ _)))).
  - apply (bool_decide_unpack (StorageSpec.counted Samples.oneSession)). vm_compute. exact I.
  - vm_compute. left.
  - reflexivity.
  - vm_compute. left.
  - reflexivity.
Defined.

(** X9: [deleteSession(id)] removes the session and all its messages, and nothing
    else: afterwards [getSession(id)] is [null] and [getMessages(id)] is
    empty, while every other session and its messages read as before. *)
Theorem deleteSession_cascade (st : Persistence.Storage) (id : string) :
  let st' := Sessions.deleteSession st id in
  Sessions.getSession st' id = None
  /\ Persistence.getMessages st' id = []
  /\ forall other, other <> id ->
       Sessions.getSession st' other = Sessions.getSession st other
       /\ Persistence.getMessages st' other = Persistence.getMessages st other.
Proof.
  cbv zeta. unfold Sessions.getSession, Persistence.getMessages, Sessions.deleteSession.
  cbn [Persistence.sessions Persistence.messages]. split; [|split].
  - by rewrite find_filter_same.
  - by rewrite (filter_filter_same Persistence.m_sessionId).
  - intros other Hother. split.
    + by rewrite find_filter_other.
    + by rewrite (filter_filter_other Persistence.m_sessionId).
Qed.

(** X10: A session created under an identifier that no stored session has is the
    one [getSession] then returns for it: with the given name, no messages
    and a count of zero.  It is listed last, the sessions listed before and
    the stored messages are untouched. *)
Theorem createSession_getSession (st : Persistence.Storage) (sessionId : string)
    (now : Z) (name : string) :
  Sessions.getSession st sessionId = None ->
  let '(st', created) := Sessions.createSession st sessionId now name in
  Sessions.getSession st' sessionId = Some created
  /\ Sessions.cs_id created = sessionId
  /\ Sessions.cs_name created = name
  /\ Sessions.md_messageCount (Sessions.cs_metadata created) = 0%Z
  /\ Sessions.getSessions st' = Sessions.getSessions st ++ [created]
  /\ Persistence.messages st' = Persistence.messages st
  /\ forall other, other <> sessionId ->
       Sessions.getSession st' other = Sessions.getSession st other.
Proof.
  intros Hfresh.
  unfold Sessions.createSession, Sessions.getSession, Sessions.getSessions,
    Persistence.setSessions in *.
  cbn [Persistence.sessions Persistence.messages].
  destruct (List.find _ (Persistence.sessions st)) as [old|] eqn:Hfind; [discriminate|].
  rewrite (find_snoc_fresh _ _ _ Hfind). cbn [Persistence.s_id]. rewrite String.eqb_refl.
  repeat split.
  - by rewrite map_app.
  - intros other Hother.
    destruct (List.find (fun s => String.eqb (Persistence.s_id s) other)
                (Persistence.sessions st)) as [x|] eqn:Hx.
    + by rewrite (find_snoc_found _ _ _ _ Hx).
    + rewrite (find_snoc_fresh _ _ _ Hx). cbn [Persistence.s_id].
      by rewrite (proj2 (String.eqb_neq _ _)) by congruence.
Qed.

Lemma createSession_getSession_witness :
  Sessions.getSession (Sessions.createSession Samples.oneSession "s2" 7 "Second").1 "s2"
  = Some (Sessions.createSession Samples.oneSession "s2" 7 "Second").2.
Proof.
  exact (proj1 (createSession_getSession Samples.oneSession "s2" 7 "Second" eq_refl)).
Defined.

(** X11: [updateMessage(id, updates)] never adds, removes or moves a stored
    message and never changes an identifier, a session, a type or a
    timestamp; the sessions are untouched.  When no stored message has the
    identifier it fails with status 404 and writes nothing; otherwise the
    message returned carries the identifier. *)
Theorem updateMessage_frame (st : Persistence.Storage) (id : string)
    (updates : Persistence.PartialMessage) :
  let '(st', result) := Persistence.updateMessage st id updates in
  Persistence.sessions st' = Persistence.sessions st
  /\ Forall2 StorageSpec.same_identity (Persistence.messages st') (Persistence.messages st)
  /\ match result with
     | inl error =>
         st' = st
         /\ error = {| Persistence.err_message := "Message not found";
                       Persistence.err_status := Some 404%Z |}
         /\ Forall (fun m => Persistence.m_id m <> id) (Persistence.messages st)
     | inr message =>
         Persistence.id message = id
         /\ exists m, m ∈ Persistence.messages st /\ Persistence.m_id m = id
     end.
Proof.
  unfold Persistence.updateMessage.
  destruct (list_find _ (Persistence.messages st)) as [[index stored]|] eqn:Hfind.
  - apply list_find_Some in Hfind as (Hi & Hid & _).
    cbn [Persistence.sessions Persistence.setMessages Persistence.messages].
    split; [done|]. split.
    + apply (Forall2_insert_same _ _ _ stored); [by repeat split|done|by repeat split].
    + cbn [Persistence.transformMessage Persistence.id Persistence.m_id].
      split; [done|]. exists stored. split; [|done]. by eapply list_elem_of_lookup_2.
  - apply list_find_None in Hfind. split; [done|]. split.
    + apply Forall_Forall2_diag, Forall_forall. intros m _. by repeat split.
    + done.
Qed.

(** X12: [updateSession(id, {name})] on a stored session writes the name and the
    time of the update and keeps its creation time, count, last activity and
    flag; [getSession(id)] then returns what it returned, and every other
    session and all messages read as before.  On an identifier that is not
    stored it fails with status 404 and writes nothing. *)
Theorem updateSession_getSession (st : Persistence.Storage) (now : Z) (id name : string) :
  let '(st', result) :=
    Sessions.updateSession st now id {| Sessions.upd_name := Some name |} in
  match Sessions.getSession st id with
  | Some old =>
      result = inr {| Sessions.cs_id := id; Sessions.cs_name := name;
                      Sessions.cs_createdAt := Sessions.cs_createdAt old;
                      Sessions.cs_updatedAt := now;
                      Sessions.cs_messages := [];
                      Sessions.cs_metadata := Sessions.cs_metadata old |}
      /\ (exists updated, result = inr updated /\ Sessions.getSession st' id = Some updated)
      /\ Persistence.messages st' = Persistence.messages st
      /\ forall other, other <> id ->
           Sessions.getSession st' other = Sessions.getSession st other
  | None =>
      st' = st
      /\ result = inl {| Persistence.err_message := "Session not found";
                         Persistence.err_status := Some 404%Z |}
  end.
Proof.
  unfold Sessions.updateSession, Sessions.getSession.
  pose proof (find_insert (Persistence.sessions st) id) as Hfind.
  destruct (list_find _ (Persistence.sessions st)) as [[index session]|] eqn:Hlf.
  - destruct Hfind as [Hfound Hins]. rewrite Hfound.
    apply list_find_Some in Hlf as (_ & Hid & _).
    cbn [Persistence.sessions Persistence.setSessions Persistence.messages default].
    match goal with |- context [<[index := ?u]> _] => set (updated := u) end.
    destruct (Hins updated Hid) as [Hnew Hother].
    split; [|split; [|split]].
    + unfold Sessions.transformSession. cbn. by rewrite Hid.
    + exists (Sessions.transformSession updated). by rewrite Hnew.
    + done.
    + intros other Hne. by rewrite (Hother other Hne).
  - by rewrite Hfind.
Qed.

(** ** The webhook client: what the normalizer and the retry loop add up to *)

Section NormalizerMore.
Import N8N N8NSpec.
Context `{Platform}.

Lemma is_str_eq (s : string) (v : json) : is_str s v = true <-> v = JStr s.
Proof.
  destruct v; simpl; try (split; [discriminate|congruence]).
  rewrite String.eqb_eq. split; congruence.
Qed.

Lemma deduplicateContent_string (content : json) (s : string) :
  deduplicateContent content = JStr s -> Dedup.deduplicateContent s = s.
Proof.
  destruct content as [| | |s0| |]; simpl; try discriminate.
  intros [= <-].
  rewrite (deduplicateContent_kept (Dedup.deduplicateContent s0)).
  rewrite deduplicateContent_lines, keep_first_kept.
  symmetry. apply deduplicateContent_kept.
Qed.

Lemma deduplicateContent_array (content : json) (items : list json) :
  deduplicateContent content = JArr items -> content = JArr items.
Proof. destruct content; simpl; congruence. Qed.

Lemma normalize_text_deduplicated (now : Z) (data : json) (s : string) :
  messageType (normalize now data) = JStr "text" ->
  content (normalize now data) = JStr s ->
  Dedup.deduplicateContent s = s.
Proof.
  unfold normalize. destruct (fromOutput _ _ _ _) as [[content1 messageType1] type1].
  cbn [messageType content]. intros Hmt. rewrite Hmt.
  change (is_str "text" (JStr "text")) with true. cbv iota.
  apply deduplicateContent_string.
Qed.

Lemma normalize_array (now : Z) (data : json) (items : list json) :
  content (normalize now data) = JArr items ->
  messageType (normalize now data)
  = JStr (if existsb isMixedItem items then "mixed" else "json").
Proof.
  unfold normalize. destruct (fromOutput _ _ _ _) as [[content1 messageType1] type1].
  cbn [messageType content]. intros Hc.
  assert (content1 = JArr items) as ->.
  { destruct (is_str "text" _); [by apply deduplicateContent_array|done]. }
  cbn [isMixedContent isArray]. by destruct (existsb isMixedItem items).
Qed.

(** Which failure of [send] the loop reports. *)
Lemma retry_loop_throws (config : Config) (send : Z -> Outcome N8NResponse)
    (turns : list Z) (e : Exn) :
  (retry_loop config send turns).2 = Throws e ->
  (exists attempt, send attempt = Throws e)
  \/ e = N8NError "Max retry attempts reached" Kind.network NoDetails.
Proof.
  induction turns as [|attempt rest IH]; cbn [retry_loop].
  - intros [= <-]. by right.
  - destruct (send attempt) as [response|error] eqn:Hsend; [discriminate|].
    destruct error as [n m|m type d].
    + intros [= <-]. left. by exists attempt.
    + destruct type;
        try (destruct (attempt =? retryAttempts config)%Z;
             [intros [= <-]; left; by exists attempt|
              destruct (retry_loop config send rest) as [events result]; exact IH]).
      intros [= <-]. left. by exists attempt.
Qed.

Lemma sendMessage_not_validation config net now request m d :
  (forall e, settles net = Rejected e -> exists n msg, e = Error n msg) ->
  sendMessage config net now request <> Throws (N8NError m Kind.validation d).
Proof.
  intros Hplain. unfold sendMessage, sendMessage_try.
  rewrite fetch_no_signal by reflexivity.
  destruct (settles net) as [status statusText text|e] eqn:Hnet.
  - destruct (negb (ok status)); [|discriminate].
    unfold sendMessage_catch. cbn [name message].
    replace (String.eqb "N8NError" "TimeoutError") with false by reflexivity.
    replace (String.eqb "N8NError" "AbortError") with false by reflexivity.
    cbn [orb]. destruct (_ || _); discriminate.
  - destruct (Hplain e eq_refl) as (n & msg & ->).
    unfold sendMessage_catch. cbn [name message].
    destruct (_ || _); [discriminate|]. destruct (_ || _); discriminate.
Qed.

End NormalizerMore.

(** X13: Whatever object or array the webhook answers with: when the normalized
    response is of type [text] and its content a string, that string has
    already been deduplicated, so deduplicating it again changes nothing. *)
Theorem validateResponse_text_deduplicated `{Platform} (now : Z) (data : json) (s : string) :
  truthy data = true -> typeof_object data = true ->
  N8N.messageType (N8N.validateResponse now data) = JStr "text" ->
  N8N.content (N8N.validateResponse now data) = JStr s ->
  Dedup.deduplicateContent s = s.
Proof.
  intros Ht Ho. unfold N8N.validateResponse. rewrite Ht, Ho. cbn [negb orb].
  destruct (get data "type") as [ty|]; [|apply normalize_text_deduplicated].
  destruct (get data "messageType") as [mt|]; [|apply normalize_text_deduplicated].
  destruct (get data "content") as [c|]; [|apply normalize_text_deduplicated].
  destruct (truthy ty && truthy mt); [|apply normalize_text_deduplicated].
  cbn [N8N.messageType N8N.content]. intros ->.
  change (is_str "text" (JStr "text")) with true. cbv iota.
  apply deduplicateContent_string.
Qed.

Lemma validateResponse_text_deduplicated_witness :
  Dedup.deduplicateContent "Hi" = "Hi".
Proof.
  apply (validateResponse_text_deduplicated (H := Samples.platform) 0
           (JObj [("output", JStr ("Hi" +:+ Js.newline +:+ "Hi"))]));
    vm_compute; reflexivity.
Defined.

(** X14: A body that is not JSON reaches the caller as it came: [sendMessage]
    returns it as final text, with its repeated lines. *)
Theorem sendMessage_plain_text `{Platform} (config : N8N.Config) (latency now : Z)
    (request : N8N.N8NRequest) (status : Z) (statusText text : string) :
  N8N.ok status = true ->
  JSON_parse text = None ->
  N8N.sendMessage config
    {| N8N.latency := latency; N8N.settles := N8N.Response status statusText text |}
    now request
  = N8N.Returns {| N8N.type := JStr "final"; N8N.messageType := JStr "text";
                   N8N.content := JStr text; N8N.metadata := N8N.Stamped now |}.
Proof.
  intros Hok Hparse. unfold N8N.sendMessage, N8N.sendMessage_try.
  rewrite fetch_no_signal by reflexivity. cbn [N8N.settles].
  rewrite Hok, Hparse. cbn [negb].
  rewrite validateResponse_primitive; [reflexivity|]. simpl. apply orb_true_r.
Qed.

Lemma sendMessage_plain_text_witness :
  N8N.sendMessage (H := Samples.platform)
    (N8N.N8NClient {| N8N.cfg_webhookUrl := "w"; N8N.cfg_streamingUrl := "s";
                      N8N.cfg_timeout := None; N8N.cfg_retryAttempts := None;
                      N8N.cfg_retryDelay := None |})
    {| N8N.latency := 10;
       N8N.settles := N8N.Response 200 "OK" ("Hi" +:+ Js.newline +:+ "Hi") |}
    0 {| N8N.username := "user"; N8N.request_message := "Hello"; N8N.sessionId := "s1";
         N8N.timestamp := 0; N8N.messageId := None |}
  = N8N.Returns {| N8N.type := JStr "final"; N8N.messageType := JStr "text";
                   N8N.content := JStr ("Hi" +:+ Js.newline +:+ "Hi");
                   N8N.metadata := N8N.Stamped 0 |}.
Proof.
  apply (sendMessage_plain_text (H := Samples.platform)); reflexivity.
Defined.

(** X15: A body that is normalized (it does not come with its own truthy [type]
    and [messageType] and a [content]) and whose content ends up an array
    is of type [mixed] when an element is an object with a key that starts
    with [text] or [chart], and of type [json] otherwise, whatever
    [messageType] or [format] the body names. *)
Theorem validateResponse_array_type `{Platform} (now : Z) (data : json) (items : list json) :
  N8NSpec.preformatted data = false ->
  N8N.content (N8N.validateResponse now data) = JArr items ->
  N8N.messageType (N8N.validateResponse now data)
  = JStr (if existsb N8N.isMixedItem items then "mixed" else "json").
Proof.
  intros Hpre. unfold N8N.validateResponse.
  destruct (negb (truthy data) || negb (typeof_object data)); [discriminate|].
  unfold N8NSpec.preformatted in Hpre.
  destruct (get data "type") as [ty|]; [|apply normalize_array].
  destruct (get data "messageType") as [mt|]; [|apply normalize_array].
  destruct (get data "content") as [c|]; [|apply normalize_array].
  simpl in Hpre. rewrite andb_true_r in Hpre. rewrite Hpre.
  apply normalize_array.
Qed.

Lemma validateResponse_array_type_witness :
  N8N.messageType
    (N8N.validateResponse (H := Samples.platform) 0
       (JObj [("messageType", JStr "text");
              ("content", JArr [JObj [("text1", JStr "a")]])]))
  = JStr "mixed".
Proof.
  apply (validateResponse_array_type (H := Samples.platform) 0
           (JObj [("messageType", JStr "text");
                  ("content", JArr [JObj [("text1", JStr "a")]])])
           [JObj [("text1", JStr "a")]]); reflexivity.
Defined.

(** X16: [sendMessage] over a transport that rejects with plain errors never
    fails with an error of type [validation]; so [sendMessageWithRetry],
    which calls nothing else, never does either: its test for validation
    errors stops no run. *)
Theorem sendMessageWithRetry_never_validation `{Platform} (config : N8N.Config)
    (nets : Z -> N8N.Network) (clock : Z -> Z) (request : N8N.N8NRequest)
    (m : string) (d : N8N.Details) :
  (forall attempt e, N8N.settles (nets attempt) = N8N.Rejected e ->
     exists n msg, e = N8N.Error n msg) ->
  (N8N.sendMessageWithRetry config
     (fun attempt => N8N.sendMessage config (nets attempt) (clock attempt) request)).2
  <> N8N.Throws (N8N.N8NError m N8N.Kind.validation d).
Proof.
  intros Hplain Hthrows. apply retry_loop_throws in Hthrows as [[attempt Hsend]|Hmax].
  - revert Hsend. apply sendMessage_not_validation. apply Hplain.
  - discriminate.
Qed.

Lemma sendMessageWithRetry_never_validation_witness :
  (N8N.sendMessageWithRetry
     (N8N.N8NClient {| N8N.cfg_webhookUrl := "w"; N8N.cfg_streamingUrl := "s";
                       N8N.cfg_timeout := None; N8N.cfg_retryAttempts := None;
                       N8N.cfg_retryDelay := None |})
     (fun attempt =>
        N8N.sendMessage (H := Samples.platform)
          (N8N.N8NClient {| N8N.cfg_webhookUrl := "w"; N8N.cfg_streamingUrl := "s";
                            N8N.cfg_timeout := None; N8N.cfg_retryAttempts := None;
                            N8N.cfg_retryDelay := None |})
          {| N8N.latency := 10; N8N.settles := N8N.Response 500 "Internal Server Error" "" |}
          attempt
          {| N8N.username := "user"; N8N.request_message := "Hello"; N8N.sessionId := "s1";
             N8N.timestamp := 0; N8N.messageId := None |})).2
  <> N8N.Throws (N8N.N8NError "Invalid" N8N.Kind.validation N8N.NoDetails).
Proof.
  apply (sendMessageWithRetry_never_validation (H := Samples.platform) _
           (fun _ => {| N8N.latency := 10;
                        N8N.settles := N8N.Response 500 "Internal Server Error" "" |})
           (fun attempt => attempt)).
  intros attempt e He. discriminate He.
Defined.

(** X17: A transport error that is not a timeout and whose message mentions
    neither [fetch] nor [network] is rethrown as it is, a plain error; the
    retry loop retries only [N8NError]s, so [sendMessageWithRetry] gives up
    after one call, without waiting. *)
Theorem sendMessageWithRetry_plain_error_not_retried `{Platform} (config : N8N.Config)
    (nets : Z -> N8N.Network) (clock : Z -> Z) (request : N8N.N8NRequest)
    (n msg : string) :
  (1 <= N8N.retryAttempts config)%Z ->
  N8N.settles (nets 1%Z) = N8N.Rejected (N8N.Error n msg) ->
  n <> "TimeoutError" -> n <> "AbortError" ->
  Js.includes msg "fetch" = false -> Js.includes msg "network" = false ->
  N8N.sendMessageWithRetry config
    (fun attempt => N8N.sendMessage config (nets attempt) (clock attempt) request)
  = ([N8N.Call 1], N8N.Throws (N8N.Error n msg)).
Proof.
  intros Hattempts Hnet Hn1 Hn2 Hf Hw.
  unfold N8N.sendMessageWithRetry, N8N.attempts.
  destruct (Z.to_nat (N8N.retryAttempts config)) as [|k] eqn:Hk; [lia|].
  cbn [seq map N8N.retry_loop]. change (Z.of_nat 1) with 1%Z.
  destruct (nets 1%Z) as [latency settles] eqn:Hnets. cbn [N8N.settles] in Hnet. subst settles.
  rewrite sendMessage_transport_error by done. rewrite Hf, Hw. reflexivity.
Qed.

Lemma sendMessageWithRetry_plain_error_not_retried_witness :
  N8N.sendMessageWithRetry
    (N8N.N8NClient {| N8N.cfg_webhookUrl := "w"; N8N.cfg_streamingUrl := "s";
                      N8N.cfg_timeout := None; N8N.cfg_retryAttempts := None;
                      N8N.cfg_retryDelay := None |})
    (fun attempt =>
       N8N.sendMessage (H := Samples.platform)
         (N8N.N8NClient {| N8N.cfg_webhookUrl := "w"; N8N.cfg_streamingUrl := "s";
                           N8N.cfg_timeout := None; N8N.cfg_retryAttempts := None;
                           N8N.cfg_retryDelay := None |})
         {| N8N.latency := 10; N8N.settles := N8N.Rejected (N8N.Error "TypeError" "Load failed") |}
         attempt
         {| N8N.username := "user"; N8N.request_message := "Hello"; N8N.sessionId := "s1";
            N8N.timestamp := 0; N8N.messageId := None |})
  = ([N8N.Call 1], N8N.Throws (N8N.Error "TypeError" "Load failed")).
Proof.
  apply (sendMessageWithRetry_plain_error_not_retried (H := Samples.platform) _
           (fun _ => {| N8N.latency := 10;
                        N8N.settles := N8N.Rejected (N8N.Error "TypeError" "Load failed") |})
           (fun attempt => attempt));
    try reflexivity; try discriminate.
Defined.

(** ** The persistence client against the remote service *)

(** X18: Unlike the webhook client, the persistence client enforces its timeout:
    a request that the service has not answered within the configured time
    (10 seconds when none is configured) fails with "Request timeout", and
    [getSession] then answers from local storage. *)
Theorem request_timeout (config : Client.MockAPIConfig)
    (net : Remote.Network Persistence.MockAPISession) (st : Persistence.Storage)
    (id : string) :
  Client.useFallback config = false ->
  (Remote.timeoutOf config <= Remote.latency net)%Z ->
  Remote.request config net
  = inl {| Persistence.err_message := "Request timeout"; Persistence.err_status := None |}
  /\ Remote.getSession config net st id = Sessions.getSession st id.
Proof.
  intros Hremote Hlate.
  assert (Remote.request config net
          = inl {| Persistence.err_message := "Request timeout";
                   Persistence.err_status := None |}) as Hreq.
  { unfold Remote.request, Remote.fetch. rewrite Hremote.
    by rewrite (proj2 (Z.leb_le _ _) Hlate). }
  split; [exact Hreq|].
  unfold Remote.getSession. rewrite Hremote, Hreq. cbn [Persistence.err_status].
  by rewrite decide_False.
Qed.

Lemma request_timeout_witness :
  Remote.getSession Samples.remoteConfig
    {| Remote.latency := 10000;
       Remote.settles := Remote.Response 404 "Not Found" (inl (Remote.Build_JsError "" "")) |}
    Samples.oneSession "s1"
  = Sessions.getSession Samples.oneSession "s1".
Proof.
  refine (proj2 (request_timeout Samples.remoteConfig _ Samples.oneSession "s1" _ _)).
  - reflexivity.
  - vm_compute. discriminate.
Defined.

(** X19: When the service answers in time with a status outside 2xx,
    [getSession] returns [null] for status 404, whatever local storage
    holds under the identifier, and answers from local storage for every
    other status. *)
Theorem getSession_remote_status (config : Client.MockAPIConfig)
    (net : Remote.Network Persistence.MockAPISession) (st : Persistence.Storage)
    (id : string) (status : Z) (statusText : string)
    (body : Remote.JsError + Persistence.MockAPISession) :
  Client.useFallback config = false ->
  (Remote.latency net < Remote.timeoutOf config)%Z ->
  Remote.settles net = Remote.Response status statusText body ->
  N8N.ok status = false ->
  Remote.getSession config net st id
  = if (status =? 404)%Z then None else Sessions.getSession st id.
Proof.
  intros Hremote Hintime Hnet Hok.
  unfold Remote.getSession, Remote.request, Remote.fetch.
  rewrite Hremote, (proj2 (Z.leb_gt _ _) Hintime), Hnet, Hok.
  cbn [negb Persistence.err_status].
  destruct (Z.eqb_spec status 404) as [->|Hne].
  - by rewrite decide_True.
  - rewrite decide_False; [done|]. congruence.
Qed.

Lemma getSession_remote_status_witness :
  Remote.getSession Samples.remoteConfig
    {| Remote.latency := 10;
       Remote.settles := Remote.Response 404 "Not Found" (inl (Remote.Build_JsError "" "")) |}
    Samples.oneSession "s1"
  = None
  /\ Sessions.getSession Samples.oneSession "s1" <> None.
Proof.
  split.
  - apply (getSession_remote_status Samples.remoteConfig _ Samples.oneSession "s1"
             404 "Not Found" (inl (Remote.Build_JsError "" ""))); reflexivity.
  - discriminate.
Defined.

(** ** The chat state store: release of the guard, order of the requests,
       validity of the selection *)

Section StoreMore.
Import ChatStore ChatStoreSpec SessionStore StoreSpec.


Lemma guarded_one st : guarded st -> waiting st = [] \/ exists w, waiting st = [w].
Proof.
  intros [_ Hlen]. destruct (waiting st) as [|w [|w' ws]]; [by left|right; by exists w|].
  simpl in Hlen. lia.
Qed.




(** The chat requests after one more request. *)
Lemma inProtocol_snoc (rs : list Request) (r : Request) :
  inProtocol rs -> follows (last rs) r = true -> inProtocol (rs ++ [r]).
Proof.
  intros Hrs Hr pre x post Heq.
  destruct post as [|y post _] using rev_ind.
  - apply app_inj_tail in Heq as [<- <-]. exact Hr.
  - rewrite app_comm_cons, app_assoc in Heq. apply app_inj_tail in Heq as [Heq _].
    by apply (Hrs pre x post).
Qed.

Lemma inProtocol_nil : inProtocol [].
Proof. intros pre r post Heq. by destruct pre. Qed.

Lemma filter_snoc {A : Type} (f : A -> bool) (l : list A) (x : A) :
  List.filter f (l ++ [x]) = List.filter f l ++ (if f x then [x] else []).
Proof. by rewrite List.filter_app. Qed.

Lemma orderly_loaded sessions_ current : orderly (loaded sessions_ current).
Proof. split; [apply guarded_loaded|]. split; [apply inProtocol_nil|exact I]. Qed.

Lemma orderly_sendMessage st content now : orderly st -> orderly (sendMessage st content now).
Proof.
  intros (Hg & Hp & Hl). split; [by apply guarded_sendMessage|].
  unfold sendMessage. destruct (selected st) as [sessionId|]; [|by split].
  destruct (sendingMessageRef st) eqn:Href; [by split|].
  assert (waiting st = []) as Hw.
  { destruct (guarded_one st Hg) as [Hw|[w Hw]]; [done|].
    destruct Hg as [Hflag _]. rewrite Hw in Hflag.
    assert (sendingMessageRef st = true) by (by apply Hflag). congruence. }
  unfold lastRequested, chatRequests. cbn [requests waiting]. rewrite Hw, filter_snoc.
  cbn [app]. split.
  - apply inProtocol_snoc; [exact Hp|]. reflexivity.
  - eexists. rewrite last_snoc. by repeat split.
Qed.

Lemma orderly_resume st w s now :
  orderly st -> waiting st = [w] -> orderly (resume st w [] s now).
Proof.
  intros (Hg & Hp & Hl) Hw. split; [by apply guarded_resume|].
  unfold lastRequested in Hl. rewrite Hw in Hl.
  unfold lastRequested, chatRequests in *.
  destruct w as [sessionId content tempMessageId|sessionId|sessionId], s;
    cbn [resume sendMessage_catch requests waiting app]; try (split; [exact Hp|exact I]).
  - destruct Hl as (m & Hlast & Hty & Hc & Hs).
    rewrite filter_snoc. cbn [app]. split.
    + apply inProtocol_snoc; [exact Hp|]. rewrite Hlast. cbn [follows N8N.request_message N8N.sessionId].
      rewrite bool_decide_true by done. rewrite Hc, Hs, !String.eqb_refl. reflexivity.
    + eexists. rewrite last_snoc. by split.
  - destruct Hl as (q & Hlast & Hs).
    rewrite filter_snoc. cbn [app]. split; [|exact I].
    apply inProtocol_snoc; [exact Hp|]. rewrite Hlast. cbn [follows new_type new_sessionId].
    rewrite bool_decide_true by done. rewrite Hs. apply String.eqb_refl.
Qed.

Lemma orderly_step st e : orderly st -> orderly (step st e).
Proof.
  intros Ho. destruct e as [content now|k s now|sessionId]; cbn [step].
  - by apply orderly_sendMessage.
  - destruct (waiting st !! k) as [w|] eqn:Hk; [|done].
    destruct (guarded_one st (proj1 Ho)) as [Hw|[w0 Hw]]; rewrite Hw in Hk.
    + discriminate.
    + destruct k as [|k]; [|discriminate]. injection Hk as ->. rewrite Hw.
      change (delete 0 [w]) with (@nil Waiting). by apply orderly_resume.
  - destruct Ho as (Hg & Hp & Hl). split; [exact Hg|].
    unfold lastRequested, chatRequests, sessionDeleted in *.
    cbn [requests waiting]. rewrite filter_snoc. cbn [app]. rewrite app_nil_r. by split.
Qed.

Lemma orderly_run events : forall st, orderly st -> orderly (run st events).
Proof.
  induction events as [|e events IH]; intros st Ho; [done|].
  apply IH. by apply orderly_step.
Qed.

(** The selection under each action. *)
Lemma validSelection_map (f : ChatSession -> ChatSession) (ss : list ChatSession) :
  (forall s, session_id (f s) = session_id s) ->
  map session_id (map f ss) = map session_id ss.
Proof. intros Hf. rewrite map_map. apply map_ext. exact Hf. Qed.

Lemma validSelection_step st e : validSelection st -> validSelection (step st e).
Proof.
  intros Hv. destruct e as [content now|k s now|sessionId]; cbn [step].
  - unfold sendMessage. destruct (selected st); [|exact Hv].
    by destruct (sendingMessageRef st).
  - destruct (waiting st !! k) as [w|]; [|done].
    unfold validSelection in *.
    destruct w, s; cbn [resume sendMessage_catch currentSessionId sessions]; try exact Hv.
    rewrite validSelection_map; [exact Hv|]. intros x. by destruct (String.eqb _ _).
  - unfold validSelection, sessionDeleted in *. cbn [currentSessionId sessions].
    destruct (currentSessionId st) as [current|]; [|done].
    destruct (String.eqb current sessionId) eqn:Heq.
    + destruct (List.filter _ (sessions st)) as [|x xs]; [done|]. cbn. left.
    + apply String.eqb_neq in Heq.
      apply list_elem_of_fmap in Hv as (x & -> & Hx).
      apply list_elem_of_fmap. exists x. split; [done|].
      apply list_elem_of_In, List.filter_In. split; [by apply list_elem_of_In|].
      by apply negb_true_iff, String.eqb_neq.
Qed.

Lemma validSelection_sessionsLoaded st sessions_ saved :
  validSelection (sessionsLoaded st sessions_ saved).
Proof.
  unfold validSelection, sessionsLoaded. cbn [currentSessionId sessions].
  destruct saved as [saved|].
  - destruct (negb (String.eqb saved "")); cbn [andb].
    + destruct (bool_decide _) eqn:Hfound.
      * apply bool_decide_eq_true in Hfound as [x Hx].
        apply List.find_some in Hx as [Hx Heq]. apply String.eqb_eq in Heq.
        apply list_elem_of_fmap. exists x. split; [done|by apply list_elem_of_In].
      * destruct sessions_ as [|x xs]; [done|]. cbn. left.
    + destruct sessions_ as [|x xs]; [done|]. cbn. left.
  - destruct sessions_ as [|x xs]; [done|]. cbn. left.
Qed.

Lemma validSelection_act st a : validSelection st -> validSelection (act st a).
Proof.
  intros Hv. destruct a as [e| |errorMessage|sessions_ saved|session]; cbn [act].
  - by apply validSelection_step.
  - exact Hv.
  - exact Hv.
  - apply validSelection_sessionsLoaded.
  - unfold validSelection, sessionCreated. cbn. left.
Qed.

Lemma validSelection_perform actions : forall st,
  validSelection st -> validSelection (perform st actions).
Proof.
  induction actions as [|a actions IH]; intros st Hv; [done|].
  apply IH. by apply validSelection_act.
Qed.

End StoreMore.


(** X21: In every state the provider reaches, the requests it has made of its
    clients are in order: each call of the webhook comes right after the
    request to store a user message with the same content and session, and
    each request to store an assistant message right after a call of the
    webhook for the same session (requests to delete a session aside). *)
Theorem requests_in_protocol (sessions_ : list ChatStore.ChatSession)
    (current : option string) (events : list ChatStore.Event) :
  StoreSpec.inProtocol
    (StoreSpec.chatRequests (ChatStore.run (ChatStore.loaded sessions_ current) events)).
Proof. apply orderly_run, orderly_loaded. Qed.

(** X22: From the moment the provider is mounted, through sessions loaded and
    created, messages sent, settled and failed, and sessions deleted, the
    selected session is always one of the sessions listed (or none is
    selected); in particular a saved selection that is not among the loaded
    sessions is never taken over. *)
Theorem selection_always_listed (actions : list SessionStore.Action) :
  StoreSpec.validSelection (SessionStore.perform SessionStore.mounted actions).
Proof. by apply validSelection_perform. Qed.

(** X23: The two validators of session names agree on every name: the
    minimum-length message of the hook is never returned, since a name that
    is not blank has at least one character. *)
Theorem validateSessionName_agree (name : string) :
  UseSession.validateSessionName name = MockAPIUtils.validateSessionName name.
Proof.
  unfold UseSession.validateSessionName, MockAPIUtils.validateSessionName.
  destruct (String.eqb (Js.trim name) "") eqn:Hblank; [reflexivity|].
  unfold UseSession.nameMaxLength, UseSession.nameMinLength.
  destruct (100 <? Z.of_nat (String.length name))%Z; [reflexivity|].
  destruct name as [|c name]; [discriminate Hblank|].
  cbn [String.length]. by rewrite (proj2 (Z.ltb_ge _ _)) by lia.
Qed.

(** ** The status route *)

Section StatusProofs.
Import StatusRoute.
Context `{Platform}.

Lemma POST_strings (thinkingStatus : gmap string Entry) (body : json)
    (sessionId messageId : string) (now1 now2 : Z) :
  get body "sessionId" = Some (JStr sessionId) ->
  get body "messageId" = Some (JStr messageId) ->
  sessionId <> "" -> messageId <> "" ->
  POST thinkingStatus (Some body) now1 now2
  = (filter (fun kv => ~ (e_timestamp kv.2 < now2 - 5 * 60 * 1000)%Z)
       (<[paramKey sessionId messageId :=
            {| e_sessionId := JStr sessionId; e_messageId := JStr messageId;
               e_status := get body "status"; e_message := get body "message";
               e_type := default (JStr "thinking") (get body "type");
               e_timestamp := now1 |}]> thinkingStatus),
     Success).
Proof.
  intros Hs Hm Hsne Hmne. unfold POST.
  destruct body; try discriminate Hs. rewrite Hs, Hm. cbn [truthy].
  apply String.eqb_neq in Hsne, Hmne. rewrite Hsne, Hmne. reflexivity.
Qed.

Lemma GET_strings (thinkingStatus : gmap string Entry) (sessionId messageId : string) :
  sessionId <> "" -> messageId <> "" ->
  GET thinkingStatus (Some sessionId) (Some messageId)
  = Status (thinkingStatus !! paramKey sessionId messageId).
Proof.
  intros Hsne Hmne. unfold GET.
  apply String.eqb_neq in Hsne, Hmne. by rewrite Hsne, Hmne.
Qed.

End StatusProofs.

(** X24: A status posted for a session and a message (two non-empty strings) is
    what [GET] returns for them right after, with the type [thinking] when
    the body names none, provided the two readings of the clock in [POST]
    are less than five minutes apart; after [DELETE] for them, [GET]
    returns [null]. *)
Theorem status_round_trip `{Platform} (thinkingStatus : gmap string StatusRoute.Entry)
    (body : json) (sessionId messageId : string) (now1 now2 : Z) :
  get body "sessionId" = Some (JStr sessionId) ->
  get body "messageId" = Some (JStr messageId) ->
  sessionId <> "" -> messageId <> "" ->
  (now2 - 5 * 60 * 1000 <= now1)%Z ->
  let '(stored, reply) := StatusRoute.POST thinkingStatus (Some body) now1 now2 in
  reply = StatusRoute.Success
  /\ StatusRoute.GET stored (Some sessionId) (Some messageId)
     = StatusRoute.Status (Some
         {| StatusRoute.e_sessionId := JStr sessionId;
            StatusRoute.e_messageId := JStr messageId;
            StatusRoute.e_status := get body "status";
            StatusRoute.e_message := get body "message";
            StatusRoute.e_type := default (JStr "thinking") (get body "type");
            StatusRoute.e_timestamp := now1 |})
  /\ StatusRoute.GET (StatusRoute.DELETE stored (Some sessionId) (Some messageId)).1
       (Some sessionId) (Some messageId)
     = StatusRoute.Status None.
Proof.
  intros Hs Hm Hsne Hmne Hclock.
  rewrite (POST_strings _ _ sessionId messageId) by done.
  split; [reflexivity|]. split.
  - rewrite GET_strings by done. f_equal.
    apply map_lookup_filter_Some. split; [apply lookup_insert_eq|].
    cbn [snd StatusRoute.e_timestamp]. lia.
  - unfold StatusRoute.DELETE.
    rewrite (proj2 (String.eqb_neq _ _) Hsne), (proj2 (String.eqb_neq _ _) Hmne).
    cbn [orb fst]. rewrite GET_strings by done. f_equal. apply lookup_delete_eq.
Qed.

Lemma status_round_trip_witness :
  StatusRoute.GET
    (StatusRoute.POST (H := Samples.platform) ∅
       (Some (JObj [("sessionId", JStr "s1"); ("messageId", JStr "temp-1");
                    ("status", JStr "Searching")])) 1000 1001).1
    (Some "s1") (Some "temp-1")
  = StatusRoute.Status (Some
      {| StatusRoute.e_sessionId := JStr "s1"; StatusRoute.e_messageId := JStr "temp-1";
         StatusRoute.e_status := Some (JStr "Searching"); StatusRoute.e_message := None;
         StatusRoute.e_type := JStr "thinking"; StatusRoute.e_timestamp := 1000 |}).
Proof.
  pose proof (status_round_trip (H := Samples.platform) ∅
    (JObj [("sessionId", JStr "s1"); ("messageId", JStr "temp-1");
           ("status", JStr "Searching")]) "s1" "temp-1" 1000 1001
    eq_refl eq_refl) as Hrt.
  destruct (StatusRoute.POST _ _ _ _) as [stored reply].
  apply Hrt; [discriminate|discriminate|lia].
Defined.

(** X25: Right after a successful [POST] the map holds no record older than five
    minutes (by the clock of that call), and it still holds every record
    under another key that was not older. *)
Theorem status_purged `{Platform} (thinkingStatus : gmap string StatusRoute.Entry)
    (body : json) (sessionId messageId : json) (now1 now2 : Z) :
  get body "sessionId" = Some sessionId -> get body "messageId" = Some messageId ->
  (StatusRoute.POST thinkingStatus (Some body) now1 now2).2 = StatusRoute.Success ->
  let stored := (StatusRoute.POST thinkingStatus (Some body) now1 now2).1 in
  map_Forall (fun _ entry => (now2 - 5 * 60 * 1000 <= StatusRoute.e_timestamp entry)%Z) stored
  /\ forall k entry,
       k <> StatusRoute.key sessionId messageId ->
       thinkingStatus !! k = Some entry ->
       (now2 - 5 * 60 * 1000 <= StatusRoute.e_timestamp entry)%Z ->
       stored !! k = Some entry.
Proof.
  intros Hs Hm. unfold StatusRoute.POST.
  destruct body; try discriminate Hs. rewrite Hs, Hm.
  destruct (negb (truthy sessionId) || negb (truthy messageId)); [discriminate|].
  intros _. cbn [fst]. split.
  - intros k entry Hk. apply map_lookup_filter_Some in Hk as [_ Hk].
    cbn [snd] in Hk. lia.
  - intros k entry Hne Hk Hfresh. apply map_lookup_filter_Some. split.
    + by rewrite lookup_insert_ne.
    + cbn [snd]. lia.
Qed.

Lemma status_purged_witness :
  map_Forall (fun _ entry => (400000 - 5 * 60 * 1000 <= StatusRoute.e_timestamp entry)%Z)
    (StatusRoute.POST (H := Samples.platform)
       {[ "s1-old" := {| StatusRoute.e_sessionId := JStr "s1";
                         StatusRoute.e_messageId := JStr "old";
                         StatusRoute.e_status := None; StatusRoute.e_message := None;
                         StatusRoute.e_type := JStr "thinking";
                         StatusRoute.e_timestamp := 0 |} ]}
       (Some (JObj [("sessionId", JStr "s1"); ("messageId", JStr "new")]))
       400000 400000).1.
Proof.
  apply (status_purged (H := Samples.platform) _
           (JObj [("sessionId", JStr "s1"); ("messageId", JStr "new")])
           (JStr "s1") (JStr "new") 400000 400000); reflexivity.
Defined.

(** X26: The map is keyed by the two identifiers joined with a dash, so two
    different pairs can share a record: a status posted for the session
    [a-b] and the message [c] is returned by [GET] for the session [a] and
    the message [b-c]. *)
Theorem status_key_shared `{Platform} (thinkingStatus : gmap string StatusRoute.Entry)
    (body : json) (a b c : string) (now1 now2 : Z) :
  get body "sessionId" = Some (JStr (a +:+ "-" +:+ b)) ->
  get body "messageId" = Some (JStr c) ->
  a <> "" -> c <> "" ->
  (now2 - 5 * 60 * 1000 <= now1)%Z ->
  exists entry,
    StatusRoute.GET (StatusRoute.POST thinkingStatus (Some body) now1 now2).1
      (Some a) (Some (b +:+ "-" +:+ c))
    = StatusRoute.Status (Some entry)
    /\ StatusRoute.e_sessionId entry = JStr (a +:+ "-" +:+ b)
    /\ StatusRoute.e_messageId entry = JStr c.
Proof.
  intros Hs Hm Ha Hc Hclock.
  assert (a +:+ "-" +:+ b <> "") as Hab by (destruct a; [done|discriminate]).
  assert (b +:+ "-" +:+ c <> "") as Hbc by (destruct b; discriminate).
  rewrite (POST_strings _ _ (a +:+ "-" +:+ b) c) by done. cbn [fst].
  rewrite GET_strings by done. eexists. split.
  - f_equal. apply map_lookup_filter_Some. split.
    + replace (StatusRoute.paramKey a (b +:+ "-" +:+ c))
        with (StatusRoute.paramKey (a +:+ "-" +:+ b) c); [apply lookup_insert_eq|].
      unfold StatusRoute.paramKey. by rewrite !append_assoc.
    + cbn [snd StatusRoute.e_timestamp]. lia.
  - split; reflexivity.
Qed.

Lemma status_key_shared_witness :
  exists entry,
    StatusRoute.GET
      (StatusRoute.POST (H := Samples.platform) ∅
         (Some (JObj [("sessionId", JStr ("a" +:+ "-" +:+ "b")); ("messageId", JStr "c")]))
         0 0).1
      (Some "a") (Some ("b" +:+ "-" +:+ "c"))
    = StatusRoute.Status (Some entry)
    /\ StatusRoute.e_sessionId entry = JStr ("a" +:+ "-" +:+ "b")
    /\ StatusRoute.e_messageId entry = JStr "c".
Proof.
  apply (status_key_shared (H := Samples.platform) ∅
           (JObj [("sessionId", JStr ("a" +:+ "-" +:+ "b")); ("messageId", JStr "c")])
           "a" "b" "c" 0 0); try reflexivity; try discriminate.
Defined.

(** ** Dates of sessions *)

Section DateProofs.
Import DateUtils.
Context {T : Type} (lastActivity : T -> Z).

Lemma push_concat (groups : list (string * list T)) (category : string) (session : T) :
  concat (map snd (push groups category session)) ≡ₚ session :: concat (map snd groups).
Proof.
  induction groups as [|[c group] rest IH]; cbn [push]; [done|].
  destruct (String.eqb c category); cbn [map concat snd].
  - rewrite <- app_assoc. cbn [app].
    rewrite <- Permutation_middle. done.
  - rewrite IH. by rewrite Permutation_middle.
Qed.

Lemma push_keys (groups : list (string * list T)) (category : string) (session : T) :
  map fst (push groups category session)
  = if bool_decide (category ∈ map fst groups) then map fst groups
    else map fst groups ++ [category].
Proof.
  induction groups as [|[c group] rest IH]; cbn [push]; [done|].
  destruct (String.eqb c category) eqn:Hc; cbn [map fst].
  - apply String.eqb_eq in Hc as ->. rewrite bool_decide_true; [done|]. left.
  - rewrite IH. apply String.eqb_neq in Hc.
    destruct (bool_decide (category ∈ map fst rest)) eqn:Hin.
    + apply bool_decide_eq_true in Hin. rewrite bool_decide_true; [done|]. by right.
    + apply bool_decide_eq_false in Hin. rewrite bool_decide_false; [done|].
      intros [Heq|Hr]%elem_of_cons; [congruence|done].
Qed.

Lemma push_groups (done : list T) (groups : list (string * list T))
    (category : string) (session : T) :
  Forall (fun g => g.2 <> [] /\ sublist g.2 done) groups ->
  Forall (fun g => g.2 <> [] /\ sublist g.2 (done ++ [session]))
    (push groups category session).
Proof.
  induction groups as [|[c group] rest IH]; intros Hall; cbn [push].
  - repeat constructor; cbn; [discriminate|]. apply sublist_inserts_l. done.
  - apply Forall_cons_1 in Hall as [[Hne Hsub] Hrest].
    destruct (String.eqb c category).
    + constructor; cbn [snd].
      * split; [by destruct group|]. by apply sublist_app.
      * eapply Forall_impl; [exact Hrest|]. intros g [H1 H2]. split; [done|].
        by apply sublist_inserts_r.
    + constructor; cbn [snd].
      * split; [done|]. by apply sublist_inserts_r.
      * by apply IH.
Qed.

Lemma push_grouped (done : list T) (groups : list (string * list T))
    (category : string) (session : T) :
  grouped done groups -> grouped (done ++ [session]) (push groups category session).
Proof.
  intros (Hperm & Hnd & Hall). split; [|split].
  - rewrite push_concat, Hperm. by rewrite Permutation_cons_append.
  - rewrite push_keys. destruct (bool_decide _) eqn:Hin; [done|].
    apply bool_decide_eq_false in Hin. apply NoDup_app. split; [done|].
    split; [|apply NoDup_singleton].
    intros x Hx Hx'. apply list_elem_of_singleton in Hx'. by subst.
  - by apply push_groups.
Qed.

Lemma groupLoop_grouped (env : nat -> Env) (sorted : list T) : forall k done groups,
  grouped done groups ->
  grouped (done ++ sorted) (groupLoop lastActivity env k sorted groups).
Proof.
  induction sorted as [|session rest IH]; intros k done groups Hg; cbn [groupLoop].
  - by rewrite app_nil_r.
  - replace (done ++ session :: rest) with ((done ++ [session]) ++ rest)
      by (by rewrite <- app_assoc).
    apply IH. by apply push_grouped.
Qed.

Lemma sortSessionsByActivity_sorted (sessions : list T) :
  StronglySorted (recentFirst lastActivity) (sortSessionsByActivity lastActivity sessions).
Proof.
  unfold sortSessionsByActivity.
  eapply (StronglySorted_impl _ _ (fun _ => True)); cycle 1.
  - rewrite Forall_forall. done.
  - apply (sort_sorted _ (fun _ => True)); [intros; lia|intros; lia|].
    rewrite Forall_forall. done.
  - intros a b _ _ Hab. unfold recentFirst. cbv beta in Hab. lia.
Qed.

End DateProofs.

(** X27: [sortSessionsByActivity] returns the sessions it was given, each as
    often as it was given, the most recently active first. *)
Theorem sortSessionsByActivity_recent_first {T : Type} (lastActivity : T -> Z)
    (sessions : list T) :
  DateUtils.sortSessionsByActivity lastActivity sessions ≡ₚ sessions
  /\ StronglySorted (DateUtils.recentFirst lastActivity)
       (DateUtils.sortSessionsByActivity lastActivity sessions).
Proof. split; [apply sort_Permutation|apply sortSessionsByActivity_sorted]. Qed.

(** X28: [groupSessionsByTime] puts every session into exactly one group: the
    groups together hold the sessions given, each as often as given; no
    category appears twice, no group is empty, and within each group the
    most recently active session comes first. *)
Theorem groupSessionsByTime_partition {T : Type} (lastActivity : T -> Z)
    (env : nat -> DateUtils.Env) (sessions : list T) :
  let groups := DateUtils.groupSessionsByTime lastActivity env sessions in
  concat (map snd groups) ≡ₚ sessions
  /\ NoDup (map fst groups)
  /\ Forall (fun g => g.2 <> [] /\ StronglySorted (DateUtils.recentFirst lastActivity) g.2)
       groups.
Proof.
  cbv zeta. unfold DateUtils.groupSessionsByTime.
  destruct (groupLoop_grouped lastActivity env
              (DateUtils.sortSessionsByActivity lastActivity sessions) 0 [] [])
    as (Hperm & Hnd & Hall).
  { split; [done|]. split; constructor. }
  cbn [app] in *. split; [|split; [exact Hnd|]].
  - rewrite Hperm. apply sort_Permutation.
  - eapply Forall_impl; [exact Hall|]. intros g [Hne Hsub]. split; [done|].
    eapply StronglySorted_sublist; [exact Hsub|]. apply sortSessionsByActivity_sorted.
Qed.

(** X29: With a clock that does not run backwards, [getSessionActivityStatus] is
    [active] exactly for an activity less than 24 hours old (a date in the
    future included), [recent] only for one at least 24 hours and less than
    seven days old, and [old] only for one at least seven days old. *)
Theorem getSessionActivityStatus_ages (now1 now2 lastActivity : Z) :
  (now1 <= now2)%Z ->
  let status := DateUtils.getSessionActivityStatus now1 now2 lastActivity in
  (status = "active" <-> (now1 - lastActivity < 24 * DateUtils.hour)%Z)
  /\ (status = "recent" ->
        (DateUtils.day <= now2 - lastActivity < 7 * DateUtils.day)%Z)
  /\ (status = "old" -> (7 * DateUtils.day <= now2 - lastActivity)%Z)
  /\ (status = "active" \/ status = "recent" \/ status = "old").
Proof.
  intros Hclock. cbv zeta.
  unfold DateUtils.getSessionActivityStatus, DateUtils.isWithin24Hours,
    DateUtils.hour, DateUtils.day.
  change (24 * (1000 * 60 * 60))%Z with 86400000%Z.
  change (1000 * 60 * 60 * 24)%Z with 86400000%Z.
  pose proof (Z.div_mod (now2 - lastActivity) 86400000 ltac:(lia)) as Hdiv.
  pose proof (Z.mod_pos_bound (now2 - lastActivity) 86400000 ltac:(lia)) as Hmod.
  destruct (Z.ltb_spec (now1 - lastActivity) 86400000) as [Hlt|Hge].
  - repeat split; try done. by left.
  - destruct (Z.ltb_spec ((now2 - lastActivity) / 86400000) 7) as [Hd|Hd].
    + split; [split; [discriminate|lia]|]. split; [|split; [discriminate|by right; left]].
      intros _. lia.
    + split; [split; [discriminate|lia]|]. split; [discriminate|].
      split; [|by right; right]. intros _. lia.
Qed.

Lemma getSessionActivityStatus_ages_witness :
  DateUtils.getSessionActivityStatus 90000000 90000000 0 = "recent"
  /\ (DateUtils.day <= 90000000 - 0 < 7 * DateUtils.day)%Z.
Proof.
  split; [reflexivity|].
  apply (getSessionActivityStatus_ages 90000000 90000000 0); [lia|reflexivity].
Defined.

(** ** The chart adapter and the validation of the chart renderer *)

Section ChartMore.
Import Chart.
Context `{Platform}.

Lemma axisKeys_cases (type_ : string) (dataArray : DataArray) (xKey_ yKey_ : string) :
  axisKeys type_ dataArray = Normal (xKey_, yKey_) ->
  (xKey_, yKey_) = ("name", "value")
  \/ (type_ = "scatter" /\ (xKey_, yKey_) = ("x", "y")).
Proof.
  unfold axisKeys. destruct dataArray as [v|rows]; [|intros [= <- <-]; by left].
  destruct (length_gt_0 v); [|intros [= <- <-]; by left].
  destruct (String.eqb type_ "scatter") eqn:Hs; [|intros [= <- <-]; by left].
  apply String.eqb_eq in Hs.
  destruct (index v 0) as [[]|]; try discriminate;
    match goal with
    | |- context [get ?f "x"] =>
        destruct (get f "x"); [destruct (get f "y")|];
        intros [= <- <-]; (by left) || (right; by split)
    end.
Qed.

End ChartMore.

(** X30: Every chart model [transformChartData] returns has one of the five chart
    types, so the renderer's validation never reports an invalid type for
    it: it accepts the model or reports a fault of its data.  The model's
    axes are [name] and [value], or [x] and [y] for a scatter chart only,
    and its options begin with the defaults. *)
Theorem transformChartData_validated `{Platform} (chartConfig : option json)
    (chartData : Chart.ChartData) :
  Chart.transformChartData chartConfig = Chart.Normal (Some chartData) ->
  in_strings Chart.chartTypes (JStr (Chart.type chartData)) = true
  /\ (Chart.validateChartData chartData = None
      \/ Chart.validateChartData chartData = Some "Chart data must be a non-empty array"
      \/ Chart.validateChartData chartData = Some "All chart data items must be objects")
  /\ ((Chart.xKey chartData, Chart.yKey chartData) = ("name", "value")
      \/ (Chart.type chartData = "scatter"
          /\ (Chart.xKey chartData, Chart.yKey chartData) = ("x", "y")))
  /\ exists given, Chart.options chartData = Chart.defaultOptions ++ given.
Proof.
  unfold Chart.transformChartData.
  destruct chartConfig as [c|]; [|discriminate].
  destruct (negb (truthy c) || negb (typeof_object c)); [discriminate|].
  destruct (get c "type") as [[| | |type_| |]|]; try discriminate.
  destruct (negb (truthy (JStr type_)) || negb (in_strings Chart.chartTypes (JStr type_)))
    eqn:Hty; [discriminate|].
  apply orb_false_iff in Hty as [_ Hty]. apply negb_false_iff in Hty.
  destruct (Chart.tryBlock type_ (get c "data")) as [dataArray| |]; try discriminate.
  destruct (Chart.axisKeys type_ dataArray) as [[xKey_ yKey_]|] eqn:Hax; [|discriminate].
  intros [= <-]. cbn [Chart.type Chart.xKey Chart.yKey Chart.options].
  split; [exact Hty|]. split; [|split; [by apply (axisKeys_cases type_ dataArray)|by eexists]].
  unfold Chart.validateChartData. cbn [Chart.type Chart.data]. rewrite Hty. cbn [negb].
  destruct dataArray as [[| | | |items|]|rows]; try (right; by left).
  - destruct items as [|item items]; [right; by left|].
    destruct (forallb _ _); [by left|right; by right].
  - destruct rows; [right; by left|by left].
Qed.

Lemma transformChartData_validated_witness :
  exists chartData,
    Chart.transformChartData (H := Samples.platform) (Some Samples.barChart)
    = Chart.Normal (Some chartData)
    /\ in_strings Chart.chartTypes (JStr (Chart.type chartData)) = true.
Proof.
  eexists. split; [reflexivity|].
  apply (transformChartData_validated (H := Samples.platform) (Some Samples.barChart)).
  reflexivity.
Defined.
